(** * Event-management REST API: route handlers over a relational store

    Shallow embedding of the Express route handlers (authentication,
    password reset, events, registrations, feedback), of the validation and
    identity-resolution middleware, and of the centralized error handler.

    Conventions.
    - A JavaScript string is the sequence of its code units; code units are
      the 8-bit codes of [ascii].
    - A request field that may be missing is an [option string]
      ([None] is [undefined]).
    - Instants ([Date]) are milliseconds since the epoch, in [Z].
    - The clock, the random salt of bcrypt, the uuid generator and the
      outcome of mail delivery are inputs of the handler that reads them.
    - The store is passed explicitly: a handler maps a store to a store and
      an outcome.
    - A number that holds an integer is a [Z], and [NaN] is [None]. The
      numbers of the source are doubles, which are exact up to [2^53 - 1];
      what is stated on the arithmetic of a handler stays within that
      range, or so far beyond it that rounding does not matter. *)

From Stdlib Require Import ZArith List String Ascii Bool Lia.
From Stdlib Require Import Permutation Sorted DecimalString.
Import ListNotations.

Local Open Scope string_scope.
Local Open Scope list_scope.
Local Open Scope Z_scope.

(* ------------------------------------------------------------------ *)
(** ** JavaScript string primitives used by the sources *)

Module Js.

(** [!v] is false exactly for a present, non-empty string. *)
Definition truthy (v : option string) : bool :=
  match v with
  | Some s => negb (String.eqb s "")
  | None => false
  end.

(** [s.startsWith(p)] *)
Definition startsWith (s p : string) : bool := String.prefix p s.

(** [s.includes(needle)] *)
Fixpoint includes (s needle : string) : bool :=
  String.prefix needle s ||
  match s with
  | EmptyString => false
  | String _ s' => includes s' needle
  end.

(** [`${n}`] for an integer. *)
Definition toString (n : Z) : string := NilZero.string_of_int (Z.to_int n).

Definition code (c : ascii) : Z := Z.of_nat (nat_of_ascii c).

(** One code unit of [toLowerCase]: A-Z, and the upper-case letters of the
    upper half of the 8-bit range (0xC0-0xDE without the sign 0xD7). *)
Definition lower_unit (c : ascii) : ascii :=
  let n := code c in
  if ((65 <=? n) && (n <=? 90)) || ((192 <=? n) && (n <=? 222) && negb (n =? 215))
  then ascii_of_nat (Z.to_nat (n + 32))
  else c.

(** [s.toLowerCase()] *)
Fixpoint toLowerCase (s : string) : string :=
  match s with
  | EmptyString => EmptyString
  | String c s' => String (lower_unit c) (toLowerCase s')
  end.

(** The class [\s] of regular expressions and of [parseInt]'s trimming. *)
Definition isWhiteSpace (c : ascii) : bool :=
  let n := code c in
  ((9 <=? n) && (n <=? 13)) || (n =? 32) || (n =? 160).

Definition isDigit (c : ascii) : bool :=
  let n := code c in (48 <=? n) && (n <=? 57).

Fixpoint trimStart (s : string) : string :=
  match s with
  | String c s' => if isWhiteSpace c then trimStart s' else s
  | EmptyString => EmptyString
  end.

(** Value of the longest prefix of decimal digits; [acc] is [None] until a
    digit has been read. *)
Fixpoint digits (s : string) (acc : option Z) : option Z :=
  match s with
  | String c s' =>
      if isDigit c
      then digits s' (Some (10 * match acc with Some a => a | None => 0 end
                            + (code c - 48)))
      else acc
  | EmptyString => acc
  end.

(** [parseInt(s, 10)]; [None] is [NaN]. *)
Definition parseInt (s : string) : option Z :=
  match trimStart s with
  | String "-" s' => option_map Z.opp (digits s' None)
  | String "+" s' => digits s' None
  | s' => digits s' None
  end.

(** [s.split(sep)] for a separator of one code unit. *)
Fixpoint split (sep : ascii) (s : string) : list string :=
  match s with
  | EmptyString => [EmptyString]
  | String c s' =>
      if Ascii.eqb c sep then EmptyString :: split sep s'
      else match split sep s' with
           | w :: ws => String c w :: ws
           | [] => [String c EmptyString]
           end
  end.

End Js.

(* ------------------------------------------------------------------ *)
(** ** Regular expressions, matched by derivatives *)

Module Regex.

Inductive t : Type :=
| Void
| Eps
| Class (p : ascii -> bool)
| Seq (r1 r2 : t)
| Alt (r1 r2 : t)
| Star (r : t).

Definition Plus (r : t) : t := Seq r (Star r).
Definition Chr (c : ascii) : t := Class (Ascii.eqb c).

Fixpoint nullable (r : t) : bool :=
  match r with
  | Void => false
  | Eps => true
  | Class _ => false
  | Seq r1 r2 => nullable r1 && nullable r2
  | Alt r1 r2 => nullable r1 || nullable r2
  | Star _ => true
  end.

Fixpoint deriv (c : ascii) (r : t) : t :=
  match r with
  | Void => Void
  | Eps => Void
  | Class p => if p c then Eps else Void
  | Seq r1 r2 =>
      if nullable r1
      then Alt (Seq (deriv c r1) r2) (deriv c r2)
      else Seq (deriv c r1) r2
  | Alt r1 r2 => Alt (deriv c r1) (deriv c r2)
  | Star r1 => Seq (deriv c r1) (Star r1)
  end.

(** [/^r$/.test(s)] *)
Fixpoint test (r : t) (s : string) : bool :=
  match s with
  | EmptyString => nullable r
  | String c s' => test (deriv c r) s'
  end.

End Regex.

(* ------------------------------------------------------------------ *)
(** ** JSON values and HTTP responses *)

#[local] Set Warnings "-register-all".

Inductive Json : Type :=
| JNull
| JNum (n : Z)
| JStr (s : string)
| JDate (ms : Z)
| JArr (items : list Json)
| JObj (fields : list (string * Json)).

(** [obj[key]] on a JSON value; [None] when the key is absent. *)
Definition field (key : string) (j : Json) : option Json :=
  match j with
  | JObj fields =>
      option_map snd (find (fun kv => String.eqb (fst kv) key) fields)
  | _ => None
  end.

Definition JOptStr (v : option string) : Json :=
  match v with Some s => JStr s | None => JNull end.

Definition JOptDate (v : option Z) : Json :=
  match v with Some d => JDate d | None => JNull end.

(** [res.status(code).json(body)] *)
Record Response : Type := { res_status : Z; res_body : Json }.

(** [{ message: m }] *)
Definition message_body (m : string) : Json := JObj [("message", JStr m)].

(* ------------------------------------------------------------------ *)
(** ** Error model (Utils/errorHandler) *)

Module ErrorHandler.

(** The properties of an error object that the handler reads. *)
Record JsError : Type := {
  name : string;
  message : string;
  statusCode : option Z;
  status : option string;
  code : option string
}.

(** [new AppError(message, statusCode)] *)
Definition AppError (message : string) (statusCode : Z) : JsError :=
  {| name := "Error";
     message := message;
     statusCode := Some statusCode;
     status := Some (if Js.startsWith (Js.toString statusCode) "4"
                     then "fail" else "error");
     code := None |}.

Definition code_is (err : JsError) (c : string) : bool :=
  match code err with Some c' => String.eqb c' c | None => false end.

(** [errorHandler(err, req, res, next)] *)
Definition errorHandler (err : JsError) : Response :=
  let statusCode0 :=
    match statusCode err with
    | Some n => if n =? 0 then 500 else n
    | None => 500
    end in
  let status0 :=
    match status err with
    | Some s => if String.eqb s "" then "error" else s
    | None => "error"
    end in
  let '(message', statusCode') :=
    if String.eqb (name err) "JsonWebTokenError" then
      ("Invalid token. Please log in again.", 401)
    else if String.eqb (name err) "TokenExpiredError" then
      ("Your token has expired. Please log in again.", 401)
    else if Js.includes (message err) "method not allowed" then
      ("This method is not allowed for the requested endpoint.", 405)
    else if code_is err "P2002" then
      ("Duplicate field value entered.", 400)
    else if Js.includes (message err) "not authorized" then
      ("You are not authorized to perform this action.", 403)
    else if Js.includes (message err) "not found" then
      ("Resource not found.", 404)
    else (message err, statusCode0) in
  {| res_status := statusCode';
     res_body := JObj [("status", JStr status0); ("message", JStr message')] |}.

(** [next(new AppError('Method not allowed', 405))] *)
Definition methodNotAllowedHandler : JsError :=
  AppError "Method not allowed" 405.

End ErrorHandler.
Abbreviation JsError := ErrorHandler.JsError.
Abbreviation AppError := ErrorHandler.AppError.
Abbreviation errorHandler := ErrorHandler.errorHandler.

(** How a handler or a middleware ends: it sends a response itself, or it
    hands an error to [next]. *)
Inductive Outcome : Type :=
| Respond (r : Response)
| Next (err : JsError).

(** [app.use(errorHandler)]: the response the client receives. *)
Definition dispatch (o : Outcome) : Response :=
  match o with
  | Respond r => r
  | Next err => errorHandler err
  end.

(** A middleware either lets the request through with what it computed, or
    ends it. *)
Inductive Middleware (A : Type) : Type :=
| Continue (a : A)
| Stop (o : Outcome).
Arguments Continue {A} a.
Arguments Stop {A} o.

(* ------------------------------------------------------------------ *)
(** ** External collaborators

    The libraries the handlers call and whose code is not part of the
    repository: password hashing, token signing, the store's text collation,
    its order of the rows under the time columns and the texts of its own
    errors. *)

Class Libs : Type := {
  (** [bcrypt.hash(data, rounds)], with the salt it draws *)
  bcrypt_hash : string -> Z -> string -> string;
  (** [bcrypt.compare(data, encrypted)] *)
  bcrypt_compare : string -> string -> bool;
  (** [jwt.sign({ id }, jwtSecret, { expiresIn: '1h' })] at an instant *)
  jwt_sign : Z -> Z -> string;
  (** [jwt.verify(token, jwtSecret).id] at an instant; [None] when it throws *)
  jwt_verify : string -> Z -> option Z;
  (** order of two text values in the store *)
  text_leb : string -> string -> bool;
  (** order, at the time of a query, of two events named by their ids under
      a column that the store fills by itself ([createdAt], [updatedAt]) *)
  stored_leb : string -> Z -> Z -> bool;
  (** message of the store's error of a given code *)
  prisma_message : string -> string;
  (** [process.env.EMAIL] *)
  from_email : string
}.

(* ------------------------------------------------------------------ *)
(** ** Data model

    The declaration of the tables (prisma/schema.prisma) is not among the
    sources. The records hold the columns of the specification's data model
    that the handlers read and write. Columns the store fills by itself
    (creation and update times) are read by no handler and are left out of
    the rows; the list query can sort by them, and the order of the rows
    under them is the store's ([stored_leb]). *)

Module User.
(** Modelled from the spec: the table declaration is missing. A user has an
    id, an email, a password hash, a role among ADMIN, ORGANIZER and
    ATTENDEE, and a reset token and its expiry, both nullable. *)
Record t : Type := {
  id : Z;
  email : string;
  password : string;
  role : string;
  resetToken : option string;
  resetTokenExpiry : option Z
}.

Definition toJson (u : t) : Json :=
  JObj [("id", JNum (id u)); ("email", JStr (email u));
        ("password", JStr (password u)); ("role", JStr (role u));
        ("resetToken", JOptStr (resetToken u));
        ("resetTokenExpiry", JOptDate (resetTokenExpiry u))].
End User.

Module Event.
(** Modelled from the spec: the table declaration is missing. An event has
    an id, a title, a description, a date, a location, the id of its
    organizer and a category; the create route sets no category, so it is
    nullable. *)
Record t : Type := {
  id : Z;
  title : string;
  description : string;
  date : Z;
  location : string;
  organizerId : Z;
  category : option string
}.

Definition toJson (e : t) : Json :=
  JObj [("id", JNum (id e)); ("title", JStr (title e));
        ("description", JStr (description e)); ("date", JDate (date e));
        ("location", JStr (location e));
        ("organizerId", JNum (organizerId e));
        ("category", JOptStr (category e))].
End Event.

Module Registration.
(** Modelled from the spec: the table declaration is missing. A registration
    has an id, a user and an event. *)
Record t : Type := { id : Z; userId : Z; eventId : Z }.

Definition toJson (r : t) : Json :=
  JObj [("id", JNum (id r)); ("userId", JNum (userId r));
        ("eventId", JNum (eventId r))].
End Registration.

Module Feedback.
(** Modelled from the spec: the table declaration is missing. A feedback has
    a user, an event and a text; its id is the one that the feedback route
    reads from the row it found ([existingFeedback.id]). The migration makes
    the pair (userId, eventId) the primary key of the table, so the id
    identifies no row for the store's client. *)
Record t : Type := { id : Z; userId : Z; eventId : Z; feedback : string }.

Definition toJson (f : t) : Json :=
  JObj [("id", JNum (id f)); ("userId", JNum (userId f));
        ("eventId", JNum (eventId f)); ("feedback", JStr (feedback f))].
End Feedback.

(** The relational store: one list of rows per table, and the next value of
    each table's id sequence. A created row goes to the end of its list. The
    order in which the store returns the rows of a query that names no
    order is its own; nothing is stated on it for the events. *)
Record Db : Type := {
  users : list User.t;
  events : list Event.t;
  registrations : list Registration.t;
  feedbacks : list Feedback.t;
  userSeq : Z;
  eventSeq : Z;
  registrationSeq : Z;
  feedbackSeq : Z
}.

Definition set_users (db : Db) (us : list User.t) (seq : Z) : Db :=
  {| users := us; events := events db; registrations := registrations db;
     feedbacks := feedbacks db; userSeq := seq; eventSeq := eventSeq db;
     registrationSeq := registrationSeq db; feedbackSeq := feedbackSeq db |}.

Definition set_events (db : Db) (es : list Event.t) : Db :=
  {| users := users db; events := es; registrations := registrations db;
     feedbacks := feedbacks db; userSeq := userSeq db; eventSeq := eventSeq db;
     registrationSeq := registrationSeq db; feedbackSeq := feedbackSeq db |}.

Definition set_registrations (db : Db) (rs : list Registration.t) (seq : Z) : Db :=
  {| users := users db; events := events db; registrations := rs;
     feedbacks := feedbacks db; userSeq := userSeq db; eventSeq := eventSeq db;
     registrationSeq := seq; feedbackSeq := feedbackSeq db |}.

Definition set_feedbacks (db : Db) (fs : list Feedback.t) (seq : Z) : Db :=
  {| users := users db; events := events db; registrations := registrations db;
     feedbacks := fs; userSeq := userSeq db; eventSeq := eventSeq db;
     registrationSeq := registrationSeq db; feedbackSeq := seq |}.

(** Sorting of rows by a decidable order. *)
Section Sorting.
Context {A : Type} (leb : A -> A -> bool).

Fixpoint insert_sorted (x : A) (l : list A) : list A :=
  match l with
  | [] => [x]
  | y :: l' => if leb x y then x :: l else y :: insert_sorted x l'
  end.

Definition sort_rows (l : list A) : list A := fold_right insert_sorted [] l.
End Sorting.

(* ------------------------------------------------------------------ *)
(** ** The store's client

    The queries the handlers issue, with the uniqueness rules of the tables:
    a user's email is unique, and so is the pair (userId, eventId) of a
    registration and of a feedback. A call that the store rejects returns
    the error it throws. An insert draws the next value of the table's
    sequence before the store checks the row, so a refused insert uses up
    an id.

    The id columns hold 32-bit integers. The queries are modelled on ids of
    that range ([id_in_range]); for a number outside of it, and for [NaN],
    the client throws before any row is read. *)

Module Prisma.
Section WithLibs.
Context {L : Libs}.

(** A rejected request: [P2002] for a violated uniqueness rule, [P2025]
    for a row that an update or a delete needs and does not find, [P2003]
    for a row that others refer to, [P2033] for a number that does not fit
    a 64-bit integer. *)
Definition KnownRequestError (code : string) : JsError :=
  {| ErrorHandler.name := "PrismaClientKnownRequestError";
     ErrorHandler.message := prisma_message code;
     ErrorHandler.statusCode := None;
     ErrorHandler.status := None;
     ErrorHandler.code := Some code |}.

(** A query the client refuses to send, such as an unknown column. *)
Definition ValidationError : JsError :=
  {| ErrorHandler.name := "PrismaClientValidationError";
     ErrorHandler.message := prisma_message "validation";
     ErrorHandler.statusCode := None;
     ErrorHandler.status := None;
     ErrorHandler.code := None |}.

(** The ids that an id column holds. *)
Definition id_in_range (id : Z) : Prop := -2147483648 <= id <= 2147483647.

(** A number of a query fits a 64-bit integer. *)
Definition fits_int64 (n : option Z) : bool :=
  match n with
  | Some v => (-9223372036854775808 <=? v) && (v <=? 9223372036854775807)
  | None => true
  end.

Definition holds_token (resetToken : string) (u : User.t) : bool :=
  match User.resetToken u with
  | Some t => String.eqb t resetToken
  | None => false
  end.

(** [prisma.user.findUnique({ where: { email } })] *)
Definition user_findUnique_email (db : Db) (email : string) : option User.t :=
  find (fun u => String.eqb (User.email u) email) (users db).

(** [prisma.user.findUnique({ where: { id } })] *)
Definition user_findUnique_id (db : Db) (id : Z) : option User.t :=
  find (fun u => User.id u =? id) (users db).

(** [prisma.user.findFirst({ where: { resetToken } })] *)
Definition user_findFirst_resetToken (db : Db) (resetToken : string)
  : option User.t :=
  find (holds_token resetToken) (users db).

(** [prisma.user.create({ data: { email, password, role } })].
    Modelled from the spec: the table declaration is missing; the email is
    unique, the id comes from the table's sequence and the reset fields
    start empty. The result is the store afterwards, with the sequence
    advanced also when the insert is refused, and the created row or the
    error thrown. *)
Definition user_create (db : Db) (email password role : string)
  : Db * (JsError + User.t) :=
  match user_findUnique_email db email with
  | Some _ =>
      (set_users db (users db) (userSeq db + 1),
       inl (KnownRequestError "P2002"))
  | None =>
      let user := {| User.id := userSeq db; User.email := email;
                     User.password := password; User.role := role;
                     User.resetToken := None;
                     User.resetTokenExpiry := None |} in
      (set_users db (users db ++ [user]) (userSeq db + 1), inr user)
  end.

(** [prisma.user.update({ where: { id }, data })]; [data] rewrites the
    row. *)
Definition user_update (db : Db) (id : Z) (data : User.t -> User.t)
  : JsError + Db * User.t :=
  match user_findUnique_id db id with
  | None => inl (KnownRequestError "P2025")
  | Some user =>
      inr (set_users db
             (map (fun u => if User.id u =? id then data u else u) (users db))
             (userSeq db),
           data user)
  end.

(** [prisma.event.findUnique({ where: { id } })] *)
Definition event_findUnique (db : Db) (id : Z) : option Event.t :=
  find (fun e => Event.id e =? id) (events db).

(** [prisma.event.update({ where: { id }, data })] *)
Definition event_update (db : Db) (id : Z) (data : Event.t -> Event.t)
  : JsError + Db * Event.t :=
  match event_findUnique db id with
  | None => inl (KnownRequestError "P2025")
  | Some event =>
      inr (set_events db
             (map (fun e => if Event.id e =? id then data e else e) (events db)),
           data event)
  end.

(** A registration, or a feedback, refers to the event of an id. *)
Definition event_referred (db : Db) (id : Z) : bool :=
  existsb (fun r => Registration.eventId r =? id) (registrations db)
  || existsb (fun f => Feedback.eventId f =? id) (feedbacks db).

(** [prisma.event.delete({ where: { id } })].
    Modelled from the spec: the table declaration is missing; a registration
    and a feedback refer to their event, and the store refuses to delete an
    event that a row refers to, which is why the handler deletes the
    registrations of the event first. *)
Definition event_delete (db : Db) (id : Z) : JsError + Db * Event.t :=
  match event_findUnique db id with
  | None => inl (KnownRequestError "P2025")
  | Some event =>
      if event_referred db id then inl (KnownRequestError "P2003")
      else
        inr (set_events db
               (filter (fun e => negb (Event.id e =? id)) (events db)),
             event)
  end.

(** The filter of the list query: exact match on the columns given. *)
Record EventWhere : Type := {
  where_category : option string;
  where_location : option string
}.

Inductive SortOrder : Type := asc | desc.

Record EventFindManyArgs : Type := {
  where_ : EventWhere;
  orderBy : option (string * SortOrder);
  skip : option Z;
  take : option Z
}.

Definition event_matches (w : EventWhere) (e : Event.t) : bool :=
  match where_category w with
  | Some c =>
      match Event.category e with
      | Some c' => String.eqb c' c
      | None => false
      end
  | None => true
  end &&
  match where_location w with
  | Some l => String.eqb (Event.location e) l
  | None => true
  end.

(** Ascending order of the events under a column; [None] when the table
    has no such column. A missing category sorts after every present
    one. The order under the two time columns is the store's. *)
Definition event_column_leb (column : string)
  : option (Event.t -> Event.t -> bool) :=
  if String.eqb column "id" then
    Some (fun a b => Event.id a <=? Event.id b)
  else if String.eqb column "title" then
    Some (fun a b => text_leb (Event.title a) (Event.title b))
  else if String.eqb column "description" then
    Some (fun a b => text_leb (Event.description a) (Event.description b))
  else if String.eqb column "date" then
    Some (fun a b => Event.date a <=? Event.date b)
  else if String.eqb column "location" then
    Some (fun a b => text_leb (Event.location a) (Event.location b))
  else if String.eqb column "organizerId" then
    Some (fun a b => Event.organizerId a <=? Event.organizerId b)
  else if String.eqb column "category" then
    Some (fun a b =>
            match Event.category a, Event.category b with
            | _, None => true
            | None, Some _ => false
            | Some x, Some y => text_leb x y
            end)
  else if String.eqb column "createdAt" || String.eqb column "updatedAt" then
    Some (fun a b => stored_leb column (Event.id a) (Event.id b))
  else None.

Definition window {A : Type} (skip take : option Z) (l : list A) : list A :=
  let l1 := match skip with
            | Some n => skipn (Z.to_nat n) l
            | None => l
            end in
  match take with
  | Some n => firstn (Z.to_nat n) l1
  | None => l1
  end.

(** [prisma.event.findMany({ where, orderBy, skip, take })]. The client
    refuses a [skip] or a [take] that does not fit a 64-bit integer. The
    numbers are exact integers here; those of the source are doubles, which
    are exact up to [2^53 - 1]. *)
Definition event_findMany (db : Db) (args : EventFindManyArgs)
  : JsError + list Event.t :=
  let rows := filter (event_matches (where_ args)) (events db) in
  match orderBy args with
  | None =>
      if fits_int64 (skip args) && fits_int64 (take args)
      then inr (window (skip args) (take args) rows)
      else inl (KnownRequestError "P2033")
  | Some (column, order) =>
      match event_column_leb column with
      | None => inl ValidationError
      | Some leb =>
          let leb' := match order with
                      | asc => leb
                      | desc => fun a b => leb b a
                      end in
          if fits_int64 (skip args) && fits_int64 (take args)
          then inr (window (skip args) (take args) (sort_rows leb' rows))
          else inl (KnownRequestError "P2033")
      end
  end.

Definition registration_is (userId eventId : Z) (r : Registration.t) : bool :=
  (Registration.userId r =? userId) && (Registration.eventId r =? eventId).

(** [prisma.registration.findUnique({ where: { userId_eventId } })] *)
Definition registration_findUnique (db : Db) (userId eventId : Z)
  : option Registration.t :=
  find (registration_is userId eventId) (registrations db).

(** [prisma.registration.create({ data: { userId, eventId } })].
    Modelled from the spec: the table declaration is missing; the pair
    (userId, eventId) is unique. *)
Definition registration_create (db : Db) (userId eventId : Z)
  : Db * (JsError + Registration.t) :=
  match registration_findUnique db userId eventId with
  | Some _ =>
      (set_registrations db (registrations db) (registrationSeq db + 1),
       inl (KnownRequestError "P2002"))
  | None =>
      let row := {| Registration.id := registrationSeq db;
                    Registration.userId := userId;
                    Registration.eventId := eventId |} in
      (set_registrations db (registrations db ++ [row])
         (registrationSeq db + 1), inr row)
  end.

(** [prisma.registration.deleteMany({ where: { eventId } })] *)
Definition registration_deleteMany_event (db : Db) (eventId : Z) : Db :=
  set_registrations db
    (filter (fun r => negb (Registration.eventId r =? eventId))
       (registrations db))
    (registrationSeq db).

Definition feedback_is (userId eventId : Z) (f : Feedback.t) : bool :=
  (Feedback.userId f =? userId) && (Feedback.eventId f =? eventId).

(** [prisma.feedback.findUnique({ where: { userId_eventId } })] *)
Definition feedback_findUnique (db : Db) (userId eventId : Z)
  : option Feedback.t :=
  find (feedback_is userId eventId) (feedbacks db).

(** [prisma.feedback.create({ data: { userId, eventId, feedback } })].
    Modelled from the spec: the table declaration is missing; the pair
    (userId, eventId) is unique. *)
Definition feedback_create (db : Db) (userId eventId : Z) (feedback : string)
  : Db * (JsError + Feedback.t) :=
  match feedback_findUnique db userId eventId with
  | Some _ =>
      (set_feedbacks db (feedbacks db) (feedbackSeq db + 1),
       inl (KnownRequestError "P2002"))
  | None =>
      let row := {| Feedback.id := feedbackSeq db;
                    Feedback.userId := userId;
                    Feedback.eventId := eventId;
                    Feedback.feedback := feedback |} in
      (set_feedbacks db (feedbacks db ++ [row]) (feedbackSeq db + 1), inr row)
  end.

(** [prisma.feedback.update({ where: { id }, data: { feedback } })].
    Modelled from the spec: the table declaration is missing; an update
    selects its row by a unique key of the table, and the only one of a
    feedback is the pair (userId, eventId), which the migration makes the
    primary key. The selector [{ id }] names none, so the client refuses
    the query, whatever the id and the text, and the store stays as it
    is. *)
Definition feedback_update (db : Db) (id : Z) (feedback : string)
  : JsError + Db * Feedback.t :=
  inl ValidationError.

End WithLibs.
End Prisma.

(* ------------------------------------------------------------------ *)
(** ** Validation of registration data (Utils/validate) *)

Module validate.

Import Regex.

(** [[^\s@]] *)
Definition notSpaceNorAt (c : ascii) : bool :=
  negb (Js.isWhiteSpace c) && negb (Ascii.eqb c "@").

(** [/^[^\s@]+@[^\s@]+\.[^\s@]+$/] *)
Definition emailRegex : Regex.t :=
  Seq (Plus (Class notSpaceNorAt))
    (Seq (Chr "@")
       (Seq (Plus (Class notSpaceNorAt))
          (Seq (Chr ".") (Plus (Class notSpaceNorAt))))).

Definition validateEmail (email : string) : bool := Regex.test emailRegex email.

Definition validatePassword (password : string) : bool :=
  8 <=? Z.of_nat (String.length password).

Definition validateRole (role : string) : bool :=
  existsb (String.eqb role) ["ADMIN"; "ORGANIZER"; "ATTENDEE"].

Record RegisterBody : Type := {
  email : option string;
  password : option string;
  role : option string
}.

(** The value of a field for which [!v || !ok(v)] is false. *)
Definition checked (v : option string) (ok : string -> bool) : option string :=
  match v with
  | Some s => if Js.truthy v && ok s then Some s else None
  | None => None
  end.

(** [validateRegisterData(req, res, next)]; on [next()] the three fields
    that the handler reads from the body are passed on. *)
Definition validateRegisterData (body : RegisterBody)
  : Middleware (string * string * string) :=
  match checked (email body) validateEmail with
  | None => Stop (Next (AppError "Valid email is required" 400))
  | Some email =>
      match checked (password body) validatePassword with
      | None =>
          Stop (Next (AppError "Password must be at least 8 characters long" 400))
      | Some password =>
          match checked (role body) validateRole with
          | None =>
              Stop (Next (AppError
                "Valid role is required (e.g. 'ADMIN', 'ORGANIZER', 'ATTENDEE')"
                400))
          | Some role => Continue (email, password, role)
          end
      end
  end.

End validate.

(* ------------------------------------------------------------------ *)
(** ** Identity resolution (Utils/protect) *)

Module Protect.
Section WithLibs.
Context {L : Libs}.

(** [protect(req, res, next)]: the user attached to the request, or the
    error handed on. A missing header, a header without a second word and a
    token that does not verify all throw inside the [try]. *)
Definition protect (db : Db) (authorization : option string) (now : Z)
  : Middleware User.t :=
  let notAuthorized := Stop (Next (AppError "Not authorized" 401)) in
  match authorization with
  | None => notAuthorized
  | Some header =>
      match nth_error (Js.split " " header) 1 with
      | None => notAuthorized
      | Some token =>
          match jwt_verify token now with
          | None => notAuthorized
          | Some id =>
              match Prisma.user_findUnique_id db id with
              | None => Stop (Next (AppError "No user found with this id" 404))
              | Some user => Continue user
              end
          end
      end
  end.

(** A protected route: the handler runs on the resolved user, and whatever
    is handed to [next] goes through the error handler. *)
Definition protected (db : Db) (authorization : option string) (now : Z)
    (handler : User.t -> Db * Outcome) : Db * Response :=
  match protect db authorization now with
  | Stop o => (db, dispatch o)
  | Continue user => let '(db', o) := handler user in (db', dispatch o)
  end.

End WithLibs.
End Protect.

(* ------------------------------------------------------------------ *)
(** ** Authentication routes (Routes/authRoutes) *)

Module authRoutes.
Section WithLibs.
Context {L : Libs}.

(** Handler of [POST /register], after validation. *)
Definition register (db : Db) (email password role salt : string)
  : Db * Outcome :=
  let hashedPassword := bcrypt_hash password 12 salt in
  match Prisma.user_create db email hashedPassword role with
  | (db', inr user) =>
      (db', Respond {| res_status := 201;
                       res_body := JObj [("user", User.toJson user)] |})
  | (db', inl err) =>
      if ErrorHandler.code_is err "P2002"
      then (db', Next (AppError "Email already exists" 400))
      else (db', Next err)
  end.

(** [router.post('/register', validateRegisterData, ...)] *)
Definition post_register (db : Db) (body : validate.RegisterBody)
    (salt : string) : Db * Response :=
  match validate.validateRegisterData body with
  | Stop o => (db, dispatch o)
  | Continue (email, password, role) =>
      let '(db', o) := register db email password role salt in
      (db', dispatch o)
  end.

(** Handler of [POST /login]. *)
Definition login (db : Db) (email password : string) (now : Z) : Outcome :=
  let incorrect := Next (AppError "Incorrect email or password" 401) in
  match Prisma.user_findUnique_email db email with
  | None => incorrect
  | Some user =>
      if negb (bcrypt_compare password (User.password user)) then incorrect
      else
        let token := jwt_sign (User.id user) now in
        Respond {| res_status := 200;
                   res_body := JObj [("token", JStr token)] |}
  end.

(** [router.route('/login').post(...)] *)
Definition post_login (db : Db) (email password : string) (now : Z)
  : Db * Response :=
  (db, dispatch (login db email password now)).

End WithLibs.
End authRoutes.

(* ------------------------------------------------------------------ *)
(** ** Password reset routes (Routes/passwordRoutes) *)

Module passwordRoutes.
Section WithLibs.
Context {L : Libs}.

(** [mailOptions] *)
Record Mail : Type := {
  mail_from : string;
  mail_to : string;
  mail_subject : string;
  mail_text : string
}.

(** What a request does besides answering, in the order it does it: it
    writes the store (leaving it as given) or hands a mail to the
    transport. *)
Inductive Effect : Type :=
| Persisted (db : Db)
| Dispatched (m : Mail).

Definition set_reset (resetToken : option string) (resetTokenExpiry : option Z)
    (u : User.t) : User.t :=
  {| User.id := User.id u; User.email := User.email u;
     User.password := User.password u; User.role := User.role u;
     User.resetToken := resetToken;
     User.resetTokenExpiry := resetTokenExpiry |}.

Definition set_password (password : string) (u : User.t) : User.t :=
  {| User.id := User.id u; User.email := User.email u;
     User.password := password; User.role := User.role u;
     User.resetToken := User.resetToken u;
     User.resetTokenExpiry := User.resetTokenExpiry u |}.

(** Handler of [POST /password-reset]. [resetToken] is the value of
    [uuidv4()], [now] of [Date.now()], and [delivered] tells whether the
    transport calls back without an error. *)
Definition password_reset (db : Db) (email resetToken : string) (now : Z)
    (delivered : bool) : Db * list Effect * Outcome :=
  match Prisma.user_findUnique_email db email with
  | None =>
      (db, [], Respond {| res_status := 404;
                          res_body := message_body "User not found" |})
  | Some user =>
      match Prisma.user_update db (User.id user)
              (set_reset (Some resetToken) (Some (now + 3600000))) with
      | inl err => (db, [], Next err)
      | inr (db', _) =>
          let mailOptions :=
            {| mail_from := from_email;
               mail_to := User.email user;
               mail_subject := "Password Reset Request";
               mail_text :=
                 String.append
                   "Click on the following link to reset your password: http://localhost:3000/reset-password/"
                   resetToken |} in
          (db', [Persisted db'; Dispatched mailOptions],
           if delivered
           then Respond {| res_status := 200;
                           res_body := message_body "Password reset email sent" |}
           else Respond {| res_status := 500;
                           res_body :=
                             message_body "Failed to send password reset email" |})
      end
  end.

(** [expiry < new Date()], where a null expiry compares as the epoch. *)
Definition before (expiry : option Z) (now : Z) : bool :=
  match expiry with
  | Some e => e <? now
  | None => 0 <? now
  end.

(** Handler of [POST /reset-password/:resetToken]. *)
Definition reset_password (db : Db) (resetToken newPassword salt : string)
    (now : Z) : Db * Outcome :=
  let invalid :=
    Respond {| res_status := 400;
               res_body := message_body "Invalid or expired reset token" |} in
  match Prisma.user_findFirst_resetToken db resetToken with
  | None => (db, invalid)
  | Some user =>
      if before (User.resetTokenExpiry user) now then (db, invalid)
      else
        let hashedPassword := bcrypt_hash newPassword 10 salt in
        match Prisma.user_update db (User.id user)
                (fun u => set_reset None None (set_password hashedPassword u)) with
        | inl err => (db, Next err)
        | inr (db', _) =>
            (db', Respond {| res_status := 200;
                             res_body :=
                               message_body "Password reset successful" |})
        end
  end.

(** The two routes as the client sees them. *)
Definition post_password_reset (db : Db) (email resetToken : string) (now : Z)
    (delivered : bool) : Db * Response :=
  let '(db', _, o) := password_reset db email resetToken now delivered in
  (db', dispatch o).

Definition post_reset_password (db : Db) (resetToken newPassword salt : string)
    (now : Z) : Db * Response :=
  let '(db', o) := reset_password db resetToken newPassword salt now in
  (db', dispatch o).

End WithLibs.
End passwordRoutes.

(* ------------------------------------------------------------------ *)
(** ** Event routes (Routes/eventRoutes)

    A handler takes the user that [protect] attached to the request. An
    [eventId] is the number that [parseInt(req.params.eventId, 10)] yields
    for a path parameter that denotes an id of the column
    ([Prisma.id_in_range]). For any other parameter the first query that
    receives the number throws, and the handler passes the error on; the
    statements on a row that is not found are made for ids of the range. *)

Module eventRoutes.
Section WithLibs.
Context {L : Libs}.

Definition pageSize : Z := 10.

Definition noPermission : Outcome :=
  Next (AppError "You do not have permission to perform this action" 403).

(** The body of an update: the four fields, [date] being the instant that
    [new Date(date)] denotes. *)
Record EventBody : Type := {
  title : string;
  description : string;
  date : Z;
  location : string
}.

Definition patch (body : EventBody) (e : Event.t) : Event.t :=
  {| Event.id := Event.id e;
     Event.title := title body;
     Event.description := description body;
     Event.date := date body;
     Event.location := location body;
     Event.organizerId := Event.organizerId e;
     Event.category := Event.category e |}.

(** Handler of [PUT /:eventId]. *)
Definition put_event (db : Db) (user : User.t) (eventId : Z) (body : EventBody)
  : Db * Outcome :=
  if String.eqb (User.role user) "ATTENDEE" then (db, noPermission)
  else
    match Prisma.event_findUnique db eventId with
    | None =>
        (db, Respond {| res_status := 404;
                        res_body := message_body "Event not found" |})
    | Some event =>
        if negb (Event.organizerId event =? User.id user)
           && negb (String.eqb (User.role user) "ADMIN")
        then
          (db, Respond {| res_status := 403;
                          res_body := message_body
                            "Forbidden: You do not have permission to update this event" |})
        else
          match Prisma.event_update db eventId (patch body) with
          | inl err => (db, Next err)
          | inr (db', updatedEvent) =>
              (db', Respond {| res_status := 200;
                               res_body :=
                                 JObj [("message", JStr "Event updated successfully");
                                       ("event", Event.toJson updatedEvent)] |})
          end
    end.

(** Handler of [DELETE /:eventId]. The registrations of the event are
    deleted first, and stay deleted if the deletion of the event fails, as
    it does when a feedback refers to the event. *)
Definition delete_event (db : Db) (user : User.t) (eventId : Z) : Db * Outcome :=
  if String.eqb (User.role user) "ATTENDEE" then (db, noPermission)
  else
    match Prisma.event_findUnique db eventId with
    | None =>
        (db, Respond {| res_status := 404;
                        res_body := message_body "Event not found" |})
    | Some event =>
        if negb (Event.organizerId event =? User.id user)
           && negb (String.eqb (User.role user) "ADMIN")
        then
          (db, Respond {| res_status := 403;
                          res_body := message_body
                            "Forbidden: You do not have permission to delete this event" |})
        else
          let db1 := Prisma.registration_deleteMany_event db eventId in
          match Prisma.event_delete db1 eventId with
          | inl err => (db1, Next err)
          | inr (db2, _) =>
              (db2, Respond {| res_status := 200;
                               res_body :=
                                 message_body "Event deleted successfully" |})
          end
    end.

(** [req.query] of the list route. *)
Record ListQuery : Type := {
  query_category : option string;
  query_location : option string;
  query_sortBy : option string;
  query_sortOrder : option string
}.

(** A query parameter when it is truthy. *)
Definition given (v : option string) : option string :=
  if Js.truthy v then v else None.

(** [sortOrder?.toString().toLowerCase() === 'desc' ? 'desc' : 'asc'] *)
Definition direction (sortOrder : option string) : Prisma.SortOrder :=
  match sortOrder with
  | Some s => if String.eqb (Js.toLowerCase s) "desc"
              then Prisma.desc else Prisma.asc
  | None => Prisma.asc
  end.

(** The arguments that the list route passes to [findMany]. *)
Definition list_args (q : ListQuery) : Prisma.EventFindManyArgs :=
  {| Prisma.where_ := {| Prisma.where_category := given (query_category q);
                         Prisma.where_location := given (query_location q) |};
     Prisma.orderBy :=
       match given (query_sortBy q) with
       | Some column => Some (column, direction (query_sortOrder q))
       | None => None
       end;
     Prisma.skip := None;
     Prisma.take := None |}.

(** Handler of [GET /]. *)
Definition get_events (db : Db) (user : User.t) (q : ListQuery) : Db * Outcome :=
  match Prisma.event_findMany db (list_args q) with
  | inl err => (db, Next err)
  | inr events =>
      (db, Respond {| res_status := 200;
                      res_body := JArr (map Event.toJson events) |})
  end.

(** The arguments that the page route passes to [findMany]. *)
Definition page_args (pageNumber : Z) : Prisma.EventFindManyArgs :=
  {| Prisma.where_ := {| Prisma.where_category := None;
                         Prisma.where_location := None |};
     Prisma.orderBy := Some ("id", Prisma.asc);
     Prisma.skip := Some ((pageNumber - 1) * pageSize);
     Prisma.take := Some pageSize |}.

(** Handler of [GET /page/:pageNumber], on the text of the path parameter. *)
Definition get_page (db : Db) (user : User.t) (pageNumberParam : string)
  : Db * Outcome :=
  let invalid :=
    Respond {| res_status := 400;
               res_body := message_body "Invalid page number" |} in
  match Js.parseInt pageNumberParam with
  | None => (db, invalid)
  | Some pageNumber =>
      if pageNumber <? 1 then (db, invalid)
      else
        match Prisma.event_findMany db (page_args pageNumber) with
        | inl err => (db, Next err)
        | inr events =>
            (db, Respond {| res_status := 200;
                            res_body := JArr (map Event.toJson events) |})
        end
  end.

(** Handler of [POST /:eventId/register]. *)
Definition register (db : Db) (user : User.t) (eventId : Z) : Db * Outcome :=
  let userId := User.id user in
  match Prisma.event_findUnique db eventId with
  | None => (db, Next (AppError "Event not found" 404))
  | Some _ =>
      match Prisma.registration_findUnique db userId eventId with
      | Some _ =>
          (db, Next (AppError "You are already registered for this event" 400))
      | None =>
          match Prisma.registration_create db userId eventId with
          | (db', inl err) => (db', Next err)
          | (db', inr newRegistration) =>
              (db', Respond {| res_status := 201;
                               res_body :=
                                 JObj [("registration",
                                        Registration.toJson newRegistration)] |})
          end
      end
  end.

(** Handler of [POST /:eventId/feedback]. The update of a feedback found is
    asked by [existingFeedback.id]. *)
Definition feedback (db : Db) (user : User.t) (eventId : Z) (text : string)
  : Db * Outcome :=
  let userId := User.id user in
  match Prisma.registration_findUnique db userId eventId with
  | None => (db, Next (AppError "You are not registered for this event" 400))
  | Some _ =>
      match Prisma.feedback_findUnique db userId eventId with
      | Some existingFeedback =>
          match Prisma.feedback_update db (Feedback.id existingFeedback) text with
          | inl err => (db, Next err)
          | inr (db', updated) =>
              (db', Respond {| res_status := 200;
                               res_body :=
                                 JObj [("feedback", Feedback.toJson updated)] |})
          end
      | None =>
          match Prisma.feedback_create db userId eventId text with
          | (db', inl err) => (db', Next err)
          | (db', inr newFeedback) =>
              (db', Respond {| res_status := 201;
                               res_body :=
                                 JObj [("feedback", Feedback.toJson newFeedback)] |})
          end
      end
  end.

(** A route as the client sees it: the store afterwards and the response. *)
Definition served (r : Db * Outcome) : Db * Response :=
  (fst r, dispatch (snd r)).

End WithLibs.
End eventRoutes.

(* ------------------------------------------------------------------ *)
(** ** Notions used in the statements *)

(** The state of a user with a reset under way. *)
Definition PendingReset (u : User.t) : Prop := User.resetToken u <> None.

(** The user row after a consumed reset. *)
Definition after_reset (hashedPassword : string) (u : User.t) : User.t :=
  {| User.id := User.id u; User.email := User.email u;
     User.password := hashedPassword; User.role := User.role u;
     User.resetToken := None; User.resetTokenExpiry := None |}.

(** The user row after a requested reset. *)
Definition after_request (resetToken : string) (expiry : Z) (u : User.t)
  : User.t :=
  {| User.id := User.id u; User.email := User.email u;
     User.password := User.password u; User.role := User.role u;
     User.resetToken := Some resetToken;
     User.resetTokenExpiry := Some expiry |}.

(** Number of registration rows, and of feedback rows, of a pair. *)
Definition count_registrations (db : Db) (userId eventId : Z) : nat :=
  List.length (filter (Prisma.registration_is userId eventId) (registrations db)).

Definition count_feedbacks (db : Db) (userId eventId : Z) : nat :=
  List.length (filter (Prisma.feedback_is userId eventId) (feedbacks db)).

(** The body that the error handler sends for an error of the 4xx class. *)
Definition failure (m : string) : Json :=
  JObj [("status", JStr "fail"); ("message", JStr m)].

(** Successive feedback submissions of one user for one event: the store
    afterwards and the status of each answer, in order. *)
Fixpoint submit_all {L : Libs} (db : Db) (user : User.t) (eventId : Z)
    (texts : list string) : Db * list Z :=
  match texts with
  | [] => (db, [])
  | text :: rest =>
      let '(db1, resp) := eventRoutes.served (eventRoutes.feedback db user eventId text) in
      let '(db2, statuses) := submit_all db1 user eventId rest in
      (db2, res_status resp :: statuses)
  end.

(** An error message with none of the phrases that make the error handler
    change the status. *)
Definition plain_message (m : string) : Prop :=
  Js.includes m "not found" = false /\
  Js.includes m "not authorized" = false /\
  Js.includes m "method not allowed" = false.

(** The largest integer up to which the numbers of the source are exact
    ([Number.MAX_SAFE_INTEGER]). *)
Definition max_safe_integer : Z := 9007199254740991.

(** Events in ascending order of id. *)
Definition by_id (a b : Event.t) : Prop := Event.id a <= Event.id b.

(** What the specification asks of the response to a registration: the
    user object of the body has no password field. *)
Definition hash_excluded (resp : Response) : Prop :=
  forall user, field "user" (res_body resp) = Some user ->
               field "password" user = None.

(** What the specification asks of the sort direction of the list query:
    descending exactly for the parameter ["desc"]. *)
Definition desc_only_when_exactly_desc (q : eventRoutes.ListQuery) : Prop :=
  forall column order,
    Prisma.orderBy (eventRoutes.list_args q) = Some (column, order) ->
    (order = Prisma.desc <-> eventRoutes.query_sortOrder q = Some "desc").

(** The spellings of ["desc"] in either letter case. *)
Definition desc_spellings : list string :=
  ["desc"; "desC"; "deSc"; "deSC"; "dEsc"; "dEsC"; "dESc"; "dESC";
   "Desc"; "DesC"; "DeSc"; "DeSC"; "DEsc"; "DEsC"; "DESc"; "DESC"].

(** The order of event ids as a decidable relation. *)
Definition id_leb (a b : Event.t) : bool := Event.id a <=? Event.id b.

(* ------------------------------------------------------------------ *)
(** ** Example data

    A stand-in for the external collaborators, on which the handlers can be
    run, and a small store. The stand-in hash keeps the salt and the data
    apart by a colon. *)

Definition demo_hash (data : string) (rounds : Z) (salt : string) : string :=
  String.append salt (String.append ":" data).

Definition demo_compare (data encrypted : string) : bool :=
  match Js.split ":" encrypted with
  | [_; d] => String.eqb d data
  | _ => false
  end.

#[local] Instance demo_libs : Libs := {|
  bcrypt_hash := demo_hash;
  bcrypt_compare := demo_compare;
  jwt_sign := fun id now => String.append "jwt." (Js.toString id);
  jwt_verify := fun token now =>
    match Js.split "." token with
    | [_; id] => Js.parseInt id
    | _ => None
    end;
  text_leb := String.leb;
  stored_leb := fun column a b => a <=? b;
  prisma_message := fun code => String.append "Invalid invocation: " code;
  from_email := "events@example.com"
|}.

Definition alice : User.t :=
  {| User.id := 1; User.email := "alice@example.com";
     User.password := "s1:password123"; User.role := "ORGANIZER";
     User.resetToken := None; User.resetTokenExpiry := None |}.

Definition bob : User.t :=
  {| User.id := 2; User.email := "bob@example.com";
     User.password := "s2:password456"; User.role := "ATTENDEE";
     User.resetToken := Some "tok-bob"; User.resetTokenExpiry := Some 5000 |}.

Definition carol : User.t :=
  {| User.id := 3; User.email := "carol@example.com";
     User.password := "s3:password789"; User.role := "ADMIN";
     User.resetToken := None; User.resetTokenExpiry := None |}.

Definition dave : User.t :=
  {| User.id := 4; User.email := "dave@example.com";
     User.password := "s4:password000"; User.role := "ORGANIZER";
     User.resetToken := None; User.resetTokenExpiry := None |}.

Definition workshop : Event.t :=
  {| Event.id := 7; Event.title := "Workshop on React";
     Event.description := "Learn React fundamentals"; Event.date := 1720605600000;
     Event.location := "Online"; Event.organizerId := 1;
     Event.category := Some "tech" |}.

Definition meetup : Event.t :=
  {| Event.id := 5; Event.title := "Meetup";
     Event.description := "Monthly meetup"; Event.date := 1721037600000;
     Event.location := "Virtual"; Event.organizerId := 4;
     Event.category := None |}.

Definition demo_db : Db :=
  {| users := [alice; bob; carol; dave];
     events := [workshop; meetup];
     registrations :=
       [{| Registration.id := 1; Registration.userId := 2;
           Registration.eventId := 7 |}];
     feedbacks := [];
     userSeq := 5; eventSeq := 8; registrationSeq := 2; feedbackSeq := 1 |}.

Definition demo_body : eventRoutes.EventBody :=
  {| eventRoutes.title := "Updated Workshop on React Hooks";
     eventRoutes.description := "Join us for an advanced session on React Hooks.";
     eventRoutes.date := 1721001600000;
     eventRoutes.location := "Virtual" |}.

Definition demo_register_body : validate.RegisterBody :=
  {| validate.email := Some "a@x.com";
     validate.password := Some "pw123456";
     validate.role := Some "ATTENDEE" |}.

(** The store after a first feedback of bob for event 7. *)
Definition demo_db_feedback : Db :=
  fst (eventRoutes.served (eventRoutes.feedback demo_db bob 7 "Great event")).

(** A list query that sorts by date with the order written in capitals. *)
Definition demo_query : eventRoutes.ListQuery :=
  {| eventRoutes.query_category := None;
     eventRoutes.query_location := None;
     eventRoutes.query_sortBy := Some "date";
     eventRoutes.query_sortOrder := Some "DESC" |}.

(** Case analysis on the eight bits of a code unit. *)
Ltac by_cases_on_unit c :=
  destruct c as [[] [] [] [] [] [] [] []]; vm_compute;
  (discriminate || (intros _; auto)).

(* ------------------------------------------------------------------ *)
(** ** The remaining queries of the store's client *)

Module PrismaRest.

(** [prisma.event.create({ data: { title, description, date, location,
    organizerId } })]. Modelled from the spec: the table declaration is
    missing; the id comes from the table's sequence, no column of an event
    is unique besides it, and the category, which the route does not set,
    is empty. *)
Definition event_create (db : Db) (title description : string) (date : Z)
    (location : string) (organizerId : Z) : Db * Event.t :=
  let event := {| Event.id := eventSeq db; Event.title := title;
                  Event.description := description; Event.date := date;
                  Event.location := location;
                  Event.organizerId := organizerId;
                  Event.category := None |} in
  ({| users := users db; events := events db ++ [event];
      registrations := registrations db; feedbacks := feedbacks db;
      userSeq := userSeq db; eventSeq := eventSeq db + 1;
      registrationSeq := registrationSeq db;
      feedbackSeq := feedbackSeq db |}, event).

(** [prisma.registration.deleteMany({ where: { userId, eventId } })]: the
    store afterwards and the [count] of deleted rows. *)
Definition registration_deleteMany (db : Db) (userId eventId : Z) : Db * Z :=
  (set_registrations db
     (filter (fun r => negb (Prisma.registration_is userId eventId r))
        (registrations db))
     (registrationSeq db),
   Z.of_nat (List.length (filter (Prisma.registration_is userId eventId)
                            (registrations db)))).

(** [prisma.registration.findMany({ where: { userId }, include: { event:
    true } })]: each row of the user with the event it refers to. *)
Definition registration_findMany_user (db : Db) (userId : Z)
  : list (Registration.t * option Event.t) :=
  map (fun r => (r, Prisma.event_findUnique db (Registration.eventId r)))
    (filter (fun r => Registration.userId r =? userId) (registrations db)).

End PrismaRest.

(* ------------------------------------------------------------------ *)
(** ** The remaining event routes (Routes/eventRoutes) *)

Module eventRoutesRest.
Section WithLibs.
Context {L : Libs}.

(** Handler of [POST /] of the events. *)
Definition create_event (db : Db) (user : User.t) (body : eventRoutes.EventBody)
  : Db * Outcome :=
  if negb (String.eqb (User.role user) "ORGANIZER")
  then (db, eventRoutes.noPermission)
  else
    let '(db', event) :=
      PrismaRest.event_create db (eventRoutes.title body)
        (eventRoutes.description body) (eventRoutes.date body)
        (eventRoutes.location body) (User.id user) in
    (db', Respond {| res_status := 201;
                     res_body := JObj [("event", Event.toJson event)] |}).

(** Handler of [DELETE /delete/:eventId]; [eventId] as in the other event
    routes. *)
Definition unregister (db : Db) (user : User.t) (eventId : Z) : Db * Outcome :=
  let userId := User.id user in
  let '(db', count) := PrismaRest.registration_deleteMany db userId eventId in
  if count =? 0
  then (db', Next (AppError "You are not registered for this event" 400))
  else (db', Respond {| res_status := 200;
                        res_body :=
                          message_body "Registration deleted successfully" |}).

(** A registration with its event, as [include: { event: true }] shows it. *)
Definition registration_with_event (row : Registration.t * option Event.t)
  : Json :=
  JObj [("id", JNum (Registration.id (fst row)));
        ("userId", JNum (Registration.userId (fst row)));
        ("eventId", JNum (Registration.eventId (fst row)));
        ("event", match snd row with
                  | Some e => Event.toJson e
                  | None => JNull
                  end)].

(** Handler of [GET /history]. *)
Definition history (db : Db) (user : User.t) : Db * Outcome :=
  if negb (String.eqb (User.role user) "ATTENDEE")
  then (db, eventRoutes.noPermission)
  else
    let registrations := PrismaRest.registration_findMany_user db (User.id user) in
    (db, Respond {| res_status := 200;
                    res_body :=
                      JObj [("registrations",
                             JArr (map registration_with_event registrations))] |}).

End WithLibs.
End eventRoutesRest.

(* ------------------------------------------------------------------ *)
(** ** The remaining authentication routes (Routes/authRoutes) *)

Module authRoutesRest.
Section DeleteUser.

(** [prisma.user.delete({ where: { id } })] on the number that [parseInt]
    yields ([None] is [NaN]): the store afterwards, or the error thrown.
    What the store does with the rows that refer to the user is declared
    with the tables, which are not among the sources; the handler is
    modelled for any such store. *)
Variable user_delete : Db -> option Z -> JsError + Db.

(** [req.user.id !== parseInt(userId, 10)] *)
Definition differs (id : Z) (parsed : option Z) : bool :=
  match parsed with
  | Some n => negb (id =? n)
  | None => true
  end.

(** Handler of [DELETE /users/:userId], on the text of the path parameter. *)
Definition delete_user (db : Db) (user : User.t) (userIdParam : string)
  : Db * Outcome :=
  if negb (String.eqb (User.role user) "ADMIN")
     && differs (User.id user) (Js.parseInt userIdParam)
  then
    (db, Respond {| res_status := 403;
                    res_body :=
                      message_body
                        "You do not have permission to delete this user" |})
  else
    match user_delete db (Js.parseInt userIdParam) with
    | inl err => (db, Next err)
    | inr db' =>
        (db', Respond {| res_status := 200;
                         res_body := message_body "User deleted successfully" |})
    end.

End DeleteUser.

End authRoutesRest.

(* ------------------------------------------------------------------ *)
(** ** Further notions used in the statements *)

(** The strings that a regular expression denotes. *)
Inductive Matches : Regex.t -> string -> Prop :=
| MatchesEps : Matches Regex.Eps ""
| MatchesClass (p : ascii -> bool) (c : ascii) :
    p c = true -> Matches (Regex.Class p) (String c "")
| MatchesSeq (r1 r2 : Regex.t) (s1 s2 : string) :
    Matches r1 s1 -> Matches r2 s2 ->
    Matches (Regex.Seq r1 r2) (String.append s1 s2)
| MatchesAltL (r1 r2 : Regex.t) (s : string) :
    Matches r1 s -> Matches (Regex.Alt r1 r2) s
| MatchesAltR (r1 r2 : Regex.t) (s : string) :
    Matches r2 s -> Matches (Regex.Alt r1 r2) s
| MatchesStarNil (r : Regex.t) : Matches (Regex.Star r) ""
| MatchesStarApp (r : Regex.t) (s1 s2 : string) :
    Matches r s1 -> Matches (Regex.Star r) s2 ->
    Matches (Regex.Star r) (String.append s1 s2).

(** Every code unit of a string satisfies a test. *)
Fixpoint all_units (p : ascii -> bool) (s : string) : bool :=
  match s with
  | EmptyString => true
  | String c s' => p c && all_units p s'
  end.

(** A part of an email address: not empty, without white space and
    without ["@"]. *)
Definition email_part (s : string) : Prop :=
  s <> "" /\ all_units validate.notSpaceNorAt s = true.

(** A word of a header: without a space. *)
Definition word (s : string) : Prop :=
  all_units (fun c => negb (Ascii.eqb c " ")) s = true.

(** The pair that a registration, and a feedback, is unique on. *)
Definition registration_pair (r : Registration.t) : Z * Z :=
  (Registration.userId r, Registration.eventId r).

Definition feedback_pair (f : Feedback.t) : Z * Z :=
  (Feedback.userId f, Feedback.eventId f).

(** The rules of the tables: in each table the ids are distinct and below
    the next value of the sequence; emails are distinct; a pair of a user
    and an event has at most one registration and at most one feedback. *)
Record store_ok (db : Db) : Prop := {
  ok_user_ids : NoDup (map User.id (users db));
  ok_user_seq : Forall (fun u => User.id u < userSeq db) (users db);
  ok_user_emails : NoDup (map User.email (users db));
  ok_event_ids : NoDup (map Event.id (events db));
  ok_event_seq : Forall (fun e => Event.id e < eventSeq db) (events db);
  ok_registration_ids : NoDup (map Registration.id (registrations db));
  ok_registration_seq :
    Forall (fun r => Registration.id r < registrationSeq db) (registrations db);
  ok_registration_pairs : NoDup (map registration_pair (registrations db));
  ok_feedback_ids : NoDup (map Feedback.id (feedbacks db));
  ok_feedback_seq :
    Forall (fun f => Feedback.id f < feedbackSeq db) (feedbacks db);
  ok_feedback_pairs : NoDup (map feedback_pair (feedbacks db))
}.

(** The events of a page, as the page route orders and cuts them. *)
Definition page_events (db : Db) (pageNumber : Z) : list Event.t :=
  firstn 10 (skipn (Z.to_nat ((pageNumber - 1) * 10))
               (sort_rows id_leb (events db))).



(** A store's delete that removes the row of the id and nothing else, for
    the examples. *)
Definition demo_user_delete (db : Db) (id : option Z) : JsError + Db :=
  match id with
  | Some n =>
      match Prisma.user_findUnique_id db n with
      | Some _ =>
          inr (set_users db (filter (fun u => negb (User.id u =? n)) (users db))
                 (userSeq db))
      | None => inl (Prisma.KnownRequestError "P2025")
      end
  | None => inl Prisma.ValidationError
  end.

(* ------------------------------------------------------------------ *)
(** ** Lemmas on the store's client *)

Lemma checked_Some (v : option string) (ok : string -> bool) (s : string) :
  validate.checked v ok = Some s -> v = Some s /\ s <> "" /\ ok s = true.
Proof.
  unfold validate.checked. destruct v as [x|]; [|discriminate].
  destruct (Js.truthy (Some x) && ok x) eqn:E; [|discriminate].
  intros [= <-]. apply andb_prop in E as [Ht Hok]. repeat split; auto.
  intros ->. discriminate.
Qed.

Lemma checked_intro (s : string) (ok : string -> bool) :
  s <> "" -> ok s = true -> validate.checked (Some s) ok = Some s.
Proof.
  intros Hne Hok. unfold validate.checked, Js.truthy.
  destruct (String.eqb_spec s ""); [contradiction|].
  simpl. now rewrite Hok.
Qed.

Section StoreLemmas.
Context {L : Libs}.

(** An update through a preserved key leaves the first row of that key in
    place. *)
Lemma find_map_update {A : Type} (p q : A -> bool) (data : A -> A)
    (l : list A) (a : A) :
  (forall x, p (data x) = p x) ->
  find p l = Some a ->
  q a = true ->
  find p (map (fun x => if q x then data x else x) l) = Some (data a).
Proof.
  intros Hp. induction l as [|x l IH]; simpl; [discriminate|].
  intros Hf Hq. destruct (p x) eqn:Hpx.
  - injection Hf as ->. rewrite Hq. now rewrite Hp, Hpx.
  - destruct (q x); [rewrite Hp|]; rewrite Hpx; auto.
Qed.

Lemma find_map_none {A : Type} (p q : A -> bool) (data : A -> A) (l : list A) :
  (forall x, q x = true -> p (data x) = false) ->
  (forall x, In x l -> q x = false -> p x = false) ->
  find p (map (fun x => if q x then data x else x) l) = None.
Proof.
  intros Hd. induction l as [|x l IH]; simpl; auto.
  intros Hl. destruct (q x) eqn:Hq.
  - rewrite (Hd x Hq). apply IH. intros; apply Hl; auto.
  - rewrite (Hl x (or_introl eq_refl) Hq). apply IH. intros; apply Hl; auto.
Qed.

Lemma find_none_iff {A : Type} (p : A -> bool) (l : list A) :
  find p l = None <-> forall x, In x l -> p x = false.
Proof.
  split.
  - apply find_none.
  - induction l as [|x l IH]; simpl; auto.
    intros H. rewrite (H x (or_introl eq_refl)). apply IH. intros; apply H; auto.
Qed.

Lemma user_update_found (db : Db) (id : Z) (data : User.t -> User.t)
    (u : User.t) :
  Prisma.user_findUnique_id db id = Some u ->
  Prisma.user_update db id data =
    inr (set_users db
           (map (fun x => if User.id x =? id then data x else x) (users db))
           (userSeq db),
         data u).
Proof. unfold Prisma.user_update. now intros ->. Qed.

Lemma found_by_email_has_id (db : Db) (email : string) (u : User.t) :
  Prisma.user_findUnique_email db email = Some u ->
  exists u0, Prisma.user_findUnique_id db (User.id u) = Some u0.
Proof.
  intros H. apply find_some in H as [Hin _].
  destruct (Prisma.user_findUnique_id db (User.id u)) eqn:E; eauto.
  unfold Prisma.user_findUnique_id in E.
  apply (find_none _ _ E) in Hin. rewrite Z.eqb_refl in Hin. discriminate.
Qed.

Lemma found_by_token_has_id (db : Db) (tok : string) (u : User.t) :
  Prisma.user_findFirst_resetToken db tok = Some u ->
  exists u0, Prisma.user_findUnique_id db (User.id u) = Some u0.
Proof.
  intros H. apply find_some in H as [Hin _].
  destruct (Prisma.user_findUnique_id db (User.id u)) eqn:E; eauto.
  unfold Prisma.user_findUnique_id in E.
  apply (find_none _ _ E) in Hin. rewrite Z.eqb_refl in Hin. discriminate.
Qed.

(** A request whose token verifies and resolves to a user reaches the
    handler with that user; any other request is answered by the error
    handler and leaves the store as it was. *)
Lemma protected_runs_handler (db : Db) (header token : string) (now id : Z)
    (user : User.t) (handler : User.t -> Db * Outcome) :
  nth_error (Js.split " " header) 1 = Some token ->
  jwt_verify token now = Some id ->
  Prisma.user_findUnique_id db id = Some user ->
  Protect.protected db (Some header) now handler =
    (fst (handler user), dispatch (snd (handler user))).
Proof.
  intros Hsplit Hverify Hfind. unfold Protect.protected, Protect.protect.
  rewrite Hsplit, Hverify, Hfind. now destruct (handler user).
Qed.

Lemma protected_rejects (db : Db) (authorization : option string) (now : Z)
    (handler : User.t -> Db * Outcome) (o : Outcome) :
  Protect.protect db authorization now = Stop o ->
  Protect.protected db authorization now handler = (db, dispatch o) /\
  (res_status (dispatch o) = 401 \/ res_status (dispatch o) = 404).
Proof.
  intros H. unfold Protect.protected. rewrite H. split; [reflexivity|].
  unfold Protect.protect in H.
  destruct authorization as [header|]; [|injection H as <-; now left].
  destruct (nth_error _ 1) as [token|]; [|injection H as <-; now left].
  destruct (jwt_verify token now) as [id|]; [|injection H as <-; now left].
  destruct (Prisma.user_findUnique_id db id); [discriminate|].
  injection H as <-. now right.
Qed.

End StoreLemmas.

(* ------------------------------------------------------------------ *)
(** ** Registration of a user *)

Section Register.
Context {L : Libs}.

Lemma validation_stops_with_400 (body : validate.RegisterBody) (o : Outcome) :
  validate.validateRegisterData body = Stop o ->
  res_status (dispatch o) = 400.
Proof.
  unfold validate.validateRegisterData.
  destruct (validate.checked (validate.email body) _); [|now intros [= <-]].
  destruct (validate.checked (validate.password body) _); [|now intros [= <-]].
  destruct (validate.checked (validate.role body) _); [discriminate|].
  now intros [= <-].
Qed.

Lemma validation_continues (body : validate.RegisterBody)
    (email password role : string) :
  validate.validateRegisterData body = Continue (email, password, role) ->
  validate.email body = Some email /\
  validate.password body = Some password /\
  validate.role body = Some role /\
  validate.validateEmail email = true /\
  validate.validatePassword password = true /\
  validate.validateRole role = true.
Proof.
  unfold validate.validateRegisterData.
  destruct (validate.checked (validate.email body) _) as [e|] eqn:He;
    [|discriminate].
  destruct (validate.checked (validate.password body) _) as [p|] eqn:Hp;
    [|discriminate].
  destruct (validate.checked (validate.role body) _) as [r|] eqn:Hr;
    [|discriminate].
  intros [= <- <- <-].
  apply checked_Some in He as (? & _ & ?).
  apply checked_Some in Hp as (? & _ & ?).
  apply checked_Some in Hr as (? & _ & ?). auto 6.
Qed.

(** C1, as amended. A registration that is answered with 201 went through
    the validation, appended exactly one row to the users, and its body is
    that row as stored: the password field is present and holds the hash of
    the submitted password. *)
Theorem register_success_returns_stored_record :
  forall (db : Db) (body : validate.RegisterBody) (salt : string)
         (db' : Db) (resp : Response),
    authRoutes.post_register db body salt = (db', resp) ->
    res_status resp = 201 ->
    exists email password role user,
      validate.email body = Some email /\
      validate.password body = Some password /\
      validate.role body = Some role /\
      user = {| User.id := userSeq db; User.email := email;
                User.password := bcrypt_hash password 12 salt;
                User.role := role; User.resetToken := None;
                User.resetTokenExpiry := None |} /\
      users db' = users db ++ [user] /\
      res_body resp = JObj [("user", User.toJson user)] /\
      field "password" (User.toJson user)
        = Some (JStr (bcrypt_hash password 12 salt)).
Proof.
  intros db body salt db' resp Hrun Hstatus.
  unfold authRoutes.post_register in Hrun.
  destruct (validate.validateRegisterData body) as [[[email password] role]|o]
    eqn:Hval.
  - apply validation_continues in Hval as (He & Hp & Hr & _).
    unfold authRoutes.register, Prisma.user_create in Hrun.
    destruct (Prisma.user_findUnique_email db email).
    + simpl in Hrun. injection Hrun as <- <-. discriminate Hstatus.
    + simpl in Hrun. injection Hrun as <- <-.
      exists email, password, role. eexists. repeat split; eauto.
  - injection Hrun as <- <-.
    rewrite (validation_stops_with_400 _ _ Hval) in Hstatus. discriminate.
Qed.

End Register.

(** Witness for C1 as amended: the registration of a@x.com in the example
    store. *)
Lemma register_success_returns_stored_record_witness :
  exists user,
    res_body (snd (authRoutes.post_register demo_db demo_register_body "s9"))
      = JObj [("user", User.toJson user)] /\
    field "password" (User.toJson user) = Some (JStr "s9:pw123456").
Proof.
  destruct (register_success_returns_stored_record
              demo_db demo_register_body "s9" _ _ eq_refl eq_refl)
    as (email & password & role & user & He & Hp & Hr & Hu & _ & Hb & Hf).
  exists user. split; [exact Hb|].
  injection Hp as <-. exact Hf.
Defined.

(** C1, as stated, fails: the body of the 201 response to a registration
    carries the stored hash under the key [password]. *)
Lemma register_response_excludes_hash_refuted :
  let resp := snd (authRoutes.post_register demo_db demo_register_body "s9") in
  res_status resp = 201 /\ ~ hash_excluded resp.
Proof.
  split; [reflexivity|].
  intros H. specialize (H _ eq_refl). discriminate H.
Qed.

(* ------------------------------------------------------------------ *)
(** ** Login *)

Section Login.
Context {L : Libs}.

(** C2. A login with an email that no user has and a login with a password
    that does not match the stored hash are answered alike: status 401 and
    the same body, and the store is left as it was. *)
Theorem login_failures_indistinguishable :
  forall (db : Db) (email password : string) (now : Z),
    (Prisma.user_findUnique_email db email = None \/
     exists user, Prisma.user_findUnique_email db email = Some user /\
                  bcrypt_compare password (User.password user) = false) ->
    authRoutes.post_login db email password now =
      (db, {| res_status := 401;
              res_body := failure "Incorrect email or password" |}).
Proof.
  intros db email password now H.
  unfold authRoutes.post_login, authRoutes.login.
  destruct H as [-> | (user & -> & Hcmp)]; [reflexivity|].
  rewrite Hcmp. reflexivity.
Qed.

End Login.

(** Witness for C2: an unknown email and a wrong password for a known
    one. *)
Lemma login_failures_indistinguishable_witness :
  authRoutes.post_login demo_db "nobody@example.com" "password456" 0 =
    (demo_db, {| res_status := 401;
                 res_body := failure "Incorrect email or password" |}) /\
  authRoutes.post_login demo_db "bob@example.com" "password45" 0 =
    (demo_db, {| res_status := 401;
                 res_body := failure "Incorrect email or password" |}).
Proof.
  split.
  - apply (login_failures_indistinguishable demo_db). left. reflexivity.
  - apply (login_failures_indistinguishable demo_db). right.
    exists bob. split; reflexivity.
Defined.

(* ------------------------------------------------------------------ *)
(** ** Password reset *)

Section PasswordReset.
Context {L : Libs}.

Lemma same_id_same_row (l : list User.t) (x y : User.t) :
  NoDup (map User.id l) -> In x l -> In y l -> User.id x = User.id y -> x = y.
Proof.
  induction l as [|a l IH]; simpl; [contradiction|].
  intros Hnd Hx Hy Hid. inversion Hnd as [|? ? Hnotin Hnd']; subst.
  destruct Hx as [<-|Hx], Hy as [<-|Hy]; auto.
  - exfalso. apply Hnotin. rewrite Hid. now apply in_map.
  - exfalso. apply Hnotin. rewrite <- Hid. now apply in_map.
Qed.

Lemma unique_row_found_by_id (db : Db) (u : User.t) :
  NoDup (map User.id (users db)) -> In u (users db) ->
  Prisma.user_findUnique_id db (User.id u) = Some u.
Proof.
  intros Hnd Hin. unfold Prisma.user_findUnique_id.
  destruct (find _ (users db)) as [x|] eqn:E.
  - apply find_some in E as [Hx Hid]. apply Z.eqb_eq in Hid.
    f_equal. eapply same_id_same_row; eauto.
  - apply (find_none _ _ E) in Hin. rewrite Z.eqb_refl in Hin. discriminate.
Qed.

Lemma sole_holder_found_by_token (db : Db) (u : User.t) (resetToken : string) :
  In u (users db) ->
  User.resetToken u = Some resetToken ->
  (forall u', In u' (users db) -> User.resetToken u' = Some resetToken ->
              u' = u) ->
  Prisma.user_findFirst_resetToken db resetToken = Some u.
Proof.
  intros Hin Htok Hsole. unfold Prisma.user_findFirst_resetToken.
  destruct (find _ (users db)) as [x|] eqn:E.
  - apply find_some in E as [Hx Hh]. f_equal. apply Hsole; auto.
    unfold Prisma.holds_token in Hh. destruct (User.resetToken x); [|discriminate].
    apply String.eqb_eq in Hh. now subst.
  - apply (find_none _ _ E) in Hin. unfold Prisma.holds_token in Hin.
    rewrite Htok, String.eqb_refl in Hin. discriminate.
Qed.

Lemma held_by_nobody (db : Db) (resetToken : string) :
  (forall u, In u (users db) -> User.resetToken u <> Some resetToken) ->
  Prisma.user_findFirst_resetToken db resetToken = None.
Proof.
  intros H. apply find_none_iff. intros x Hx. unfold Prisma.holds_token.
  destruct (User.resetToken x) as [t|] eqn:E; auto.
  destruct (String.eqb_spec t resetToken); auto.
  subst. now apply H in Hx.
Qed.

(** The answer to a reset token that no row holds. *)
Lemma reset_password_unknown_token (db : Db)
    (resetToken newPassword salt : string) (now : Z) :
  Prisma.user_findFirst_resetToken db resetToken = None ->
  passwordRoutes.post_reset_password db resetToken newPassword salt now =
    (db, {| res_status := 400;
            res_body := message_body "Invalid or expired reset token" |}).
Proof.
  intros H. unfold passwordRoutes.post_reset_password,
    passwordRoutes.reset_password. now rewrite H.
Qed.

(** The answer to a reset token whose holder's expiry is not in the past:
    the rows of the holder's id get the hash and lose token and expiry. *)
Lemma reset_password_accepted (db : Db) (u : User.t)
    (resetToken newPassword salt : string) (now : Z) :
  Prisma.user_findFirst_resetToken db resetToken = Some u ->
  passwordRoutes.before (User.resetTokenExpiry u) now = false ->
  passwordRoutes.post_reset_password db resetToken newPassword salt now =
    (set_users db
       (map (fun x => if User.id x =? User.id u
                      then after_reset (bcrypt_hash newPassword 10 salt) x
                      else x) (users db))
       (userSeq db),
     {| res_status := 200;
        res_body := message_body "Password reset successful" |}).
Proof.
  intros Hfind Hexp.
  unfold passwordRoutes.post_reset_password, passwordRoutes.reset_password.
  rewrite Hfind, Hexp.
  destruct (found_by_token_has_id _ _ _ Hfind) as [u0 Hu0].
  rewrite (user_update_found _ _ _ _ Hu0). reflexivity.
Qed.

(** C3. A reset token is accepted once. For a user who is the only holder of
    an unexpired token, in a store whose user ids are distinct, the request
    is answered 200, the user's row gets the hash of the new password and
    loses token and expiry, the other rows stay, and every later request
    with the same token is answered 400 and changes nothing. A token that no
    user holds and a token whose stored expiry is in the past are answered
    400 as well, and the store stays as it was. *)
Theorem reset_token_accepted_once :
  (forall (db : Db) (u : User.t) (resetToken newPassword salt : string)
          (expiry now : Z),
      NoDup (map User.id (users db)) ->
      In u (users db) ->
      User.resetToken u = Some resetToken ->
      User.resetTokenExpiry u = Some expiry ->
      now <= expiry ->
      (forall u', In u' (users db) -> User.resetToken u' = Some resetToken ->
                  u' = u) ->
      exists db',
        passwordRoutes.post_reset_password db resetToken newPassword salt now =
          (db', {| res_status := 200;
                   res_body := message_body "Password reset successful" |}) /\
        Prisma.user_findUnique_id db' (User.id u) =
          Some (after_reset (bcrypt_hash newPassword 10 salt) u) /\
        (forall x, In x (users db) -> x <> u -> In x (users db')) /\
        List.length (users db') = List.length (users db) /\
        forall (newPassword' salt' : string) (now' : Z),
          passwordRoutes.post_reset_password db' resetToken newPassword' salt' now' =
            (db', {| res_status := 400;
                     res_body := message_body "Invalid or expired reset token" |}))
  /\
  (forall (db : Db) (resetToken newPassword salt : string) (now : Z),
      (forall u, In u (users db) -> User.resetToken u <> Some resetToken) ->
      passwordRoutes.post_reset_password db resetToken newPassword salt now =
        (db, {| res_status := 400;
                res_body := message_body "Invalid or expired reset token" |}))
  /\
  (forall (db : Db) (u : User.t) (resetToken newPassword salt : string)
          (expiry now : Z),
      Prisma.user_findFirst_resetToken db resetToken = Some u ->
      User.resetTokenExpiry u = Some expiry ->
      expiry < now ->
      passwordRoutes.post_reset_password db resetToken newPassword salt now =
        (db, {| res_status := 400;
                res_body := message_body "Invalid or expired reset token" |})).
Proof.
  split; [|split].
  - intros db u resetToken newPassword salt expiry now Hnd Hin Htok Hexp Hle Hsole.
    pose proof (sole_holder_found_by_token _ _ _ Hin Htok Hsole) as Hfind.
    assert (Hfresh : passwordRoutes.before (User.resetTokenExpiry u) now = false).
    { rewrite Hexp. simpl. apply Z.ltb_ge. exact Hle. }
    eexists. split; [apply (reset_password_accepted _ _ _ _ _ _ Hfind Hfresh)|].
    set (h := bcrypt_hash newPassword 10 salt).
    split; [|split; [|split]].
    + unfold Prisma.user_findUnique_id. simpl.
      apply (find_map_update (fun x => User.id x =? User.id u)
               (fun x => User.id x =? User.id u) (after_reset h)).
      * reflexivity.
      * apply (unique_row_found_by_id db u Hnd Hin).
      * apply Z.eqb_refl.
    + intros x Hx Hne. simpl. apply in_map_iff. exists x. split; auto.
      destruct (Z.eqb_spec (User.id x) (User.id u)) as [Hid|]; auto.
      exfalso. apply Hne. eapply same_id_same_row; eauto.
    + simpl. apply length_map.
    + intros newPassword' salt' now'. apply reset_password_unknown_token.
      unfold Prisma.user_findFirst_resetToken. simpl.
      apply find_map_none.
      * reflexivity.
      * intros x Hx Hid. unfold Prisma.holds_token.
        destruct (User.resetToken x) as [t|] eqn:E; auto.
        destruct (String.eqb_spec t resetToken); auto. subst t.
        rewrite (Hsole x Hx E), Z.eqb_refl in Hid. discriminate.
  - intros db resetToken newPassword salt now Hnone.
    apply reset_password_unknown_token. now apply held_by_nobody.
  - intros db u resetToken newPassword salt expiry now Hfind Hexp Hlt.
    unfold passwordRoutes.post_reset_password, passwordRoutes.reset_password.
    rewrite Hfind, Hexp. simpl.
    apply Z.ltb_lt in Hlt. now rewrite Hlt.
Qed.

End PasswordReset.

Lemma demo_db_ids_distinct : NoDup (map User.id (users demo_db)).
Proof.
  simpl. repeat constructor; simpl; intuition discriminate.
Qed.

Lemma bob_sole_holder :
  forall u', In u' (users demo_db) -> User.resetToken u' = Some "tok-bob" ->
             u' = bob.
Proof.
  simpl. intros u' [<-|[<-|[<-|[<-|[]]]]] H; try discriminate H; reflexivity.
Qed.

(** Witness for C3: bob's token before its expiry,
    a token that nobody holds, and bob's token after its expiry. *)
Lemma reset_token_accepted_once_witness :
  (exists db',
      passwordRoutes.post_reset_password demo_db "tok-bob" "newpassword" "s7" 4000 =
        (db', {| res_status := 200;
                 res_body := message_body "Password reset successful" |}) /\
      Prisma.user_findUnique_id db' 2 = Some (after_reset "s7:newpassword" bob) /\
      passwordRoutes.post_reset_password db' "tok-bob" "another" "s8" 4001 =
        (db', {| res_status := 400;
                 res_body := message_body "Invalid or expired reset token" |}))
  /\
  passwordRoutes.post_reset_password demo_db "tok-none" "newpassword" "s7" 4000 =
    (demo_db, {| res_status := 400;
                 res_body := message_body "Invalid or expired reset token" |})
  /\
  passwordRoutes.post_reset_password demo_db "tok-bob" "newpassword" "s7" 5001 =
    (demo_db, {| res_status := 400;
                 res_body := message_body "Invalid or expired reset token" |}).
Proof.
  destruct reset_token_accepted_once as (Hfirst & Hnone & Hpast).
  split; [|split].
  - destruct (Hfirst demo_db bob "tok-bob" "newpassword" "s7" 5000 4000)
      as (db' & Hrun & Hrow & _ & _ & Hagain).
    + exact demo_db_ids_distinct.
    + simpl. auto.
    + reflexivity.
    + reflexivity.
    + lia.
    + exact bob_sole_holder.
    + exists db'. split; [exact Hrun|]. split; [exact Hrow|]. apply Hagain.
  - apply Hnone. simpl.
    intros u [<-|[<-|[<-|[<-|[]]]]]; discriminate.
  - apply (Hpast demo_db bob "tok-bob" "newpassword" "s7" 5000 5001).
    + reflexivity.
    + reflexivity.
    + lia.
Defined.

Section RequestReset.
Context {L : Libs}.

(** C9. When a user has the email, the request writes the token and an
    expiry one hour ahead on that user's row and then hands the mail with
    the token to the transport: the store written is the same whether or not
    the delivery succeeds, and the answer is 200 on delivery and 500
    otherwise. When no user has the email, the answer is 404, nothing is
    written and no mail is handed over. *)
Theorem request_reset_persists_before_mail :
  (forall (db : Db) (user : User.t) (email resetToken : string) (now : Z),
      Prisma.user_findUnique_email db email = Some user ->
      exists db' mail,
        (forall delivered : bool,
            passwordRoutes.password_reset db email resetToken now delivered =
              (db',
               [passwordRoutes.Persisted db'; passwordRoutes.Dispatched mail],
               Respond {| res_status := if delivered then 200 else 500;
                          res_body :=
                            message_body
                              (if delivered then "Password reset email sent"
                               else "Failed to send password reset email") |}) /\
            passwordRoutes.post_password_reset db email resetToken now delivered =
              (db', {| res_status := if delivered then 200 else 500;
                       res_body :=
                         message_body
                           (if delivered then "Password reset email sent"
                            else "Failed to send password reset email") |})) /\
        Prisma.user_findUnique_email db' email =
          Some (after_request resetToken (now + 3600000) user) /\
        PendingReset (after_request resetToken (now + 3600000) user) /\
        passwordRoutes.mail_to mail = email /\
        passwordRoutes.mail_text mail =
          String.append
            "Click on the following link to reset your password: http://localhost:3000/reset-password/"
            resetToken /\
        events db' = events db /\
        registrations db' = registrations db /\
        feedbacks db' = feedbacks db)
  /\
  (forall (db : Db) (email resetToken : string) (now : Z) (delivered : bool),
      Prisma.user_findUnique_email db email = None ->
      passwordRoutes.password_reset db email resetToken now delivered =
        (db, [], Respond {| res_status := 404;
                            res_body := message_body "User not found" |}) /\
      passwordRoutes.post_password_reset db email resetToken now delivered =
        (db, {| res_status := 404;
                res_body := message_body "User not found" |})).
Proof.
  split.
  - intros db user email resetToken now Hfind.
    destruct (found_by_email_has_id _ _ _ Hfind) as [u0 Hu0].
    pose proof (user_update_found db (User.id user)
                  (passwordRoutes.set_reset (Some resetToken)
                     (Some (now + 3600000))) u0 Hu0) as Hupd.
    do 2 eexists. split; [|split; [|split; [|split; [|split]]]].
    + intros delivered.
      unfold passwordRoutes.post_password_reset, passwordRoutes.password_reset.
      rewrite Hfind, Hupd. destruct delivered; split; reflexivity.
    + unfold Prisma.user_findUnique_email. simpl.
      apply (find_map_update (fun u => String.eqb (User.email u) email)
               (fun x => User.id x =? User.id user)
               (after_request resetToken (now + 3600000))).
      * reflexivity.
      * exact Hfind.
      * apply Z.eqb_refl.
    + discriminate.
    + simpl. apply find_some in Hfind as [_ He]. now apply String.eqb_eq in He.
    + reflexivity.
    + repeat split.
  - intros db email resetToken now delivered Hfind.
    unfold passwordRoutes.post_password_reset, passwordRoutes.password_reset.
    rewrite Hfind. split; reflexivity.
Qed.

(** C10. The reset route does not check the new password: a password that
    the registration rejects as shorter than 8 characters is accepted by the
    reset of a user whose token has not expired, and its hash is stored. *)
Theorem reset_password_enforces_no_minimum_length :
  (forall (db : Db) (u : User.t) (resetToken newPassword salt : string)
          (expiry now : Z),
      Prisma.user_findFirst_resetToken db resetToken = Some u ->
      User.resetTokenExpiry u = Some expiry ->
      now <= expiry ->
      (String.length newPassword < 8)%nat ->
      exists db' u',
        passwordRoutes.post_reset_password db resetToken newPassword salt now =
          (db', {| res_status := 200;
                   res_body := message_body "Password reset successful" |}) /\
        Prisma.user_findUnique_id db' (User.id u) = Some u' /\
        User.password u' = bcrypt_hash newPassword 10 salt)
  /\
  (forall (db : Db) (body : validate.RegisterBody) (email password salt : string),
      validate.checked (validate.email body) validate.validateEmail = Some email ->
      validate.password body = Some password ->
      (String.length password < 8)%nat ->
      authRoutes.post_register db body salt =
        (db, {| res_status := 400;
                res_body :=
                  failure "Password must be at least 8 characters long" |})).
Proof.
  split.
  - intros db u resetToken newPassword salt expiry now Hfind Hexp Hle _.
    assert (Hfresh : passwordRoutes.before (User.resetTokenExpiry u) now = false).
    { rewrite Hexp. simpl. apply Z.ltb_ge. exact Hle. }
    destruct (found_by_token_has_id _ _ _ Hfind) as [u0 Hu0].
    do 2 eexists.
    split; [apply (reset_password_accepted _ _ _ _ _ _ Hfind Hfresh)|].
    split.
    + unfold Prisma.user_findUnique_id. simpl.
      apply (find_map_update (fun x => User.id x =? User.id u)
               (fun x => User.id x =? User.id u)
               (after_reset (bcrypt_hash newPassword 10 salt))).
      * reflexivity.
      * exact Hu0.
      * apply find_some in Hu0 as [_ H]. exact H.
    + reflexivity.
  - intros db body email password salt Hemail Hpw Hshort.
    unfold authRoutes.post_register, validate.validateRegisterData.
    rewrite Hemail, Hpw.
    assert (Hrej : validate.checked (Some password) validate.validatePassword
                   = None).
    { unfold validate.checked, validate.validatePassword.
      replace (8 <=? Z.of_nat (String.length password)) with false.
      - now rewrite andb_false_r.
      - symmetry. apply Z.leb_gt. lia. }
    rewrite Hrej. reflexivity.
Qed.

End RequestReset.

(** Witness for C9: a request for alice's
    address and one for an address that nobody has. *)
Lemma request_reset_persists_before_mail_witness :
  (exists db',
      (forall delivered : bool,
          passwordRoutes.post_password_reset demo_db "alice@example.com"
            "tok-alice" 1000 delivered =
            (db', {| res_status := if delivered then 200 else 500;
                     res_body :=
                       message_body
                         (if delivered then "Password reset email sent"
                          else "Failed to send password reset email") |})) /\
      Prisma.user_findUnique_email db' "alice@example.com" =
        Some (after_request "tok-alice" 3601000 alice))
  /\
  passwordRoutes.post_password_reset demo_db "nobody@example.com"
    "tok-nobody" 1000 true =
    (demo_db, {| res_status := 404; res_body := message_body "User not found" |}).
Proof.
  destruct request_reset_persists_before_mail as (Hfound & Hmissing).
  split.
  - destruct (Hfound demo_db alice "alice@example.com" "tok-alice" 1000 eq_refl)
      as (db' & mail & Hrun & Hrow & _).
    exists db'. split; [|exact Hrow].
    intros delivered. apply Hrun.
  - apply (Hmissing demo_db "nobody@example.com" "tok-nobody" 1000 true).
    reflexivity.
Defined.

(** Witness for C10: the password
    ["short"] resets bob's password and is refused at registration. *)
Lemma reset_password_enforces_no_minimum_length_witness :
  (exists db' u',
      passwordRoutes.post_reset_password demo_db "tok-bob" "short" "s7" 4000 =
        (db', {| res_status := 200;
                 res_body := message_body "Password reset successful" |}) /\
      Prisma.user_findUnique_id db' 2 = Some u' /\
      User.password u' = "s7:short")
  /\
  authRoutes.post_register demo_db
    {| validate.email := Some "a@x.com"; validate.password := Some "short";
       validate.role := Some "ATTENDEE" |} "s9" =
    (demo_db, {| res_status := 400;
                 res_body :=
                   failure "Password must be at least 8 characters long" |}).
Proof.
  destruct reset_password_enforces_no_minimum_length as (Hreset & Hregister).
  split.
  - apply (Hreset demo_db bob "tok-bob" "short" "s7" 5000 4000).
    + reflexivity.
    + reflexivity.
    + lia.
    + simpl. lia.
  - apply (Hregister demo_db _ "a@x.com" "short" "s9").
    + reflexivity.
    + reflexivity.
    + simpl. lia.
Defined.

(* ------------------------------------------------------------------ *)
(** ** Authorization of event updates and deletions *)

Section EventAuthorization.
Context {L : Libs}.

Lemma role_is_not (user : User.t) (r : string) :
  User.role user <> r -> String.eqb (User.role user) r = false.
Proof. intros H. now apply String.eqb_neq. Qed.

Lemma deleteMany_keeps_events (db : Db) (eventId id : Z) :
  Prisma.event_findUnique (Prisma.registration_deleteMany_event db eventId) id =
  Prisma.event_findUnique db id.
Proof. reflexivity. Qed.

Lemma existsb_filter_out {A : Type} (p : A -> bool) (l : list A) :
  existsb p (filter (fun x => negb (p x)) l) = false.
Proof.
  induction l as [|x l IH]; [reflexivity|].
  simpl. destruct (p x) eqn:E; simpl; [exact IH|]. now rewrite E.
Qed.

Lemma existsb_none {A : Type} (p : A -> bool) (l : list A) :
  (forall x, In x l -> p x = false) -> existsb p l = false.
Proof.
  intros H. induction l as [|x l IH]; [reflexivity|].
  simpl. rewrite (H x (or_introl eq_refl)). apply IH.
  intros y Hy. apply H. now right.
Qed.

Lemma referred_after_deleteMany (db : Db) (eventId : Z) :
  Prisma.event_referred (Prisma.registration_deleteMany_event db eventId)
    eventId =
  existsb (fun f => Feedback.eventId f =? eventId) (feedbacks db).
Proof.
  unfold Prisma.event_referred, Prisma.registration_deleteMany_event. simpl.
  now rewrite (existsb_filter_out
                 (fun r => Registration.eventId r =? eventId)).
Qed.

Lemma no_feedback_refers (db : Db) (eventId : Z) :
  (forall f, In f (feedbacks db) -> Feedback.eventId f <> eventId) ->
  existsb (fun f => Feedback.eventId f =? eventId) (feedbacks db) = false.
Proof.
  intros H. apply existsb_none. intros f Hf. apply Z.eqb_neq. auto.
Qed.

(** C4. Updating and deleting an event: an ATTENDEE is answered 403 whether
    or not the event exists; another requester is answered 404 for an id,
    of those that the id column holds, that no event has, and 403 for an
    event of another organizer unless the requester is an ADMIN. The store
    is unchanged in all these cases. The owner and an ADMIN are answered
    200 for an update, and for the deletion of an event that no feedback
    refers to. *)
Theorem event_update_delete_authorization :
  forall (db : Db) (user : User.t) (eventId : Z) (body : eventRoutes.EventBody),
    (User.role user = "ATTENDEE" ->
       eventRoutes.served (eventRoutes.put_event db user eventId body) =
         (db, {| res_status := 403;
                 res_body :=
                   failure "You do not have permission to perform this action" |}) /\
       eventRoutes.served (eventRoutes.delete_event db user eventId) =
         (db, {| res_status := 403;
                 res_body :=
                   failure "You do not have permission to perform this action" |}))
    /\
    (User.role user <> "ATTENDEE" ->
     Prisma.id_in_range eventId ->
     (forall e, In e (events db) -> Event.id e <> eventId) ->
       eventRoutes.served (eventRoutes.put_event db user eventId body) =
         (db, {| res_status := 404;
                 res_body := message_body "Event not found" |}) /\
       eventRoutes.served (eventRoutes.delete_event db user eventId) =
         (db, {| res_status := 404;
                 res_body := message_body "Event not found" |}))
    /\
    (forall event : Event.t,
       User.role user <> "ATTENDEE" ->
       Prisma.event_findUnique db eventId = Some event ->
       Event.organizerId event <> User.id user ->
       User.role user <> "ADMIN" ->
       eventRoutes.served (eventRoutes.put_event db user eventId body) =
         (db, {| res_status := 403;
                 res_body :=
                   message_body
                     "Forbidden: You do not have permission to update this event" |}) /\
       eventRoutes.served (eventRoutes.delete_event db user eventId) =
         (db, {| res_status := 403;
                 res_body :=
                   message_body
                     "Forbidden: You do not have permission to delete this event" |}))
    /\
    (forall event : Event.t,
       User.role user <> "ATTENDEE" ->
       Prisma.event_findUnique db eventId = Some event ->
       Event.organizerId event = User.id user \/ User.role user = "ADMIN" ->
       res_status (snd (eventRoutes.served
                          (eventRoutes.put_event db user eventId body))) = 200 /\
       ((forall f, In f (feedbacks db) -> Feedback.eventId f <> eventId) ->
        res_status (snd (eventRoutes.served
                           (eventRoutes.delete_event db user eventId))) = 200)).
Proof.
  intros db user eventId body.
  unfold eventRoutes.served, eventRoutes.put_event, eventRoutes.delete_event.
  split; [|split; [|split]].
  - intros Hrole. rewrite Hrole. split; reflexivity.
  - intros Hrole _ Hnone. rewrite (role_is_not _ _ Hrole).
    assert (Hfind : Prisma.event_findUnique db eventId = None).
    { apply find_none_iff. intros e He. apply Z.eqb_neq. auto. }
    rewrite Hfind. split; reflexivity.
  - intros event Hrole Hfind Hother Hadmin.
    rewrite (role_is_not _ _ Hrole), Hfind, (role_is_not _ _ Hadmin).
    apply Z.eqb_neq in Hother. rewrite Hother. split; reflexivity.
  - intros event Hrole Hfind Hallowed.
    rewrite (role_is_not _ _ Hrole), Hfind.
    assert (Hgate : negb (Event.organizerId event =? User.id user)
                    && negb (String.eqb (User.role user) "ADMIN") = false).
    { destruct Hallowed as [->| ->]; [now rewrite Z.eqb_refl|].
      now rewrite andb_false_r. }
    rewrite Hgate. split.
    + unfold Prisma.event_update. rewrite Hfind. reflexivity.
    + intros Hfree. unfold Prisma.event_delete.
      rewrite deleteMany_keeps_events, Hfind, referred_after_deleteMany,
        (no_feedback_refers _ _ Hfree).
      reflexivity.
Qed.

End EventAuthorization.

(** Witness for C4: bob is an ATTENDEE, dave
    an ORGANIZER who does not own event 7, alice its owner. *)
Lemma event_update_delete_authorization_witness :
  res_status (snd (eventRoutes.served
                     (eventRoutes.put_event demo_db bob 99 demo_body))) = 403 /\
  res_status (snd (eventRoutes.served
                     (eventRoutes.delete_event demo_db dave 99))) = 404 /\
  res_status (snd (eventRoutes.served
                     (eventRoutes.put_event demo_db dave 7 demo_body))) = 403 /\
  res_status (snd (eventRoutes.served
                     (eventRoutes.delete_event demo_db alice 7))) = 200.
Proof.
  split; [|split; [|split]].
  - destruct (event_update_delete_authorization demo_db bob 99 demo_body)
      as (Hattendee & _).
    destruct (Hattendee eq_refl) as [-> _]. reflexivity.
  - destruct (event_update_delete_authorization demo_db dave 99 demo_body)
      as (_ & Hunknown & _).
    destruct Hunknown as [_ ->];
      [discriminate|unfold Prisma.id_in_range; lia| |reflexivity].
    simpl. intros e [<-|[<-|[]]]; discriminate.
  - destruct (event_update_delete_authorization demo_db dave 7 demo_body)
      as (_ & _ & Hother & _).
    destruct (Hother workshop) as [-> _]; try discriminate; reflexivity.
  - destruct (event_update_delete_authorization demo_db alice 7 demo_body)
      as (_ & _ & _ & Hallowed).
    destruct (Hallowed workshop) as [_ H];
      [discriminate|reflexivity|now left|].
    apply H. intros f [].
Defined.

(* ------------------------------------------------------------------ *)
(** ** Registration for an event *)

Section EventRegistration.
Context {L : Libs}.

Lemma find_none_count {A : Type} (p : A -> bool) (l : list A) :
  find p l = None <-> List.length (filter p l) = 0%nat.
Proof.
  induction l as [|x l IH]; simpl; [tauto|].
  destruct (p x); simpl; [split; discriminate|exact IH].
Qed.

Lemma count_app {A : Type} (p : A -> bool) (l : list A) (x : A) :
  List.length (filter p (l ++ [x])) =
  (List.length (filter p l) + if p x then 1 else 0)%nat.
Proof.
  rewrite filter_app, length_app. simpl. now destruct (p x).
Qed.

Lemma registered_iff_counted (db : Db) (userId eventId : Z) :
  Prisma.registration_findUnique db userId eventId = None <->
  count_registrations db userId eventId = 0%nat.
Proof. apply find_none_count. Qed.

(** The first registration of a pair for an existing event. *)
Lemma register_creates_row (db : Db) (user : User.t) (eventId : Z) (e : Event.t) :
  Prisma.event_findUnique db eventId = Some e ->
  count_registrations db (User.id user) eventId = 0%nat ->
  let row := {| Registration.id := registrationSeq db;
                Registration.userId := User.id user;
                Registration.eventId := eventId |} in
  eventRoutes.served (eventRoutes.register db user eventId) =
    (set_registrations db (registrations db ++ [row]) (registrationSeq db + 1),
     {| res_status := 201;
        res_body := JObj [("registration", Registration.toJson row)] |}).
Proof.
  intros He Hc. apply registered_iff_counted in Hc.
  unfold eventRoutes.served, eventRoutes.register, Prisma.registration_create.
  rewrite He, Hc. reflexivity.
Qed.

(** A registration of a pair that has a row already. *)
Lemma register_refuses_duplicate (db : Db) (user : User.t) (eventId : Z)
    (e : Event.t) :
  Prisma.event_findUnique db eventId = Some e ->
  (0 < count_registrations db (User.id user) eventId)%nat ->
  eventRoutes.served (eventRoutes.register db user eventId) =
    (db, {| res_status := 400;
            res_body := failure "You are already registered for this event" |}).
Proof.
  intros He Hc.
  unfold eventRoutes.served, eventRoutes.register.
  rewrite He.
  destruct (Prisma.registration_findUnique db (User.id user) eventId) eqn:E;
    [reflexivity|].
  apply registered_iff_counted in E. lia.
Qed.

(** C5. Registration of a user for an event: 404 when no event has the id,
    which is one of those that the id column holds, 400 when the pair has a
    registration already, and otherwise 201 with exactly one row appended
    for the pair. After two successive requests for one pair and an
    existing event, the second is answered 400 and the pair has exactly one
    row, the store holding at most one row per pair before. *)
Theorem event_registration_at_most_once :
  forall (db : Db) (user : User.t) (eventId : Z),
    (Prisma.id_in_range eventId ->
     (forall e, In e (events db) -> Event.id e <> eventId) ->
       eventRoutes.served (eventRoutes.register db user eventId) =
         (db, {| res_status := 404;
                 res_body := failure "Resource not found." |}))
    /\
    (forall e : Event.t,
       Prisma.event_findUnique db eventId = Some e ->
       (0 < count_registrations db (User.id user) eventId)%nat ->
       eventRoutes.served (eventRoutes.register db user eventId) =
         (db, {| res_status := 400;
                 res_body :=
                   failure "You are already registered for this event" |}))
    /\
    (forall e : Event.t,
       Prisma.event_findUnique db eventId = Some e ->
       count_registrations db (User.id user) eventId = 0%nat ->
       exists db' row,
         eventRoutes.served (eventRoutes.register db user eventId) =
           (db', {| res_status := 201;
                    res_body :=
                      JObj [("registration", Registration.toJson row)] |}) /\
         registrations db' = registrations db ++ [row] /\
         Registration.userId row = User.id user /\
         Registration.eventId row = eventId /\
         count_registrations db' (User.id user) eventId = 1%nat)
    /\
    (forall e : Event.t,
       Prisma.event_findUnique db eventId = Some e ->
       (count_registrations db (User.id user) eventId <= 1)%nat ->
       exists db1 resp1 db2 resp2,
         eventRoutes.served (eventRoutes.register db user eventId) =
           (db1, resp1) /\
         eventRoutes.served (eventRoutes.register db1 user eventId) =
           (db2, resp2) /\
         res_status resp2 = 400 /\
         db2 = db1 /\
         count_registrations db2 (User.id user) eventId = 1%nat).
Proof.
  intros db user eventId.
  assert (Hnew : forall e : Event.t,
             Prisma.event_findUnique db eventId = Some e ->
             count_registrations db (User.id user) eventId = 0%nat ->
             count_registrations
               (set_registrations db
                  (registrations db ++
                     [{| Registration.id := registrationSeq db;
                         Registration.userId := User.id user;
                         Registration.eventId := eventId |}])
                  (registrationSeq db + 1)) (User.id user) eventId = 1%nat).
  { intros e He Hc. unfold count_registrations in *. simpl.
    rewrite count_app, Hc. unfold Prisma.registration_is. simpl.
    now rewrite !Z.eqb_refl. }
  split; [|split; [|split]].
  - intros _ Hnone.
    unfold eventRoutes.served, eventRoutes.register.
    replace (Prisma.event_findUnique db eventId) with (@None Event.t);
      [reflexivity|].
    symmetry. apply find_none_iff. intros e He. apply Z.eqb_neq. auto.
  - intros e He Hc. eapply register_refuses_duplicate; eauto.
  - intros e He Hc. do 2 eexists.
    split; [apply (register_creates_row db user eventId e He Hc)|].
    repeat split. eapply Hnew; eauto.
  - intros e He Hc.
    destruct (count_registrations db (User.id user) eventId) eqn:Hcount.
    + do 4 eexists.
      split; [apply (register_creates_row db user eventId e He Hcount)|].
      assert (H1 := Hnew e He eq_refl).
      split; [apply (register_refuses_duplicate _ user eventId e);
              [exact He|rewrite H1; lia]|].
      repeat split. exact H1.
    + assert (Hone : count_registrations db (User.id user) eventId = 1%nat)
        by lia.
      assert (Hdup := register_refuses_duplicate db user eventId e He
                        ltac:(lia)).
      exists db. eexists. exists db. eexists.
      split; [exact Hdup|]. split; [exact Hdup|]. repeat split. exact Hone.
Qed.

End EventRegistration.

(** Witness for C5: event 99 does not exist,
    bob is registered for event 7 and carol is not. *)
Lemma event_registration_at_most_once_witness :
  res_status (snd (eventRoutes.served (eventRoutes.register demo_db carol 99)))
    = 404 /\
  res_status (snd (eventRoutes.served (eventRoutes.register demo_db bob 7)))
    = 400 /\
  (exists db' row,
      eventRoutes.served (eventRoutes.register demo_db carol 7) =
        (db', {| res_status := 201;
                 res_body := JObj [("registration", Registration.toJson row)] |}) /\
      count_registrations db' 3 7 = 1%nat) /\
  (exists db1 resp1 db2 resp2,
      eventRoutes.served (eventRoutes.register demo_db carol 7) = (db1, resp1) /\
      eventRoutes.served (eventRoutes.register db1 carol 7) = (db2, resp2) /\
      res_status resp2 = 400 /\
      count_registrations db2 3 7 = 1%nat).
Proof.
  split; [|split; [|split]].
  - destruct (event_registration_at_most_once demo_db carol 99) as (H & _).
    rewrite H; [reflexivity|unfold Prisma.id_in_range; lia|].
    simpl. intros e [<-|[<-|[]]]; discriminate.
  - destruct (event_registration_at_most_once demo_db bob 7) as (_ & H & _).
    rewrite (H workshop); [reflexivity|reflexivity|].
    unfold count_registrations. simpl. lia.
  - destruct (event_registration_at_most_once demo_db carol 7)
      as (_ & _ & H & _).
    destruct (H workshop eq_refl eq_refl) as (db' & row & Hrun & _ & _ & _ & Hc).
    exists db', row. split; assumption.
  - destruct (event_registration_at_most_once demo_db carol 7)
      as (_ & _ & _ & H).
    destruct (H workshop eq_refl) as (db1 & r1 & db2 & r2 & H1 & H2 & H3 & _ & H4).
    + unfold count_registrations. simpl. lia.
    + exists db1, r1, db2, r2. repeat split; assumption.
Defined.

(* ------------------------------------------------------------------ *)
(** ** Feedback *)

Section FeedbackSubmission.
Context {L : Libs}.

Lemma registered_found (db : Db) (userId eventId : Z) :
  (0 < count_registrations db userId eventId)%nat ->
  exists r, Prisma.registration_findUnique db userId eventId = Some r.
Proof.
  intros H.
  destruct (Prisma.registration_findUnique db userId eventId) eqn:E; eauto.
  apply registered_iff_counted in E. lia.
Qed.

(** A submission without a registration. *)
Lemma feedback_unregistered (db : Db) (user : User.t) (eventId : Z)
    (text : string) :
  count_registrations db (User.id user) eventId = 0%nat ->
  eventRoutes.served (eventRoutes.feedback db user eventId text) =
    (db, {| res_status := 400;
            res_body := failure "You are not registered for this event" |}).
Proof.
  intros H. apply registered_iff_counted in H.
  unfold eventRoutes.served, eventRoutes.feedback. now rewrite H.
Qed.

(** The first submission of a registered pair. *)
Lemma feedback_first (db : Db) (user : User.t) (eventId : Z) (text : string) :
  (0 < count_registrations db (User.id user) eventId)%nat ->
  count_feedbacks db (User.id user) eventId = 0%nat ->
  let row := {| Feedback.id := feedbackSeq db;
                Feedback.userId := User.id user;
                Feedback.eventId := eventId;
                Feedback.feedback := text |} in
  eventRoutes.served (eventRoutes.feedback db user eventId text) =
    (set_feedbacks db (feedbacks db ++ [row]) (feedbackSeq db + 1),
     {| res_status := 201;
        res_body := JObj [("feedback", Feedback.toJson row)] |}).
Proof.
  intros Hreg Hc. destruct (registered_found _ _ _ Hreg) as [r Hr].
  apply find_none_count in Hc.
  unfold eventRoutes.served, eventRoutes.feedback, Prisma.feedback_create.
  unfold Prisma.feedback_findUnique. rewrite Hr, Hc. reflexivity.
Qed.

(** A later submission of a registered pair: the store's client refuses the
    update that the route asks by the id of the row, and the route passes
    the error on. *)
Lemma feedback_again (db : Db) (user : User.t) (eventId : Z) (text : string)
    (f0 : Feedback.t) :
  (0 < count_registrations db (User.id user) eventId)%nat ->
  Prisma.feedback_findUnique db (User.id user) eventId = Some f0 ->
  eventRoutes.served (eventRoutes.feedback db user eventId text) =
    (db, errorHandler Prisma.ValidationError).
Proof.
  intros Hreg Hf. destruct (registered_found _ _ _ Hreg) as [r Hr].
  unfold eventRoutes.served, eventRoutes.feedback, Prisma.feedback_update.
  rewrite Hr, Hf. reflexivity.
Qed.

(** The answer to an error of the store's client that carries no code: never
    a success, and 500 with the client's message when the message has none
    of the phrases of the error handler. *)
Lemma client_error_answer :
  res_status (errorHandler Prisma.ValidationError) <> 200 /\
  res_status (errorHandler Prisma.ValidationError) <> 201 /\
  (plain_message (prisma_message "validation") ->
   errorHandler Prisma.ValidationError =
     {| res_status := 500;
        res_body := JObj [("status", JStr "error");
                          ("message", JStr (prisma_message "validation"))] |}).
Proof.
  unfold ErrorHandler.errorHandler, Prisma.ValidationError,
    ErrorHandler.code_is, plain_message.
  simpl.
  destruct (Js.includes (prisma_message "validation") "method not allowed");
    [repeat split; try discriminate; intros (_ & _ & H); discriminate|].
  destruct (Js.includes (prisma_message "validation") "not authorized");
    [repeat split; try discriminate; intros (_ & H & _); discriminate|].
  destruct (Js.includes (prisma_message "validation") "not found");
    [repeat split; try discriminate; intros (H & _); discriminate|].
  repeat split; discriminate.
Qed.

Lemma find_app_none {A : Type} (p : A -> bool) (l l' : list A) :
  find p l = None -> find p (l ++ l') = find p l'.
Proof.
  induction l as [|x l IH]; simpl; auto.
  destruct (p x); [discriminate|exact IH].
Qed.

Lemma submit_all_cons (db : Db) (user : User.t) (eventId : Z) (text : string)
    (rest : list string) (db1 db2 : Db) (resp : Response) (statuses : list Z) :
  eventRoutes.served (eventRoutes.feedback db user eventId text) = (db1, resp) ->
  submit_all db1 user eventId rest = (db2, statuses) ->
  submit_all db user eventId (text :: rest) = (db2, res_status resp :: statuses).
Proof.
  intros H1 H2.
  change (submit_all db user eventId (text :: rest)) with
    (let '(db1, resp) :=
       eventRoutes.served (eventRoutes.feedback db user eventId text) in
     let '(db2, statuses) := submit_all db1 user eventId rest in
     (db2, res_status resp :: statuses)).
  now rewrite H1, H2.
Qed.

(** Resubmissions: each one is refused in the same way and the store stays
    as it is. *)
Lemma resubmissions (db : Db) (user : User.t) (eventId : Z) (f0 : Feedback.t)
    (texts : list string) :
  (0 < count_registrations db (User.id user) eventId)%nat ->
  Prisma.feedback_findUnique db (User.id user) eventId = Some f0 ->
  submit_all db user eventId texts =
    (db, repeat (res_status (errorHandler Prisma.ValidationError))
           (List.length texts)).
Proof.
  intros Hreg Hf. induction texts as [|text rest IH]; [reflexivity|].
  apply (submit_all_cons _ _ _ _ _ _ _ _ _
           (feedback_again db user eventId text f0 Hreg Hf) IH).
Qed.

(** C6. Feedback of a user for an event: 400 without a registration, for
    an event id of those that the id column holds; with a registration, the
    first submission appends a row and is answered 201. A later submission
    does not overwrite the text and is not answered 200: the route asks the
    store to update the feedback it found by the id of the row, the store's
    client refuses that query, and the error goes to the error handler,
    which answers 500 when the client's message has none of its phrases;
    the store stays as it is. Over any sequence of submissions of a
    registered pair without feedback, the first is answered 201 and every
    later one is refused, and the pair ends with exactly one row, which
    holds the first text and not the last. *)
Theorem feedback_resubmission_refused :
  forall (db : Db) (user : User.t) (eventId : Z) (text : string),
    (Prisma.id_in_range eventId ->
     count_registrations db (User.id user) eventId = 0%nat ->
       eventRoutes.served (eventRoutes.feedback db user eventId text) =
         (db, {| res_status := 400;
                 res_body := failure "You are not registered for this event" |}))
    /\
    ((0 < count_registrations db (User.id user) eventId)%nat ->
     count_feedbacks db (User.id user) eventId = 0%nat ->
       exists db' row,
         eventRoutes.served (eventRoutes.feedback db user eventId text) =
           (db', {| res_status := 201;
                    res_body := JObj [("feedback", Feedback.toJson row)] |}) /\
         feedbacks db' = feedbacks db ++ [row] /\
         Feedback.userId row = User.id user /\
         Feedback.eventId row = eventId /\
         Feedback.feedback row = text /\
         count_feedbacks db' (User.id user) eventId = 1%nat)
    /\
    ((0 < count_registrations db (User.id user) eventId)%nat ->
     forall f0 : Feedback.t,
       Prisma.feedback_findUnique db (User.id user) eventId = Some f0 ->
       eventRoutes.served (eventRoutes.feedback db user eventId text) =
         (db, errorHandler Prisma.ValidationError) /\
       res_status (errorHandler Prisma.ValidationError) <> 200 /\
       (plain_message (prisma_message "validation") ->
        res_status (errorHandler Prisma.ValidationError) = 500))
    /\
    ((0 < count_registrations db (User.id user) eventId)%nat ->
     count_feedbacks db (User.id user) eventId = 0%nat ->
     forall later : list string,
       exists db' row,
         submit_all db user eventId (text :: later) =
           (db', 201 :: repeat (res_status (errorHandler Prisma.ValidationError))
                          (List.length later)) /\
         count_feedbacks db' (User.id user) eventId = 1%nat /\
         Prisma.feedback_findUnique db' (User.id user) eventId = Some row /\
         Feedback.feedback row = text).
Proof.
  intros db user eventId text.
  assert (Hfirst : count_feedbacks db (User.id user) eventId = 0%nat ->
            let row := {| Feedback.id := feedbackSeq db;
                          Feedback.userId := User.id user;
                          Feedback.eventId := eventId;
                          Feedback.feedback := text |} in
            let db1 := set_feedbacks db (feedbacks db ++ [row])
                         (feedbackSeq db + 1) in
            count_feedbacks db1 (User.id user) eventId = 1%nat /\
            Prisma.feedback_findUnique db1 (User.id user) eventId = Some row).
  { intros Hc row db1. unfold count_feedbacks in *. split.
    - simpl. rewrite count_app, Hc. unfold Prisma.feedback_is. simpl.
      now rewrite !Z.eqb_refl.
    - unfold Prisma.feedback_findUnique. simpl.
      apply find_none_count in Hc.
      rewrite (find_app_none _ _ _ Hc). simpl. unfold Prisma.feedback_is. simpl.
      now rewrite !Z.eqb_refl. }
  split; [|split; [|split]].
  - intros _. apply feedback_unregistered.
  - intros Hreg Hc. do 2 eexists.
    split; [apply (feedback_first db user eventId text Hreg Hc)|].
    repeat split. apply (Hfirst Hc).
  - intros Hreg f0 Hf.
    split; [exact (feedback_again db user eventId text f0 Hreg Hf)|].
    destruct client_error_answer as (H200 & _ & Hplain).
    split; [exact H200|]. intros Hm. now rewrite (Hplain Hm).
  - intros Hreg Hc later.
    destruct (Hfirst Hc) as (Hone & Hrow).
    pose proof (feedback_first db user eventId text Hreg Hc) as Hrun.
    simpl in Hrun.
    set (row := {| Feedback.id := feedbackSeq db |}) in *.
    set (db1 := set_feedbacks db _ _) in *.
    exists db1, row.
    split; [|split; [exact Hone|split; [exact Hrow|reflexivity]]].
    apply (submit_all_cons _ _ _ _ _ _ _ _ _ Hrun).
    apply (resubmissions db1 user eventId row later Hreg Hrow).
Qed.

End FeedbackSubmission.

(** Witness for C6: carol is not registered for event 7, bob is; bob
    submits a first text, and then others. The second submission is
    answered 500 and the row keeps the first text. *)
Lemma feedback_resubmission_refused_witness :
  res_status (snd (eventRoutes.served
                     (eventRoutes.feedback demo_db carol 7 "Nice"))) = 400 /\
  (exists db' row,
      eventRoutes.served (eventRoutes.feedback demo_db bob 7 "Great event") =
        (db', {| res_status := 201;
                 res_body := JObj [("feedback", Feedback.toJson row)] |}) /\
      count_feedbacks db' 2 7 = 1%nat) /\
  (eventRoutes.served
     (eventRoutes.feedback demo_db_feedback bob 7 "Even better") =
     (demo_db_feedback,
      {| res_status := 500;
         res_body := JObj [("status", JStr "error");
                           ("message", JStr "Invalid invocation: validation")] |}) /\
   Prisma.feedback_findUnique demo_db_feedback 2 7 =
     Some {| Feedback.id := 1; Feedback.userId := 2; Feedback.eventId := 7;
             Feedback.feedback := "Great event" |}) /\
  (exists db' row,
      submit_all demo_db bob 7 ["one"; "two"; "three"] = (db', [201; 500; 500]) /\
      count_feedbacks db' 2 7 = 1%nat /\
      Prisma.feedback_findUnique db' 2 7 = Some row /\
      Feedback.feedback row = "one").
Proof.
  split; [|split; [|split]].
  - destruct (feedback_resubmission_refused demo_db carol 7 "Nice") as (H & _).
    rewrite H; [reflexivity|unfold Prisma.id_in_range; lia|reflexivity].
  - destruct (feedback_resubmission_refused demo_db bob 7 "Great event")
      as (_ & H & _).
    destruct H as (db' & row & Hrun & _ & _ & _ & _ & Hc).
    + unfold count_registrations. simpl. lia.
    + reflexivity.
    + exists db', row. split; assumption.
  - destruct (feedback_resubmission_refused demo_db_feedback bob 7 "Even better")
      as (_ & _ & H & _).
    destruct (H ltac:(unfold count_registrations; simpl; lia) _ eq_refl)
      as (Hrun & _ & _).
    split; [rewrite Hrun|]; reflexivity.
  - destruct (feedback_resubmission_refused demo_db bob 7 "one")
      as (_ & _ & _ & H).
    destruct (H ltac:(unfold count_registrations; simpl; lia) eq_refl
                ["two"; "three"]) as (db' & row & Hrun & Hc & Hrow & Htext).
    exists db', row. repeat split; assumption.
Defined.

(* ------------------------------------------------------------------ *)
(** ** Sort direction of the event list *)

Lemma lower_unit_d (c : ascii) :
  Js.lower_unit c = "d"%char -> c = "d"%char \/ c = "D"%char.
Proof. by_cases_on_unit c. Qed.

Lemma lower_unit_e (c : ascii) :
  Js.lower_unit c = "e"%char -> c = "e"%char \/ c = "E"%char.
Proof. by_cases_on_unit c. Qed.

Lemma lower_unit_s (c : ascii) :
  Js.lower_unit c = "s"%char -> c = "s"%char \/ c = "S"%char.
Proof. by_cases_on_unit c. Qed.

Lemma lower_unit_c (c : ascii) :
  Js.lower_unit c = "c"%char -> c = "c"%char \/ c = "C"%char.
Proof. by_cases_on_unit c. Qed.

(** A string lowers to ["desc"] exactly when it spells it in some letter
    case. *)
Lemma lowers_to_desc (s : string) :
  Js.toLowerCase s = "desc" <-> In s desc_spellings.
Proof.
  split.
  - destruct s as [|c1 [|c2 [|c3 [|c4 [|c5 rest]]]]]; try discriminate.
    simpl. intros [= H1 H2 H3 H4].
    apply lower_unit_d in H1. apply lower_unit_e in H2.
    apply lower_unit_s in H3. apply lower_unit_c in H4.
    destruct H1, H2, H3, H4; subst; simpl; tauto.
  - simpl. intros H.
    repeat (destruct H as [<-|H]; [reflexivity|]). contradiction.
Qed.

Lemma direction_desc (sortOrder : option string) :
  eventRoutes.direction sortOrder = Prisma.desc <->
  exists s, sortOrder = Some s /\ Js.toLowerCase s = "desc".
Proof.
  unfold eventRoutes.direction. destruct sortOrder as [s|].
  - destruct (String.eqb_spec (Js.toLowerCase s) "desc") as [E|E]; split.
    + intros _. eauto.
    + reflexivity.
    + discriminate.
    + intros (s' & [= <-] & H). contradiction.
  - split; [discriminate|]. intros (s & H & _). discriminate.
Qed.

(** C7, as amended. When the list query sorts, the direction is descending
    exactly when the sortOrder parameter lowers to ["desc"], that is when it
    spells it in some letter case, and ascending for every other value and
    when the parameter is missing. *)
Theorem sort_direction_ignores_letter_case :
  forall (q : eventRoutes.ListQuery) (column : string) (order : Prisma.SortOrder),
    Prisma.orderBy (eventRoutes.list_args q) = Some (column, order) ->
    (order = Prisma.desc <->
     exists s, eventRoutes.query_sortOrder q = Some s /\
               Js.toLowerCase s = "desc") /\
    (order = Prisma.desc <->
     exists s, eventRoutes.query_sortOrder q = Some s /\ In s desc_spellings) /\
    (order = Prisma.asc <->
     forall s, eventRoutes.query_sortOrder q = Some s ->
               Js.toLowerCase s <> "desc").
Proof.
  intros q column order H. unfold eventRoutes.list_args in H. simpl in H.
  destruct (eventRoutes.given (eventRoutes.query_sortBy q)) as [col|];
    [|discriminate].
  injection H as _ <-.
  pose proof (direction_desc (eventRoutes.query_sortOrder q)) as Hd.
  split; [exact Hd|]. split.
  - rewrite Hd. split; intros (s & Hs & Hl); exists s; split; auto;
      now apply lowers_to_desc.
  - split.
    + intros Hasc s Hs Hl.
      assert (eventRoutes.direction (eventRoutes.query_sortOrder q) = Prisma.desc)
        by (apply Hd; eauto).
      congruence.
    + intros Hno.
      destruct (eventRoutes.direction (eventRoutes.query_sortOrder q)) eqn:E;
        [reflexivity|].
      apply direction_desc in E as (s & Hs & Hl). now apply Hno in Hs.
Qed.

(** Witness for C7 as amended: sorting by date with
    the order ["DESC"]. *)
Lemma sort_direction_ignores_letter_case_witness :
  exists s, eventRoutes.query_sortOrder demo_query = Some s /\
            In s desc_spellings.
Proof.
  destruct (sort_direction_ignores_letter_case demo_query "date" Prisma.desc
              eq_refl) as (_ & H & _).
  apply H. reflexivity.
Defined.

(** C7, as stated, fails: the order ["DESC"] sorts descending, and it is
    not the string ["desc"]. *)
Lemma sort_direction_exact_desc_refuted :
  ~ desc_only_when_exactly_desc demo_query.
Proof.
  intros H. specialize (H "date" Prisma.desc eq_refl).
  destruct H as [H _]. specialize (H eq_refl). discriminate H.
Qed.

(* ------------------------------------------------------------------ *)
(** ** Pages of events *)

Section SortedRows.
Context {A : Type} (leb : A -> A -> bool).
Hypothesis leb_total : forall a b, leb a b = true \/ leb b a = true.
Hypothesis leb_trans :
  forall a b c, leb a b = true -> leb b c = true -> leb a c = true.

Lemma insert_sorted_perm (x : A) (l : list A) :
  Permutation (x :: l) (insert_sorted leb x l).
Proof.
  induction l as [|y l IH]; simpl; [reflexivity|].
  destruct (leb x y); [reflexivity|].
  rewrite perm_swap. now constructor.
Qed.

Lemma insert_sorted_sorted (x : A) (l : list A) :
  StronglySorted (fun a b => leb a b = true) l ->
  StronglySorted (fun a b => leb a b = true) (insert_sorted leb x l).
Proof.
  induction l as [|y l IH]; simpl; intros Hs.
  - repeat constructor.
  - apply StronglySorted_inv in Hs as [Hs Hy].
    destruct (leb x y) eqn:E.
    + constructor; [now constructor|].
      constructor; [exact E|].
      eapply Forall_impl; [|exact Hy]. intros z Hz. eapply leb_trans; eauto.
    + constructor; [now apply IH|].
      eapply Permutation_Forall; [apply insert_sorted_perm|].
      constructor; [|exact Hy].
      destruct (leb_total x y) as [H|H]; [congruence|exact H].
Qed.

Lemma sort_rows_perm (l : list A) : Permutation (sort_rows leb l) l.
Proof.
  induction l as [|x l IH]; simpl; [reflexivity|].
  rewrite <- insert_sorted_perm. now constructor.
Qed.

Lemma sort_rows_sorted (l : list A) :
  StronglySorted (fun a b => leb a b = true) (sort_rows leb l).
Proof.
  induction l as [|x l IH]; simpl; [constructor|].
  now apply insert_sorted_sorted.
Qed.

End SortedRows.

Section Pages.
Context {L : Libs}.

Lemma filter_everything {A : Type} (p : A -> bool) (l : list A) :
  (forall x, p x = true) -> filter p l = l.
Proof.
  intros H. induction l as [|x l IH]; simpl; [reflexivity|].
  now rewrite H, IH.
Qed.

Lemma sorted_by_id (l : list Event.t) :
  StronglySorted by_id (sort_rows id_leb l).
Proof.
  assert (H : StronglySorted (fun a b => id_leb a b = true)
                (sort_rows id_leb l)).
  { apply sort_rows_sorted.
    - intros a b. unfold id_leb. lia.
    - intros a b c. unfold id_leb. lia. }
  induction H as [|a rows Hs IH Ha]; constructor; auto.
  eapply Forall_impl; [|exact Ha].
  intros b Hb. unfold by_id. unfold id_leb in Hb. lia.
Qed.

(** The rows that the page query returns, for a skip that fits. *)
Lemma page_rows (db : Db) (pageNumber : Z) :
  1 <= pageNumber ->
  (pageNumber - 1) * 10 <= 9223372036854775807 ->
  Prisma.event_findMany db (eventRoutes.page_args pageNumber) =
    inr (firstn 10 (skipn (Z.to_nat ((pageNumber - 1) * 10))
                      (sort_rows id_leb (events db)))).
Proof.
  intros Hge Hfit.
  unfold Prisma.event_findMany, eventRoutes.page_args. simpl.
  unfold eventRoutes.pageSize.
  replace (-9223372036854775808 <=? (pageNumber - 1) * 10) with true
    by (symmetry; apply Z.leb_le; lia).
  replace ((pageNumber - 1) * 10 <=? 9223372036854775807) with true
    by (symmetry; apply Z.leb_le; lia).
  rewrite filter_everything by reflexivity. reflexivity.
Qed.

(** C8. Pages of events: the page size is 10. The page number of a request
    is the number that [parseInt] reads at the start of the path parameter,
    so ["1.9"] asks for page 1 and ["2abc"] for page 2. The request is
    answered 400 when there is no such number or the number is below 1.
    Otherwise, the skip (pageNumber - 1) * 10 being among the integers that
    the source computes exactly, it is answered 200 with at most 10 events,
    which are those that follow the first (pageNumber - 1) * 10 in the
    ascending order of id of all events. The store is unchanged. *)
Theorem page_of_events :
  eventRoutes.pageSize = 10 /\
  (forall (db : Db) (user : User.t) (param : string),
      (Js.parseInt param = None \/
       exists pageNumber, Js.parseInt param = Some pageNumber /\ pageNumber < 1) ->
      eventRoutes.served (eventRoutes.get_page db user param) =
        (db, {| res_status := 400;
                res_body := message_body "Invalid page number" |}))
  /\
  (forall (db : Db) (user : User.t) (param : string) (pageNumber : Z),
      Js.parseInt param = Some pageNumber ->
      1 <= pageNumber ->
      (pageNumber - 1) * 10 <= max_safe_integer ->
      exists sorted page : list Event.t,
        Permutation sorted (events db) /\
        StronglySorted by_id sorted /\
        page = firstn 10 (skipn (Z.to_nat ((pageNumber - 1) * 10)) sorted) /\
        (List.length page <= 10)%nat /\
        (forall i : nat,
            (i < 10)%nat ->
            nth_error page i =
            nth_error sorted (Z.to_nat ((pageNumber - 1) * 10) + i)) /\
        eventRoutes.served (eventRoutes.get_page db user param) =
          (db, {| res_status := 200;
                  res_body := JArr (map Event.toJson page) |})).
Proof.
  split; [reflexivity|]. split.
  - intros db user param H.
    unfold eventRoutes.served, eventRoutes.get_page.
    destruct H as [-> | (pageNumber & -> & Hlt)]; [reflexivity|].
    apply Z.ltb_lt in Hlt. now rewrite Hlt.
  - intros db user param pageNumber Hparse Hge Hsafe.
    exists (sort_rows id_leb (events db)). eexists.
    split; [apply sort_rows_perm|].
    split; [apply sorted_by_id|].
    split; [reflexivity|].
    split; [apply firstn_le_length|].
    split.
    + intros i Hi. rewrite nth_error_firstn.
      destruct (Nat.ltb_spec i 10) as [_|Hge']; [|lia].
      apply nth_error_skipn.
    + unfold eventRoutes.served, eventRoutes.get_page.
      rewrite Hparse.
      replace (pageNumber <? 1) with false by (symmetry; apply Z.ltb_ge; lia).
      rewrite page_rows; [reflexivity|exact Hge|].
      unfold max_safe_integer in Hsafe. lia.
Qed.

End Pages.

(** Witness for C8: the parameters ["abc"], ["0"] and ["1"], and two
    parameters that start with a number, ["1.9"] and ["2abc"]. *)
Lemma page_of_events_witness :
  res_status (snd (eventRoutes.served (eventRoutes.get_page demo_db bob "abc")))
    = 400 /\
  res_status (snd (eventRoutes.served (eventRoutes.get_page demo_db bob "0")))
    = 400 /\
  (exists sorted page,
    StronglySorted by_id sorted /\
    page = firstn 10 (skipn 0 sorted) /\
    eventRoutes.served (eventRoutes.get_page demo_db bob "1") =
      (demo_db, {| res_status := 200;
                   res_body := JArr (map Event.toJson page) |})) /\
  res_status (snd (eventRoutes.served (eventRoutes.get_page demo_db bob "1.9")))
    = 200 /\
  res_status (snd (eventRoutes.served (eventRoutes.get_page demo_db bob "2abc")))
    = 200.
Proof.
  destruct page_of_events as (_ & Hbad & Hgood).
  split; [|split; [|split; [|split]]].
  - rewrite (Hbad demo_db bob "abc"); [reflexivity|]. left. reflexivity.
  - rewrite (Hbad demo_db bob "0"); [reflexivity|]. right.
    exists 0. split; [reflexivity|lia].
  - destruct (Hgood demo_db bob "1" 1 eq_refl ltac:(lia)
                ltac:(unfold max_safe_integer; lia))
      as (sorted & page & _ & Hsorted & Hpage & _ & _ & Hrun).
    exists sorted, page. repeat split; assumption.
  - destruct (Hgood demo_db bob "1.9" 1 eq_refl ltac:(lia)
                ltac:(unfold max_safe_integer; lia))
      as (sorted & page & _ & _ & _ & _ & _ & Hrun).
    rewrite Hrun. reflexivity.
  - destruct (Hgood demo_db bob "2abc" 2 eq_refl ltac:(lia)
                ltac:(unfold max_safe_integer; lia))
      as (sorted & page & _ & _ & _ & _ & _ & Hrun).
    rewrite Hrun. reflexivity.
Defined.

(* ------------------------------------------------------------------ *)
(** ** The email test of the validation *)

Section RegexMeaning.

Lemma append_empty_r (s : string) : String.append s "" = s.
Proof. induction s as [|c s IH]; simpl; [reflexivity|now rewrite IH]. Qed.

Lemma append_assoc (s1 s2 s3 : string) :
  String.append (String.append s1 s2) s3 = String.append s1 (String.append s2 s3).
Proof. induction s1 as [|c s1 IH]; simpl; [reflexivity|now rewrite IH]. Qed.

Lemma append_is_empty (s1 s2 : string) :
  String.append s1 s2 = "" -> s1 = "" /\ s2 = "".
Proof. destruct s1; simpl; [auto|discriminate]. Qed.

Lemma nullable_matches_empty (r : Regex.t) :
  Regex.nullable r = true <-> Matches r "".
Proof.
  split.
  - induction r as [| |p|r1 IH1 r2 IH2|r1 IH1 r2 IH2|r IH]; simpl; intros H;
      try discriminate.
    + constructor.
    + apply andb_prop in H as [H1 H2].
      apply (MatchesSeq r1 r2 "" ""); auto.
    + apply orb_prop in H as [H|H];
        [apply MatchesAltL|apply MatchesAltR]; auto.
    + constructor.
  - intros H. remember "" as s eqn:Es.
    induction H as [|p c Hp|r1 r2 s1 s2 H1 IH1 H2 IH2|r1 r2 s H IH|r1 r2 s H IH
                   |r|r s1 s2 H1 IH1 H2 IH2]; simpl; auto.
    + discriminate.
    + apply append_is_empty in Es as [-> ->]. now rewrite IH1, IH2.
    + now rewrite IH.
    + rewrite IH by assumption. apply orb_true_r.
Qed.

Lemma deriv_sound (c : ascii) (r : Regex.t) :
  forall s, Matches (Regex.deriv c r) s -> Matches r (String c s).
Proof.
  induction r as [| |p|r1 IH1 r2 IH2|r1 IH1 r2 IH2|r IH]; simpl; intros s H.
  - inversion H.
  - inversion H.
  - destruct (p c) eqn:Hp; inversion H; subst. now constructor.
  - assert (Hseq : forall t, Matches (Regex.Seq (Regex.deriv c r1) r2) t ->
                             Matches (Regex.Seq r1 r2) (String c t)).
    { intros t Ht. inversion Ht as [| |? ? s1 s2 Ha Hb| | | |]; subst.
      apply (MatchesSeq r1 r2 (String c s1) s2); auto. }
    destruct (Regex.nullable r1) eqn:Hn; [|now apply Hseq].
    inversion H; subst; [now apply Hseq|].
    apply (MatchesSeq r1 r2 "" (String c s)); auto.
    now apply nullable_matches_empty.
  - inversion H; subst; [apply MatchesAltL|apply MatchesAltR]; auto.
  - inversion H as [| |? ? s1 s2 Ha Hb| | | |]; subst.
    apply (MatchesStarApp r (String c s1) s2); auto.
Qed.

Lemma deriv_complete (c : ascii) (r : Regex.t) (s0 : string) :
  Matches r s0 -> forall s, s0 = String c s -> Matches (Regex.deriv c r) s.
Proof.
  intros H.
  induction H as [|p c' Hp|r1 r2 s1 s2 H1 IH1 H2 IH2|r1 r2 s' H IH|r1 r2 s' H IH
                 |r|r s1 s2 H1 IH1 H2 IH2]; intros s Es; simpl.
  - discriminate.
  - injection Es as -> <-. rewrite Hp. constructor.
  - destruct s1 as [|c1 s1'].
    + simpl in Es. subst s2.
      apply nullable_matches_empty in H1. rewrite H1.
      apply MatchesAltR. now apply IH2.
    + simpl in Es. injection Es as -> <-.
      assert (Matches (Regex.Seq (Regex.deriv c r1) r2) (String.append s1' s2))
        by (constructor; auto).
      destruct (Regex.nullable r1); [now apply MatchesAltL|assumption].
  - apply MatchesAltL. now apply IH.
  - apply MatchesAltR. now apply IH.
  - discriminate.
  - destruct s1 as [|c1 s1'].
    + simpl in Es. now apply IH2.
    + simpl in Es. injection Es as -> <-.
      constructor; auto.
Qed.

(** The test by derivatives decides the strings that the expression
    denotes. *)
Lemma test_matches (r : Regex.t) (s : string) :
  Regex.test r s = true <-> Matches r s.
Proof.
  revert r. induction s as [|c s IH]; intros r; simpl.
  - apply nullable_matches_empty.
  - rewrite IH. split.
    + apply deriv_sound.
    + intros H. now apply (deriv_complete c r (String c s)).
Qed.

Lemma matches_seq (r1 r2 : Regex.t) (s : string) :
  Matches (Regex.Seq r1 r2) s <->
  exists s1 s2, s = String.append s1 s2 /\ Matches r1 s1 /\ Matches r2 s2.
Proof.
  split.
  - intros H. inversion H; subst. eauto.
  - intros (s1 & s2 & -> & H1 & H2). now constructor.
Qed.

Lemma matches_class (p : ascii -> bool) (s : string) :
  Matches (Regex.Class p) s <-> exists c, s = String c "" /\ p c = true.
Proof.
  split.
  - intros H. inversion H; subst. eauto.
  - intros (c & -> & Hp). now constructor.
Qed.

Lemma matches_chr (c : ascii) (s : string) :
  Matches (Regex.Chr c) s <-> s = String c "".
Proof.
  unfold Regex.Chr. rewrite matches_class. split.
  - intros (c' & -> & H). apply Ascii.eqb_eq in H. now subst.
  - intros ->. exists c. split; [reflexivity|apply Ascii.eqb_refl].
Qed.

Lemma all_units_append (p : ascii -> bool) (s1 s2 : string) :
  all_units p (String.append s1 s2) = all_units p s1 && all_units p s2.
Proof.
  induction s1 as [|c s1 IH]; simpl; [reflexivity|].
  now rewrite IH, andb_assoc.
Qed.

Lemma matches_star_class (p : ascii -> bool) (s : string) :
  Matches (Regex.Star (Regex.Class p)) s <-> all_units p s = true.
Proof.
  split.
  - intros H. remember (Regex.Star (Regex.Class p)) as r eqn:Er.
    induction H as [| | | | |r|r s1 s2 H1 _ H2 IH2]; try discriminate.
    + reflexivity.
    + injection Er as ->. apply matches_class in H1 as (c & -> & Hc).
      simpl. rewrite Hc. now apply IH2.
  - induction s as [|c s IH]; simpl; intros H; [constructor|].
    apply andb_prop in H as [Hc Hs].
    apply (MatchesStarApp (Regex.Class p) (String c "") s); auto.
    now constructor.
Qed.

Lemma matches_plus_class (p : ascii -> bool) (s : string) :
  Matches (Regex.Plus (Regex.Class p)) s <-> s <> "" /\ all_units p s = true.
Proof.
  unfold Regex.Plus. rewrite matches_seq. split.
  - intros (s1 & s2 & -> & H1 & H2).
    apply matches_class in H1 as (c & -> & Hc).
    apply matches_star_class in H2. simpl. rewrite Hc, H2.
    split; [discriminate|reflexivity].
  - intros [Hne H]. destruct s as [|c s]; [contradiction|].
    simpl in H. apply andb_prop in H as [Hc Hs].
    exists (String c ""), s. repeat split.
    + now constructor.
    + now apply matches_star_class.
Qed.

(** X1. The email test accepts exactly the strings made of a local part,
    ["@"], a domain, a dot and an ending, where each of the three parts is
    not empty and has neither white space nor ["@"] (a part may itself
    contain dots). *)
Theorem validateEmail_shape (email : string) :
  validate.validateEmail email = true <->
  exists local domain ending,
    email_part local /\ email_part domain /\ email_part ending /\
    email = String.append local
              (String.append "@"
                 (String.append domain (String.append "." ending))).
Proof.
  unfold validate.validateEmail, validate.emailRegex, email_part.
  rewrite test_matches, matches_seq. split.
  - intros (local & rest1 & -> & Hl & H).
    apply matches_seq in H as (at_ & rest2 & -> & Hat & H).
    apply matches_seq in H as (domain & rest3 & -> & Hd & H).
    apply matches_seq in H as (dot & ending & -> & Hdot & He).
    apply matches_chr in Hat as ->. apply matches_chr in Hdot as ->.
    apply matches_plus_class in Hl, Hd, He.
    exists local, domain, ending. auto.
  - intros (local & domain & ending & Hl & Hd & He & ->).
    apply matches_plus_class in Hl, Hd, He.
    exists local. eexists. split; [reflexivity|]. split; [exact Hl|].
    apply matches_seq. exists "@". eexists. split; [reflexivity|].
    split; [now apply matches_chr|].
    apply matches_seq. exists domain. eexists. split; [reflexivity|].
    split; [exact Hd|].
    apply matches_seq. exists ".", ending. split; [reflexivity|].
    split; [now apply matches_chr|exact He].
Qed.

End RegexMeaning.

(** Witness for X1: the address of the examples, and one with two dots in
    a row, which the test accepts as well. *)
Lemma validateEmail_shape_witness :
  (exists local domain ending,
      email_part local /\ email_part domain /\ email_part ending /\
      "alice@example.com" =
        String.append local
          (String.append "@" (String.append domain (String.append "." ending))))
  /\ validate.validateEmail "a@b..c" = true.
Proof.
  split.
  - apply (proj1 (validateEmail_shape "alice@example.com")). reflexivity.
  - apply (proj2 (validateEmail_shape "a@b..c")).
    exists "a", "b.", "c". unfold email_part.
    repeat split; try discriminate; reflexivity.
Defined.

(* ------------------------------------------------------------------ *)
(** ** The validation of a registration *)

Section RegisterValidation.
Context {L : Libs}.

Lemma validateRole_spec (role : string) :
  validate.validateRole role = true <->
  role = "ADMIN" \/ role = "ORGANIZER" \/ role = "ATTENDEE".
Proof.
  unfold validate.validateRole. simpl. rewrite !orb_true_iff, !String.eqb_eq.
  intuition discriminate.
Qed.

Lemma validatePassword_spec (password : string) :
  validate.validatePassword password = true <->
  (8 <= String.length password)%nat.
Proof. unfold validate.validatePassword. rewrite Z.leb_le. lia. Qed.

Lemma checked_None (v : option string) (ok : string -> bool) :
  (forall s, v = Some s -> ok s = false) -> validate.checked v ok = None.
Proof.
  intros H. unfold validate.checked. destruct v as [s|]; [|reflexivity].
  now rewrite (H s eq_refl), andb_false_r.
Qed.

Lemma checked_valid (s : string) (ok : string -> bool) :
  ok "" = false -> ok s = true -> validate.checked (Some s) ok = Some s.
Proof.
  intros Hempty Hok. apply checked_intro; auto.
  intros ->. congruence.
Qed.

(** X2. The validation lets a registration through exactly when the three
    fields are present, the email passes the email test, the password has
    at least 8 code units and the role is one of the three roles. It
    reports the first field at fault, in the order email, password, role,
    with status 400, and the store is not touched. *)
Theorem validateRegisterData_accepts :
  (forall (body : validate.RegisterBody) (email password role : string),
      validate.validateRegisterData body = Continue (email, password, role) <->
      validate.email body = Some email /\
      validate.password body = Some password /\
      validate.role body = Some role /\
      validate.validateEmail email = true /\
      (8 <= String.length password)%nat /\
      (role = "ADMIN" \/ role = "ORGANIZER" \/ role = "ATTENDEE"))
  /\
  (forall (db : Db) (body : validate.RegisterBody) (salt : string),
      (forall e, validate.email body = Some e ->
                 validate.validateEmail e = false) ->
      authRoutes.post_register db body salt =
        (db, {| res_status := 400;
                res_body := failure "Valid email is required" |}))
  /\
  (forall (db : Db) (body : validate.RegisterBody) (salt email : string),
      validate.email body = Some email ->
      validate.validateEmail email = true ->
      (forall p, validate.password body = Some p ->
                 (String.length p < 8)%nat) ->
      authRoutes.post_register db body salt =
        (db, {| res_status := 400;
                res_body :=
                  failure "Password must be at least 8 characters long" |}))
  /\
  (forall (db : Db) (body : validate.RegisterBody) (salt email password : string),
      validate.email body = Some email ->
      validate.validateEmail email = true ->
      validate.password body = Some password ->
      (8 <= String.length password)%nat ->
      (forall r, validate.role body = Some r ->
                 r <> "ADMIN" /\ r <> "ORGANIZER" /\ r <> "ATTENDEE") ->
      authRoutes.post_register db body salt =
        (db, {| res_status := 400;
                res_body :=
                  failure
                    "Valid role is required (e.g. 'ADMIN', 'ORGANIZER', 'ATTENDEE')" |})).
Proof.
  assert (Hemail : forall e, validate.validateEmail e = true ->
                     validate.checked (Some e) validate.validateEmail = Some e).
  { intros e He. now apply checked_valid. }
  assert (Hpass : forall p, (8 <= String.length p)%nat ->
                     validate.checked (Some p) validate.validatePassword = Some p).
  { intros p Hp. apply checked_valid; [reflexivity|].
    now apply validatePassword_spec. }
  split; [|split; [|split]].
  - intros body email password role. split.
    + intros H. apply validation_continues in H as (He & Hp & Hr & Ve & Vp & Vr).
      apply validatePassword_spec in Vp. apply validateRole_spec in Vr. auto 7.
    + intros (He & Hp & Hr & Ve & Vp & Vr).
      unfold validate.validateRegisterData.
      rewrite He, Hp, Hr, (Hemail _ Ve), (Hpass _ Vp).
      rewrite checked_valid; [reflexivity|reflexivity|].
      now apply validateRole_spec.
  - intros db body salt Hbad.
    unfold authRoutes.post_register, validate.validateRegisterData.
    now rewrite (checked_None _ _ Hbad).
  - intros db body salt email He Ve Hshort.
    unfold authRoutes.post_register, validate.validateRegisterData.
    rewrite He, (Hemail _ Ve).
    rewrite checked_None; [reflexivity|].
    intros p Hp. apply Hshort in Hp.
    destruct (validate.validatePassword p) eqn:E; [|reflexivity].
    apply validatePassword_spec in E. lia.
  - intros db body salt email password He Ve Hp Vp Hrole.
    unfold authRoutes.post_register, validate.validateRegisterData.
    rewrite He, (Hemail _ Ve), Hp, (Hpass _ Vp).
    rewrite checked_None; [reflexivity|].
    intros r Hr. apply Hrole in Hr.
    destruct (validate.validateRole r) eqn:E; [|reflexivity].
    apply validateRole_spec in E. intuition congruence.
Qed.

End RegisterValidation.

(** Witness for X2: the body of the examples passes; a body without email,
    one with a short password and one with an unknown role are refused
    with the message of the field at fault. *)
Lemma validateRegisterData_accepts_witness :
  validate.validateRegisterData demo_register_body =
    Continue ("a@x.com", "pw123456", "ATTENDEE") /\
  res_body (snd (authRoutes.post_register demo_db
                   {| validate.email := None; validate.password := Some "x";
                      validate.role := None |} "s9")) =
    failure "Valid email is required" /\
  res_body (snd (authRoutes.post_register demo_db
                   {| validate.email := Some "a@x.com";
                      validate.password := Some "short";
                      validate.role := None |} "s9")) =
    failure "Password must be at least 8 characters long" /\
  res_body (snd (authRoutes.post_register demo_db
                   {| validate.email := Some "a@x.com";
                      validate.password := Some "pw123456";
                      validate.role := Some "admin" |} "s9")) =
    failure "Valid role is required (e.g. 'ADMIN', 'ORGANIZER', 'ATTENDEE')".
Proof.
  destruct validateRegisterData_accepts as (Hok & Hemail & Hpass & Hrole).
  split; [|split; [|split]].
  - apply Hok. repeat split; try reflexivity; try (simpl; lia); auto.
  - rewrite Hemail; [reflexivity|]. discriminate.
  - erewrite Hpass; [reflexivity|reflexivity|reflexivity|].
    intros p [= <-]. simpl. lia.
  - erewrite Hrole; [reflexivity|reflexivity|reflexivity|reflexivity|simpl; lia|].
    intros r [= <-]. repeat split; discriminate.
Defined.

(* ------------------------------------------------------------------ *)
(** ** The error handler *)

Section ErrorResponses.

(** The class of a status code as [AppError] reads it off the decimal
    text. *)
Lemma status_class (code : Z) :
  400 <= code <= 599 ->
  Js.startsWith (Js.toString code) "4" = (code <? 500).
Proof.
  intros Hrange.
  assert (Hall : forallb (fun k => Bool.eqb (Js.startsWith (Js.toString k) "4")
                                     (k <? 500))
                   (map Z.of_nat (seq 400 200)) = true) by (vm_compute; reflexivity).
  rewrite forallb_forall in Hall.
  apply eqb_prop. apply Hall.
  apply in_map_iff. exists (Z.to_nat code). split; [lia|].
  apply in_seq. lia.
Qed.

Lemma class_body (message : string) (code : Z) :
  400 <= code <= 599 ->
  ErrorHandler.status (AppError message code) =
    Some (if code <? 500 then "fail" else "error").
Proof.
  intros H. unfold ErrorHandler.AppError. simpl. now rewrite (status_class _ H).
Qed.

(** X3. An error built by [AppError] with a status between 400 and 599 and
    a message with none of the phrases that the handler looks for is
    answered with its own status and message, the body saying [fail] below
    500 and [error] from 500 on. An error that carries no status of its own
    and none of the marks that the handler looks for, such as one thrown by
    a library, is answered 500 with its own message in the body. *)
Theorem errorHandler_passes_through :
  (forall (message : string) (code : Z),
      400 <= code <= 599 ->
      Js.includes message "method not allowed" = false ->
      Js.includes message "not authorized" = false ->
      Js.includes message "not found" = false ->
      errorHandler (AppError message code) =
        {| res_status := code;
           res_body := JObj [("status", JStr (if code <? 500 then "fail"
                                              else "error"));
                             ("message", JStr message)] |})
  /\
  (forall err : JsError,
      ErrorHandler.statusCode err = None ->
      ErrorHandler.status err = None ->
      ErrorHandler.code err = None ->
      ErrorHandler.name err <> "JsonWebTokenError" ->
      ErrorHandler.name err <> "TokenExpiredError" ->
      Js.includes (ErrorHandler.message err) "method not allowed" = false ->
      Js.includes (ErrorHandler.message err) "not authorized" = false ->
      Js.includes (ErrorHandler.message err) "not found" = false ->
      errorHandler err =
        {| res_status := 500;
           res_body := JObj [("status", JStr "error");
                             ("message", JStr (ErrorHandler.message err))] |}).
Proof.
  split.
  - intros message code Hrange H1 H2 H3.
    unfold ErrorHandler.errorHandler. rewrite (class_body _ _ Hrange).
    simpl. rewrite H1, H2, H3.
    replace (code =? 0) with false by (symmetry; apply Z.eqb_neq; lia).
    now destruct (code <? 500).
  - intros err Hcode Hstatus Hc Hn1 Hn2 H1 H2 H3.
    unfold ErrorHandler.errorHandler, ErrorHandler.code_is.
    rewrite Hcode, Hstatus, Hc, H1, H2, H3.
    apply String.eqb_neq in Hn1, Hn2. now rewrite Hn1, Hn2.
Qed.

(** X4. The phrases of a message decide the answer over the status that
    the error was built with: a message with ["method not allowed"] is
    answered 405, otherwise one with ["not authorized"] 403, otherwise one
    with ["not found"] 404, each with a fixed message, while the body keeps
    the [fail] or [error] of the status the error was built with. *)
Theorem errorHandler_phrases_override :
  forall (message : string) (code : Z),
    400 <= code <= 599 ->
    (Js.includes message "method not allowed" = true ->
     errorHandler (AppError message code) =
       {| res_status := 405;
          res_body :=
            JObj [("status", JStr (if code <? 500 then "fail" else "error"));
                  ("message",
                   JStr "This method is not allowed for the requested endpoint.")] |})
    /\
    (Js.includes message "method not allowed" = false ->
     Js.includes message "not authorized" = true ->
     errorHandler (AppError message code) =
       {| res_status := 403;
          res_body :=
            JObj [("status", JStr (if code <? 500 then "fail" else "error"));
                  ("message",
                   JStr "You are not authorized to perform this action.")] |})
    /\
    (Js.includes message "method not allowed" = false ->
     Js.includes message "not authorized" = false ->
     Js.includes message "not found" = true ->
     errorHandler (AppError message code) =
       {| res_status := 404;
          res_body :=
            JObj [("status", JStr (if code <? 500 then "fail" else "error"));
                  ("message", JStr "Resource not found.")] |}).
Proof.
  intros message code Hrange.
  unfold ErrorHandler.errorHandler. rewrite (class_body _ _ Hrange). simpl.
  split; [|split].
  - intros ->. now destruct (code <? 500).
  - intros -> ->. now destruct (code <? 500).
  - intros -> -> ->. now destruct (code <? 500).
Qed.

End ErrorResponses.

(** Witness for X3: the error of a refused login, and an error thrown by a
    library. *)
Lemma errorHandler_passes_through_witness :
  errorHandler (AppError "Incorrect email or password" 401) =
    {| res_status := 401;
       res_body := JObj [("status", JStr "fail");
                         ("message", JStr "Incorrect email or password")] |} /\
  errorHandler {| ErrorHandler.name := "TypeError";
                  ErrorHandler.message := "data and salt arguments required";
                  ErrorHandler.statusCode := None;
                  ErrorHandler.status := None;
                  ErrorHandler.code := None |} =
    {| res_status := 500;
       res_body := JObj [("status", JStr "error");
                         ("message", JStr "data and salt arguments required")] |}.
Proof.
  destruct errorHandler_passes_through as (Happ & Hlib).
  split.
  - apply (Happ "Incorrect email or password" 401); [lia|reflexivity..].
  - apply Hlib; try reflexivity; discriminate.
Defined.

(** Witness for X4: an error built with status 500 whose message says that
    something was not found is answered 404, the body saying [error]. *)
Lemma errorHandler_phrases_override_witness :
  errorHandler (AppError "Template not found" 500) =
    {| res_status := 404;
       res_body := JObj [("status", JStr "error");
                         ("message", JStr "Resource not found.")] |}.
Proof.
  destruct (errorHandler_phrases_override "Template not found" 500)
    as (_ & _ & H); [lia|].
  apply H; reflexivity.
Defined.

(* ------------------------------------------------------------------ *)
(** ** Identity resolution *)

Section IdentityResolution.
Context {L : Libs}.

Lemma split_word (w : string) : word w -> Js.split " " w = [w].
Proof.
  unfold word. induction w as [|c w IH]; simpl; [reflexivity|].
  intros H. apply andb_prop in H as [Hc Hw].
  apply negb_true_iff in Hc. rewrite Hc, (IH Hw). reflexivity.
Qed.

Lemma split_word_space (w s : string) :
  word w ->
  Js.split " " (String.append w (String " " s)) = w :: Js.split " " s.
Proof.
  unfold word. induction w as [|c w IH]; simpl; [reflexivity|].
  intros H. apply andb_prop in H as [Hc Hw].
  apply negb_true_iff in Hc. rewrite Hc, (IH Hw). reflexivity.
Qed.

Lemma second_word (scheme token : string) :
  word scheme -> word token ->
  nth_error (Js.split " " (String.append scheme (String " " token))) 1
    = Some token.
Proof.
  intros Hs Ht. rewrite (split_word_space _ _ Hs), (split_word _ Ht).
  reflexivity.
Qed.

(** X5. Identity resolution reads the second word of the header and does
    not look at the first: whatever the scheme word, the token is verified
    and its id looked up, giving the user, 401 for a token that does not
    verify and 404 for an id without a user. A header of one word is
    answered 401. Every request that is turned away is answered by one of
    these two responses, the handler is not run and the store stays as it
    was. *)
Theorem protect_reads_second_word :
  (forall (db : Db) (scheme token : string) (now : Z),
      word scheme -> word token ->
      Protect.protect db (Some (String.append scheme (String " " token))) now =
        match jwt_verify token now with
        | None => Stop (Next (AppError "Not authorized" 401))
        | Some id =>
            match Prisma.user_findUnique_id db id with
            | None => Stop (Next (AppError "No user found with this id" 404))
            | Some user => Continue user
            end
        end)
  /\
  (forall (db : Db) (header : string) (now : Z),
      word header ->
      Protect.protect db (Some header) now =
        Stop (Next (AppError "Not authorized" 401)))
  /\
  (forall (db : Db) (authorization : option string) (now : Z) (o : Outcome)
          (handler : User.t -> Db * Outcome),
      Protect.protect db authorization now = Stop o ->
      Protect.protected db authorization now handler = (db, dispatch o) /\
      (dispatch o = {| res_status := 401;
                       res_body := failure "Not authorized" |} \/
       dispatch o = {| res_status := 404;
                       res_body := failure "No user found with this id" |})).
Proof.
  split; [|split].
  - intros db scheme token now Hs Ht. unfold Protect.protect.
    rewrite (second_word _ _ Hs Ht). reflexivity.
  - intros db header now Hw. unfold Protect.protect.
    rewrite (split_word _ Hw). reflexivity.
  - intros db authorization now o handler H.
    split; [unfold Protect.protected; now rewrite H|].
    unfold Protect.protect in H.
    destruct authorization as [header|]; [|injection H as <-; now left].
    destruct (nth_error _ 1) as [token|]; [|injection H as <-; now left].
    destruct (jwt_verify token now) as [id|]; [|injection H as <-; now left].
    destruct (Prisma.user_findUnique_id db id); [discriminate|].
    injection H as <-. now right.
Qed.

(** X6. A login with the right password is answered 200 with a token, and
    that token, sent as a bearer token, resolves to the user who logged in:
    this holds in a store with distinct user ids, for a token without a
    space that the token library verifies back to the id it signed. *)
Theorem login_token_resolves_to_user :
  forall (db : Db) (user : User.t) (email password : string) (now now' : Z),
    NoDup (map User.id (users db)) ->
    Prisma.user_findUnique_email db email = Some user ->
    bcrypt_compare password (User.password user) = true ->
    word (jwt_sign (User.id user) now) ->
    jwt_verify (jwt_sign (User.id user) now) now' = Some (User.id user) ->
    exists token,
      authRoutes.post_login db email password now =
        (db, {| res_status := 200;
                res_body := JObj [("token", JStr token)] |}) /\
      Protect.protect db (Some (String.append "Bearer" (String " " token))) now'
        = Continue user.
Proof.
  intros db user email password now now' Hnd Hfind Hcmp Hword Hverify.
  exists (jwt_sign (User.id user) now). split.
  - unfold authRoutes.post_login, authRoutes.login.
    rewrite Hfind, Hcmp. reflexivity.
  - unfold Protect.protect.
    rewrite (second_word "Bearer" _ eq_refl Hword), Hverify.
    apply find_some in Hfind as [Hin _].
    now rewrite (unique_row_found_by_id db user Hnd Hin).
Qed.

End IdentityResolution.

(** Witness for X5: the scheme word [Token] serves as well as [Bearer], a
    header of the one word [Bearer] is turned away, and so is a request
    without a header. *)
Lemma protect_reads_second_word_witness :
  Protect.protect demo_db (Some "Token jwt.2") 0 = Continue bob /\
  Protect.protect demo_db (Some "Bearer") 0 =
    Stop (Next (AppError "Not authorized" 401)) /\
  Protect.protected demo_db None 0 (fun u => (demo_db, Respond
      {| res_status := 200; res_body := JNull |})) =
    (demo_db, {| res_status := 401; res_body := failure "Not authorized" |}).
Proof.
  destruct protect_reads_second_word as (Hsecond & Hone & Hstop).
  split; [|split].
  - change (Some "Token jwt.2")
      with (Some (String.append "Token" (String " " "jwt.2"))).
    rewrite (Hsecond demo_db "Token" "jwt.2" 0 eq_refl eq_refl). reflexivity.
  - apply Hone. reflexivity.
  - destruct (Hstop demo_db None 0 (Next (AppError "Not authorized" 401))
                (fun u => (demo_db, Respond {| res_status := 200;
                                               res_body := JNull |}))
                eq_refl) as [H _].
    exact H.
Defined.

(** Witness for X6: bob logs in and his token resolves to him. *)
Lemma login_token_resolves_to_user_witness :
  exists token,
    authRoutes.post_login demo_db "bob@example.com" "password456" 10 =
      (demo_db, {| res_status := 200;
                   res_body := JObj [("token", JStr token)] |}) /\
    Protect.protect demo_db
      (Some (String.append "Bearer" (String " " token))) 20 = Continue bob.
Proof.
  apply (login_token_resolves_to_user demo_db bob "bob@example.com"
           "password456" 10 20).
  - exact demo_db_ids_distinct.
  - reflexivity.
  - reflexivity.
  - reflexivity.
  - reflexivity.
Defined.

(* ------------------------------------------------------------------ *)
(** ** Registration followed by other requests *)

Section AfterRegistration.
Context {L : Libs}.

Lemma register_appends (db : Db) (body : validate.RegisterBody)
    (salt email password role : string) :
  validate.validateRegisterData body = Continue (email, password, role) ->
  Prisma.user_findUnique_email db email = None ->
  let user := {| User.id := userSeq db; User.email := email;
                 User.password := bcrypt_hash password 12 salt;
                 User.role := role; User.resetToken := None;
                 User.resetTokenExpiry := None |} in
  authRoutes.post_register db body salt =
    (set_users db (users db ++ [user]) (userSeq db + 1),
     {| res_status := 201; res_body := JObj [("user", User.toJson user)] |}) /\
  Prisma.user_findUnique_email
    (set_users db (users db ++ [user]) (userSeq db + 1)) email = Some user.
Proof.
  intros Hval Hfresh user. split.
  - unfold authRoutes.post_register, authRoutes.register, Prisma.user_create.
    rewrite Hval, Hfresh. reflexivity.
  - unfold Prisma.user_findUnique_email in *. simpl.
    rewrite (find_app_none _ _ _ Hfresh). simpl.
    now rewrite String.eqb_refl.
Qed.

(** X7. After a registration that is answered 201, a login with the same
    email and password is answered 200 with a token signed for the id of
    the new user, provided the hashing library recognises the password in
    the hash it made of it. *)
Theorem register_then_login :
  forall (db : Db) (body : validate.RegisterBody)
         (salt email password role : string) (now : Z),
    validate.validateRegisterData body = Continue (email, password, role) ->
    Prisma.user_findUnique_email db email = None ->
    bcrypt_compare password (bcrypt_hash password 12 salt) = true ->
    exists db' user,
      authRoutes.post_register db body salt =
        (db', {| res_status := 201;
                 res_body := JObj [("user", User.toJson user)] |}) /\
      User.id user = userSeq db /\
      authRoutes.post_login db' email password now =
        (db', {| res_status := 200;
                 res_body :=
                   JObj [("token", JStr (jwt_sign (User.id user) now))] |}).
Proof.
  intros db body salt email password role now Hval Hfresh Hcmp.
  destruct (register_appends db body salt email password role Hval Hfresh)
    as (Hrun & Hfind).
  do 2 eexists. split; [exact Hrun|]. split; [reflexivity|].
  unfold authRoutes.post_login, authRoutes.login.
  rewrite Hfind. simpl. rewrite Hcmp. reflexivity.
Qed.

(** X8. A registration with an email that a user has already is answered
    400 with the message that the email exists, whatever the password and
    the role. The tables stay as they were; the refused insert has drawn
    one id from the sequence of the users. So of two registrations with one
    email the second is refused, and the sequence is then two ids further
    than before the first. *)
Theorem register_refuses_known_email :
  (forall (db : Db) (body : validate.RegisterBody)
          (salt email password role : string) (user : User.t),
      validate.validateRegisterData body = Continue (email, password, role) ->
      Prisma.user_findUnique_email db email = Some user ->
      exists db',
        authRoutes.post_register db body salt =
          (db', {| res_status := 400;
                   res_body := failure "Email already exists" |}) /\
        users db' = users db /\
        events db' = events db /\
        registrations db' = registrations db /\
        feedbacks db' = feedbacks db /\
        userSeq db' = userSeq db + 1)
  /\
  (forall (db : Db) (body body' : validate.RegisterBody)
          (salt salt' email password role password' role' : string),
      validate.validateRegisterData body = Continue (email, password, role) ->
      validate.validateRegisterData body' = Continue (email, password', role') ->
      Prisma.user_findUnique_email db email = None ->
      exists db1 resp1 db2,
        authRoutes.post_register db body salt = (db1, resp1) /\
        res_status resp1 = 201 /\
        authRoutes.post_register db1 body' salt' =
          (db2, {| res_status := 400;
                   res_body := failure "Email already exists" |}) /\
        users db2 = users db1 /\
        userSeq db2 = userSeq db + 2).
Proof.
  assert (Hknown : forall db body salt email password role user,
             validate.validateRegisterData body = Continue (email, password, role) ->
             Prisma.user_findUnique_email db email = Some user ->
             authRoutes.post_register db body salt =
               (set_users db (users db) (userSeq db + 1),
                {| res_status := 400;
                   res_body := failure "Email already exists" |})).
  { intros db body salt email password role user Hval Hfind.
    unfold authRoutes.post_register, authRoutes.register, Prisma.user_create.
    rewrite Hval, Hfind. reflexivity. }
  split.
  - intros db body salt email password role user Hval Hfind.
    eexists. split; [exact (Hknown _ _ _ _ _ _ _ Hval Hfind)|].
    repeat split.
  - intros db body body' salt salt' email password role password' role'
      Hval Hval' Hfresh.
    destruct (register_appends db body salt email password role Hval Hfresh)
      as (Hrun & Hfind).
    do 3 eexists. split; [exact Hrun|]. split; [reflexivity|].
    split; [exact (Hknown _ _ _ _ _ _ _ Hval' Hfind)|].
    split; [reflexivity|]. simpl. lia.
Qed.

End AfterRegistration.

(** Witness for X7: the registration of the examples, then a login. *)
Lemma register_then_login_witness :
  exists db' user,
    authRoutes.post_register demo_db demo_register_body "s9" =
      (db', {| res_status := 201;
               res_body := JObj [("user", User.toJson user)] |}) /\
    User.id user = 5 /\
    authRoutes.post_login db' "a@x.com" "pw123456" 10 =
      (db', {| res_status := 200;
               res_body := JObj [("token", JStr "jwt.5")] |}).
Proof.
  destruct (register_then_login (L := demo_libs) demo_db demo_register_body
              "s9" "a@x.com" "pw123456" "ATTENDEE" 10 eq_refl eq_refl eq_refl)
    as (db' & user & Hrun & Hid & Hlogin).
  exists db', user. split; [exact Hrun|]. split; [exact Hid|].
  rewrite Hlogin, Hid. reflexivity.
Defined.

(** Witness for X8: alice's email cannot be registered again, and the
    address of the examples can be registered once. *)
Lemma register_refuses_known_email_witness :
  (exists db',
      authRoutes.post_register demo_db
        {| validate.email := Some "alice@example.com";
           validate.password := Some "another-password";
           validate.role := Some "ADMIN" |} "s9" =
        (db', {| res_status := 400;
                 res_body := failure "Email already exists" |}) /\
      users db' = users demo_db /\
      userSeq db' = 6) /\
  exists db1 resp1 db2,
    authRoutes.post_register demo_db demo_register_body "s9" = (db1, resp1) /\
    res_status resp1 = 201 /\
    authRoutes.post_register db1 demo_register_body "s10" =
      (db2, {| res_status := 400;
               res_body := failure "Email already exists" |}) /\
    users db2 = users db1 /\
    userSeq db2 = 7.
Proof.
  destruct register_refuses_known_email as (Hknown & Htwice).
  split.
  - destruct (Hknown demo_db
                {| validate.email := Some "alice@example.com";
                   validate.password := Some "another-password";
                   validate.role := Some "ADMIN" |}
                "s9" "alice@example.com" "another-password" "ADMIN" alice
                eq_refl eq_refl)
      as (db' & Hrun & Husers & _ & _ & _ & Hseq).
    exists db'. split; [exact Hrun|]. split; [exact Husers|exact Hseq].
  - apply (Htwice demo_db demo_register_body demo_register_body "s9" "s10"
             "a@x.com" "pw123456" "ATTENDEE" "pw123456" "ATTENDEE");
      reflexivity.
Defined.

(* ------------------------------------------------------------------ *)
(** ** The rules of the tables are kept *)

Section TableRules.
Context {A B : Type} (key : A -> B).

Lemma NoDup_map_snoc (l : list A) (x : A) :
  NoDup (map key l) -> ~ In (key x) (map key l) ->
  NoDup (map key (l ++ [x])).
Proof.
  induction l as [|y l IH]; simpl; intros Hnd Hx.
  - repeat constructor. auto.
  - inversion Hnd as [|? ? Hy Hl]; subst. constructor.
    + rewrite map_app, in_app_iff. simpl. intuition.
    + apply IH; auto.
Qed.

Lemma NoDup_map_filter (p : A -> bool) (l : list A) :
  NoDup (map key l) -> NoDup (map key (filter p l)).
Proof.
  induction l as [|y l IH]; simpl; intros Hnd; [constructor|].
  inversion Hnd as [|? ? Hy Hl]; subst.
  destruct (p y); simpl; auto. constructor; auto.
  intros Hin. apply Hy. apply in_map_iff in Hin as (z & Hz & Hin).
  apply filter_In in Hin as [Hin _]. rewrite <- Hz. now apply in_map.
Qed.

Lemma map_key_update (q : A -> bool) (data : A -> A) (l : list A) :
  (forall x, key (data x) = key x) ->
  map key (map (fun x => if q x then data x else x) l) = map key l.
Proof.
  intros H. rewrite map_map. apply map_ext. intros x.
  destruct (q x); auto.
Qed.

End TableRules.

Section SequenceRules.
Context {A : Type} (id : A -> Z).

Lemma next_id_is_fresh (seq : Z) (l : list A) :
  Forall (fun x => id x < seq) l -> ~ In seq (map id l).
Proof.
  intros H Hin. apply in_map_iff in Hin as (x & Hx & Hin).
  rewrite Forall_forall in H. apply H in Hin. lia.
Qed.

Lemma below_next_snoc (seq : Z) (l : list A) (x : A) :
  Forall (fun y => id y < seq) l -> id x = seq ->
  Forall (fun y => id y < seq + 1) (l ++ [x]).
Proof.
  intros H Hx. apply Forall_app. split.
  - eapply Forall_impl; [|exact H]. simpl. intros; lia.
  - repeat constructor. lia.
Qed.

Lemma below_next (seq : Z) (l : list A) :
  Forall (fun y => id y < seq) l -> Forall (fun y => id y < seq + 1) l.
Proof.
  intros H. eapply Forall_impl; [|exact H]. simpl. intros; lia.
Qed.

Lemma below_filter (seq : Z) (p : A -> bool) (l : list A) :
  Forall (fun y => id y < seq) l -> Forall (fun y => id y < seq) (filter p l).
Proof.
  rewrite !Forall_forall. intros H x Hx. apply filter_In in Hx as [Hx _]. auto.
Qed.

Lemma below_update (seq : Z) (q : A -> bool) (data : A -> A) (l : list A) :
  (forall x, id (data x) = id x) ->
  Forall (fun y => id y < seq) l ->
  Forall (fun y => id y < seq) (map (fun x => if q x then data x else x) l).
Proof.
  intros Hd. rewrite !Forall_forall. intros H y Hy.
  apply in_map_iff in Hy as (x & <- & Hx).
  destruct (q x); [rewrite Hd|]; auto.
Qed.

End SequenceRules.

Section StoreRules.
Context {L : Libs}.

Lemma email_not_taken (db : Db) (email : string) :
  Prisma.user_findUnique_email db email = None ->
  ~ In email (map User.email (users db)).
Proof.
  intros H Hin. apply in_map_iff in Hin as (u & Hu & Hin).
  apply (find_none _ _ H) in Hin. simpl in Hin.
  rewrite Hu, String.eqb_refl in Hin. discriminate.
Qed.

Lemma registration_pair_free (db : Db) (userId eventId : Z) :
  Prisma.registration_findUnique db userId eventId = None ->
  ~ In (userId, eventId) (map registration_pair (registrations db)).
Proof.
  intros H Hin. apply in_map_iff in Hin as (r & Hr & Hin).
  apply (find_none _ _ H) in Hin. unfold Prisma.registration_is in Hin.
  injection Hr as Hu He. rewrite Hu, He, !Z.eqb_refl in Hin. discriminate.
Qed.

Lemma feedback_pair_free (db : Db) (userId eventId : Z) :
  Prisma.feedback_findUnique db userId eventId = None ->
  ~ In (userId, eventId) (map feedback_pair (feedbacks db)).
Proof.
  intros H Hin. apply in_map_iff in Hin as (f & Hf & Hin).
  apply (find_none _ _ H) in Hin. unfold Prisma.feedback_is in Hin.
  injection Hf as Hu He. rewrite Hu, He, !Z.eqb_refl in Hin. discriminate.
Qed.

Lemma user_create_ok (db : Db) (email password role : string) :
  store_ok db ->
  store_ok (fst (Prisma.user_create db email password role)).
Proof.
  intros Hok. unfold Prisma.user_create.
  destruct (Prisma.user_findUnique_email db email) eqn:E;
    destruct Hok; constructor; simpl; auto.
  - now apply below_next.
  - apply NoDup_map_snoc; auto. now apply next_id_is_fresh.
  - now apply below_next_snoc.
  - apply NoDup_map_snoc; auto. now apply email_not_taken.
Qed.

Lemma user_update_ok (db db' : Db) (id : Z) (data : User.t -> User.t)
    (u : User.t) :
  (forall x, User.id (data x) = User.id x) ->
  (forall x, User.email (data x) = User.email x) ->
  store_ok db ->
  Prisma.user_update db id data = inr (db', u) ->
  store_ok db'.
Proof.
  intros Hid Hemail Hok H. unfold Prisma.user_update in H.
  destruct (Prisma.user_findUnique_id db id); [|discriminate].
  injection H as <- <-. destruct Hok. constructor; simpl; auto.
  - now rewrite map_key_update.
  - now apply below_update.
  - now rewrite map_key_update.
Qed.

Lemma event_update_ok (db db' : Db) (id : Z) (data : Event.t -> Event.t)
    (e : Event.t) :
  (forall x, Event.id (data x) = Event.id x) ->
  store_ok db ->
  Prisma.event_update db id data = inr (db', e) ->
  store_ok db'.
Proof.
  intros Hid Hok H. unfold Prisma.event_update in H.
  destruct (Prisma.event_findUnique db id); [|discriminate].
  injection H as <- <-. destruct Hok. constructor; simpl; auto.
  - now rewrite map_key_update.
  - now apply below_update.
Qed.

Lemma event_delete_ok (db db' : Db) (id : Z) (e : Event.t) :
  store_ok db ->
  Prisma.event_delete db id = inr (db', e) ->
  store_ok db'.
Proof.
  intros Hok H. unfold Prisma.event_delete in H.
  destruct (Prisma.event_findUnique db id); [|discriminate].
  destruct (Prisma.event_referred db id); [discriminate|].
  injection H as <- <-. destruct Hok. constructor; simpl; auto.
  - now apply NoDup_map_filter.
  - now apply below_filter.
Qed.

Lemma event_create_ok (db : Db) (title description : string) (date : Z)
    (location : string) (organizerId : Z) :
  store_ok db ->
  store_ok (fst (PrismaRest.event_create db title description date location
                   organizerId)).
Proof.
  intros Hok. destruct Hok. constructor; simpl; auto.
  - apply NoDup_map_snoc; auto. now apply next_id_is_fresh.
  - now apply below_next_snoc.
Qed.

Lemma registrations_filter_ok (db : Db) (p : Registration.t -> bool) :
  store_ok db ->
  store_ok (set_registrations db (filter p (registrations db))
              (registrationSeq db)).
Proof.
  intros Hok. destruct Hok. constructor; simpl; auto.
  - now apply NoDup_map_filter.
  - now apply below_filter.
  - now apply NoDup_map_filter.
Qed.

Lemma registration_create_ok (db : Db) (userId eventId : Z) :
  store_ok db ->
  store_ok (fst (Prisma.registration_create db userId eventId)).
Proof.
  intros Hok. unfold Prisma.registration_create.
  destruct (Prisma.registration_findUnique db userId eventId) eqn:E;
    destruct Hok; constructor; simpl; auto.
  - now apply below_next.
  - apply NoDup_map_snoc; auto. now apply next_id_is_fresh.
  - now apply below_next_snoc.
  - apply NoDup_map_snoc; auto. now apply registration_pair_free.
Qed.

Lemma feedback_create_ok (db : Db) (userId eventId : Z) (text : string) :
  store_ok db ->
  store_ok (fst (Prisma.feedback_create db userId eventId text)).
Proof.
  intros Hok. unfold Prisma.feedback_create.
  destruct (Prisma.feedback_findUnique db userId eventId) eqn:E;
    destruct Hok; constructor; simpl; auto.
  - now apply below_next.
  - apply NoDup_map_snoc; auto. now apply next_id_is_fresh.
  - now apply below_next_snoc.
  - apply NoDup_map_snoc; auto. now apply feedback_pair_free.
Qed.

(** X9. The routes of registration, login and password reset keep the
    rules of the tables: from a store with distinct ids below the sequences,
    distinct emails and at most one registration and one feedback for a
    pair, each of them leaves such a store, whatever the request. *)
Theorem account_routes_keep_rules :
  forall db : Db,
    store_ok db ->
    (forall (body : validate.RegisterBody) (salt : string),
        store_ok (fst (authRoutes.post_register db body salt))) /\
    (forall (email password : string) (now : Z),
        store_ok (fst (authRoutes.post_login db email password now))) /\
    (forall (email resetToken : string) (now : Z) (delivered : bool),
        store_ok (fst (passwordRoutes.post_password_reset db email resetToken
                         now delivered))) /\
    (forall (resetToken newPassword salt : string) (now : Z),
        store_ok (fst (passwordRoutes.post_reset_password db resetToken
                         newPassword salt now))).
Proof.
  intros db Hok. split; [|split; [|split]].
  - intros body salt. unfold authRoutes.post_register.
    destruct (validate.validateRegisterData body) as [[[email password] role]|o];
      [|exact Hok].
    unfold authRoutes.register.
    pose proof (user_create_ok db email (bcrypt_hash password 12 salt) role
                  Hok) as H.
    destruct (Prisma.user_create db email _ role) as [db' [err|u]];
      [|exact H].
    now destruct (ErrorHandler.code_is err "P2002").
  - intros email password now. exact Hok.
  - intros email resetToken now delivered.
    unfold passwordRoutes.post_password_reset, passwordRoutes.password_reset.
    destruct (Prisma.user_findUnique_email db email) as [user|]; [|exact Hok].
    destruct (Prisma.user_update db (User.id user) _) as [err|[db' u]] eqn:E;
      [exact Hok|].
    simpl. eapply user_update_ok; [| |exact Hok|exact E]; reflexivity.
  - intros resetToken newPassword salt now.
    unfold passwordRoutes.post_reset_password, passwordRoutes.reset_password.
    destruct (Prisma.user_findFirst_resetToken db resetToken) as [user|];
      [|exact Hok].
    destruct (passwordRoutes.before _ now); [exact Hok|].
    destruct (Prisma.user_update db (User.id user) _) as [err|[db' u]] eqn:E;
      [exact Hok|].
    simpl. eapply user_update_ok; [| |exact Hok|exact E]; reflexivity.
Qed.

(** X10. The routes of the events keep the rules of the tables, whoever the
    user and whatever the request: creation, update and deletion of an
    event, the two listings, registration and its deletion, feedback and
    history. *)
Theorem event_routes_keep_rules :
  forall (db : Db) (user : User.t),
    store_ok db ->
    (forall body : eventRoutes.EventBody,
        store_ok (fst (eventRoutesRest.create_event db user body))) /\
    (forall (eventId : Z) (body : eventRoutes.EventBody),
        store_ok (fst (eventRoutes.put_event db user eventId body))) /\
    (forall eventId : Z,
        store_ok (fst (eventRoutes.delete_event db user eventId))) /\
    (forall q : eventRoutes.ListQuery,
        store_ok (fst (eventRoutes.get_events db user q))) /\
    (forall param : string,
        store_ok (fst (eventRoutes.get_page db user param))) /\
    (forall eventId : Z,
        store_ok (fst (eventRoutes.register db user eventId))) /\
    (forall eventId : Z,
        store_ok (fst (eventRoutesRest.unregister db user eventId))) /\
    (forall (eventId : Z) (text : string),
        store_ok (fst (eventRoutes.feedback db user eventId text))) /\
    store_ok (fst (eventRoutesRest.history db user)).
Proof.
  intros db user Hok.
  repeat match goal with |- _ /\ _ => split end.
  - intros body. unfold eventRoutesRest.create_event.
    destruct (negb (String.eqb (User.role user) "ORGANIZER")); [exact Hok|].
    pose proof (event_create_ok db (eventRoutes.title body)
                  (eventRoutes.description body) (eventRoutes.date body)
                  (eventRoutes.location body) (User.id user) Hok) as H.
    now destruct (PrismaRest.event_create db _ _ _ _ _).
  - intros eventId body. unfold eventRoutes.put_event.
    destruct (String.eqb (User.role user) "ATTENDEE"); [exact Hok|].
    destruct (Prisma.event_findUnique db eventId) as [event|]; [|exact Hok].
    destruct (negb _ && negb _); [exact Hok|].
    destruct (Prisma.event_update db eventId _) as [err|[db' e]] eqn:E;
      [exact Hok|].
    simpl. eapply event_update_ok; [|exact Hok|exact E]. reflexivity.
  - intros eventId. unfold eventRoutes.delete_event.
    destruct (String.eqb (User.role user) "ATTENDEE"); [exact Hok|].
    destruct (Prisma.event_findUnique db eventId) as [event|]; [|exact Hok].
    destruct (negb _ && negb _); [exact Hok|].
    assert (Hok1 : store_ok (Prisma.registration_deleteMany_event db eventId))
      by (apply registrations_filter_ok; exact Hok).
    destruct (Prisma.event_delete _ eventId) as [err|[db' e]] eqn:E;
      [exact Hok1|].
    simpl. eapply event_delete_ok; eauto.
  - intros q. unfold eventRoutes.get_events.
    now destruct (Prisma.event_findMany db _).
  - intros param. unfold eventRoutes.get_page.
    destruct (Js.parseInt param) as [p|]; [|exact Hok].
    destruct (p <? 1); [exact Hok|].
    now destruct (Prisma.event_findMany db _).
  - intros eventId. unfold eventRoutes.register.
    destruct (Prisma.event_findUnique db eventId); [|exact Hok].
    destruct (Prisma.registration_findUnique db _ eventId); [exact Hok|].
    pose proof (registration_create_ok db (User.id user) eventId Hok) as H.
    now destruct (Prisma.registration_create db _ eventId) as [db' [err|r]].
  - intros eventId. unfold eventRoutesRest.unregister,
      PrismaRest.registration_deleteMany.
    assert (H := registrations_filter_ok db
                   (fun r => negb (Prisma.registration_is (User.id user)
                                     eventId r)) Hok).
    now destruct (_ =? 0).
  - intros eventId text. unfold eventRoutes.feedback.
    destruct (Prisma.registration_findUnique db _ eventId); [|exact Hok].
    destruct (Prisma.feedback_findUnique db _ eventId) as [f0|].
    + exact Hok.
    + pose proof (feedback_create_ok db (User.id user) eventId text Hok) as H.
      now destruct (Prisma.feedback_create db _ eventId text) as [db' [err|f]].
  - unfold eventRoutesRest.history.
    now destruct (negb (String.eqb (User.role user) "ATTENDEE")).
Qed.

End StoreRules.

Lemma demo_db_ok : store_ok demo_db.
Proof.
  constructor; simpl;
    repeat constructor; simpl; try lia; intuition discriminate.
Qed.

(** Witness for X9: the store of the examples after a registration and
    after a request for a reset. *)
Lemma account_routes_keep_rules_witness :
  store_ok (fst (authRoutes.post_register demo_db demo_register_body "s9")) /\
  store_ok (fst (passwordRoutes.post_password_reset demo_db "alice@example.com"
                   "tok-alice" 1000 true)).
Proof.
  destruct (account_routes_keep_rules demo_db demo_db_ok)
    as (Hregister & _ & Hrequest & _).
  split; [apply Hregister|apply Hrequest].
Defined.

(** Witness for X10: the store of the examples after alice creates an event
    and after carol registers for event 7. *)
Lemma event_routes_keep_rules_witness :
  store_ok (fst (eventRoutesRest.create_event demo_db alice demo_body)) /\
  store_ok (fst (eventRoutes.register demo_db carol 7)).
Proof.
  split.
  - destruct (event_routes_keep_rules demo_db alice demo_db_ok) as (H & _).
    apply H.
  - destruct (event_routes_keep_rules demo_db carol demo_db_ok)
      as (_ & _ & _ & _ & _ & H & _).
    apply H.
Defined.

(* ------------------------------------------------------------------ *)
(** ** The password reset flow, request after request *)

Section ResetFlow.
Context {L : Libs}.

(** The users after a request for a reset. *)
Lemma password_reset_store (db : Db) (user : User.t) (email resetToken : string)
    (now : Z) (delivered : bool) :
  Prisma.user_findUnique_email db email = Some user ->
  let db1 := set_users db
               (map (fun x => if User.id x =? User.id user
                              then after_request resetToken (now + 3600000) x
                              else x) (users db))
               (userSeq db) in
  fst (passwordRoutes.post_password_reset db email resetToken now delivered)
    = db1 /\
  Prisma.user_findUnique_email db1 email =
    Some (after_request resetToken (now + 3600000) user).
Proof.
  intros Hfind db1. split.
  - unfold passwordRoutes.post_password_reset, passwordRoutes.password_reset.
    rewrite Hfind.
    destruct (found_by_email_has_id _ _ _ Hfind) as [u0 Hu0].
    rewrite (user_update_found _ _ _ _ Hu0). reflexivity.
  - unfold Prisma.user_findUnique_email. simpl.
    apply (find_map_update (fun u => String.eqb (User.email u) email)
             (fun x => User.id x =? User.id user)
             (after_request resetToken (now + 3600000))).
    + reflexivity.
    + exact Hfind.
    + apply Z.eqb_refl.
Qed.

(** After a request with a token that nobody held, the first holder of the
    token has the id of the user and the expiry of the request. *)
Lemma requested_token_holder (db : Db) (user : User.t) (resetToken : string)
    (expiry : Z) :
  In user (users db) ->
  (forall u, In u (users db) -> User.resetToken u <> Some resetToken) ->
  exists u1,
    find (Prisma.holds_token resetToken)
      (map (fun x => if User.id x =? User.id user
                     then after_request resetToken expiry x else x)
         (users db)) = Some u1 /\
    User.id u1 = User.id user /\
    User.resetTokenExpiry u1 = Some expiry.
Proof.
  intros Hin Hfresh.
  destruct (find _ (map _ (users db))) as [u1|] eqn:E.
  - exists u1. split; [reflexivity|].
    apply find_some in E as [Hu1 Hholds].
    apply in_map_iff in Hu1 as (x & Hx & Hxin).
    destruct (Z.eqb_spec (User.id x) (User.id user)) as [Hid|Hid].
    + subst u1. simpl. auto.
    + subst u1. exfalso. apply (Hfresh x Hxin).
      unfold Prisma.holds_token in Hholds.
      destruct (User.resetToken x); [|discriminate].
      apply String.eqb_eq in Hholds. now subst.
  - exfalso.
    assert (Hin' : In (after_request resetToken expiry user)
                     (map (fun x => if User.id x =? User.id user
                                    then after_request resetToken expiry x
                                    else x) (users db))).
    { apply in_map_iff. exists user. now rewrite Z.eqb_refl. }
    apply (find_none _ _ E) in Hin'. unfold Prisma.holds_token in Hin'.
    simpl in Hin'. rewrite String.eqb_refl in Hin'. discriminate.
Qed.

(** X11. A reset runs from the request to a login: after a request for the
    email of a user, with a token that nobody held, the token is accepted
    up to one hour after the request, whether or not the mail was
    delivered, and a login with the new password is then answered 200,
    provided the hashing library recognises the password in the hash it
    made of it; later than one hour after the request the token is refused
    and the store stays as the request left it. *)
Theorem reset_flow_round_trip :
  forall (db : Db) (user : User.t) (email resetToken newPassword salt : string)
         (now1 now2 now3 : Z) (delivered : bool),
    Prisma.user_findUnique_email db email = Some user ->
    (forall u, In u (users db) -> User.resetToken u <> Some resetToken) ->
    exists db1 resp1,
      passwordRoutes.post_password_reset db email resetToken now1 delivered =
        (db1, resp1) /\
      (now2 <= now1 + 3600000 ->
       bcrypt_compare newPassword (bcrypt_hash newPassword 10 salt) = true ->
       exists db2,
         passwordRoutes.post_reset_password db1 resetToken newPassword salt now2 =
           (db2, {| res_status := 200;
                    res_body := message_body "Password reset successful" |}) /\
         authRoutes.post_login db2 email newPassword now3 =
           (db2, {| res_status := 200;
                    res_body :=
                      JObj [("token", JStr (jwt_sign (User.id user) now3))] |})) /\
      (now1 + 3600000 < now2 ->
       passwordRoutes.post_reset_password db1 resetToken newPassword salt now2 =
         (db1, {| res_status := 400;
                  res_body := message_body "Invalid or expired reset token" |})).
Proof.
  intros db user email resetToken newPassword salt now1 now2 now3 delivered
    Hfind Hfresh.
  destruct (password_reset_store db user email resetToken now1 delivered Hfind)
    as (Hdb1 & Hfind1).
  set (db1 := set_users db _ _) in *.
  exists db1, (snd (passwordRoutes.post_password_reset db email resetToken now1
                      delivered)).
  split; [rewrite <- Hdb1; apply surjective_pairing|].
  pose proof (find_some _ _ Hfind) as [Hin _].
  destruct (requested_token_holder db user resetToken (now1 + 3600000) Hin Hfresh)
    as (u1 & Hholder & Hid1 & Hexp1).
  split.
  - intros Hle Hcmp.
    assert (Hfresh1 : passwordRoutes.before (User.resetTokenExpiry u1) now2
                      = false).
    { rewrite Hexp1. simpl. now apply Z.ltb_ge. }
    eexists. split.
    + apply (reset_password_accepted db1 u1 resetToken newPassword salt now2
               Hholder Hfresh1).
    + unfold authRoutes.post_login, authRoutes.login.
      assert (Hfind2 :
        Prisma.user_findUnique_email
          (set_users db1
             (map (fun x => if User.id x =? User.id u1
                            then after_reset (bcrypt_hash newPassword 10 salt) x
                            else x) (users db1))
             (userSeq db1)) email =
        Some (after_reset (bcrypt_hash newPassword 10 salt)
                (after_request resetToken (now1 + 3600000) user))).
      { unfold Prisma.user_findUnique_email. simpl.
        apply (find_map_update (fun u => String.eqb (User.email u) email)
                 (fun x => User.id x =? User.id u1)
                 (after_reset (bcrypt_hash newPassword 10 salt))).
        - reflexivity.
        - exact Hfind1.
        - simpl. rewrite Hid1. apply Z.eqb_refl. }
      rewrite Hfind2. simpl. rewrite Hcmp. reflexivity.
  - intros Hlate.
    unfold passwordRoutes.post_reset_password, passwordRoutes.reset_password.
    unfold Prisma.user_findFirst_resetToken. simpl. rewrite Hholder, Hexp1.
    simpl. apply Z.ltb_lt in Hlate. now rewrite Hlate.
Qed.

(** X12. A second request for a reset replaces the token of the first: once
    a user has asked again, with another token, the token of the first
    request, which nobody else held, is refused. *)
Theorem second_request_replaces_token :
  forall (db : Db) (user : User.t) (email token1 token2 newPassword salt : string)
         (now1 now2 now3 : Z) (delivered1 delivered2 : bool),
    Prisma.user_findUnique_email db email = Some user ->
    (forall u, In u (users db) -> User.resetToken u <> Some token1) ->
    token1 <> token2 ->
    exists db2,
      fst (passwordRoutes.post_password_reset
             (fst (passwordRoutes.post_password_reset db email token1 now1
                     delivered1))
             email token2 now2 delivered2) = db2 /\
      Prisma.user_findUnique_email db2 email =
        Some (after_request token2 (now2 + 3600000) user) /\
      passwordRoutes.post_reset_password db2 token1 newPassword salt now3 =
        (db2, {| res_status := 400;
                 res_body := message_body "Invalid or expired reset token" |}).
Proof.
  intros db user email token1 token2 newPassword salt now1 now2 now3
    delivered1 delivered2 Hfind Hfresh Hne.
  destruct (password_reset_store db user email token1 now1 delivered1 Hfind)
    as (Hdb1 & Hfind1).
  rewrite Hdb1. set (db1 := set_users db _ _) in *.
  destruct (password_reset_store db1 _ email token2 now2 delivered2 Hfind1)
    as (Hdb2 & Hfind2).
  rewrite Hdb2. set (db2 := set_users db1 _ _) in *.
  exists db2. split; [reflexivity|]. split; [exact Hfind2|].
  apply reset_password_unknown_token. apply held_by_nobody.
  intros u Hu. unfold db2 in Hu. simpl in Hu.
  apply in_map_iff in Hu as (y & Hy & Hyin).
  apply in_map_iff in Hyin as (x & Hx & Hxin).
  destruct (Z.eqb_spec (User.id y) (User.id user)) as [Hid|Hid].
  - subst u. simpl. congruence.
  - subst u. destruct (Z.eqb_spec (User.id x) (User.id user)) as [Hidx|Hidx].
    + subst y. simpl in Hid. contradiction.
    + subst y. now apply Hfresh.
Qed.

End ResetFlow.

(** Witness for X11: alice asks for a reset whose mail is lost, resets her
    password within the hour and logs in; a minute too late she could
    not. *)
Lemma reset_flow_round_trip_witness :
  exists db1 resp1,
    passwordRoutes.post_password_reset demo_db "alice@example.com" "tok-alice"
      1000 false = (db1, resp1) /\
    (exists db2,
        passwordRoutes.post_reset_password db1 "tok-alice" "new-password" "s7"
          3601000 =
          (db2, {| res_status := 200;
                   res_body := message_body "Password reset successful" |}) /\
        authRoutes.post_login db2 "alice@example.com" "new-password" 3602000 =
          (db2, {| res_status := 200;
                   res_body := JObj [("token", JStr "jwt.1")] |})) /\
    passwordRoutes.post_reset_password db1 "tok-alice" "new-password" "s7"
      3661000 =
      (db1, {| res_status := 400;
               res_body := message_body "Invalid or expired reset token" |}).
Proof.
  destruct (reset_flow_round_trip (L := demo_libs) demo_db alice
              "alice@example.com" "tok-alice" "new-password" "s7"
              1000 3601000 3602000 false eq_refl)
    as (db1 & resp1 & Hrun & Hin & _).
  { simpl. intros u [<-|[<-|[<-|[<-|[]]]]]; discriminate. }
  destruct (reset_flow_round_trip (L := demo_libs) demo_db alice
              "alice@example.com" "tok-alice" "new-password" "s7"
              1000 3661000 3602000 false eq_refl)
    as (db1' & resp1' & Hrun' & _ & Hlate).
  { simpl. intros u [<-|[<-|[<-|[<-|[]]]]]; discriminate. }
  assert (db1' = db1) by congruence. subst db1'.
  exists db1, resp1. split; [exact Hrun|]. split.
  - apply Hin; [lia|reflexivity].
  - apply Hlate. lia.
Defined.

(** Witness for X12: alice asks twice; the first token is refused. *)
Lemma second_request_replaces_token_witness :
  exists db2,
    fst (passwordRoutes.post_password_reset
           (fst (passwordRoutes.post_password_reset demo_db "alice@example.com"
                   "tok-1" 1000 true))
           "alice@example.com" "tok-2" 2000 true) = db2 /\
    passwordRoutes.post_reset_password db2 "tok-1" "new-password" "s7" 3000 =
      (db2, {| res_status := 400;
               res_body := message_body "Invalid or expired reset token" |}).
Proof.
  destruct (second_request_replaces_token demo_db alice "alice@example.com"
              "tok-1" "tok-2" "new-password" "s7" 1000 2000 3000 true true
              eq_refl) as (db2 & Hdb2 & _ & Hrefused).
  - simpl. intros u [<-|[<-|[<-|[<-|[]]]]]; discriminate.
  - discriminate.
  - exists db2. split; assumption.
Defined.

(* ------------------------------------------------------------------ *)
(** ** Creation, update and deletion of an event *)

Section EventLifeCycle.
Context {L : Libs}.

Lemma find_filter_out {A : Type} (p : A -> bool) (l : list A) :
  find p (filter (fun x => negb (p x)) l) = None.
Proof.
  apply find_none_iff. intros x Hx. apply filter_In in Hx as [_ Hx].
  now apply negb_true_iff in Hx.
Qed.

Lemma filter_filter_none {A : Type} (p q : A -> bool) (l : list A) :
  (forall x, p x = true -> q x = false) -> filter p (filter q l) = [].
Proof.
  intros H. induction l as [|x l IH]; simpl; [reflexivity|].
  destruct (q x) eqn:Hq; simpl; auto.
  destruct (p x) eqn:Hp; auto. rewrite (H x Hp) in Hq. discriminate.
Qed.

Lemma filter_filter_same {A : Type} (p q : A -> bool) (l : list A) :
  (forall x, p x = true -> q x = true) -> filter p (filter q l) = filter p l.
Proof.
  intros H. induction l as [|x l IH]; simpl; [reflexivity|].
  destruct (q x) eqn:Hq; simpl.
  - now rewrite IH.
  - destruct (p x) eqn:Hp; auto. rewrite (H x Hp) in Hq. discriminate.
Qed.

Lemma not_below_not_found (db : Db) :
  Forall (fun e => Event.id e < eventSeq db) (events db) ->
  Prisma.event_findUnique db (eventSeq db) = None.
Proof.
  intros H. apply find_none_iff. intros e He.
  rewrite Forall_forall in H. apply H in He. apply Z.eqb_neq. lia.
Qed.

(** X13. Only an ORGANIZER creates an event: any other role, ADMIN
    included, is answered 403 and the store stays as it was. The event of an
    ORGANIZER is appended with the next id of the sequence, the requester
    as its organizer and no category; in a store whose event ids are below
    the sequence it is the event found under its id, its creator may update
    it, and a requester with another id who is not an ADMIN is answered
    403. *)
Theorem create_event_belongs_to_creator :
  forall (db : Db) (user : User.t) (body : eventRoutes.EventBody),
    (User.role user <> "ORGANIZER" ->
     eventRoutes.served (eventRoutesRest.create_event db user body) =
       (db, {| res_status := 403;
               res_body :=
                 failure "You do not have permission to perform this action" |}))
    /\
    (User.role user = "ORGANIZER" ->
     Forall (fun e => Event.id e < eventSeq db) (events db) ->
     exists db' event,
       eventRoutes.served (eventRoutesRest.create_event db user body) =
         (db', {| res_status := 201;
                  res_body := JObj [("event", Event.toJson event)] |}) /\
       events db' = events db ++ [event] /\
       Event.id event = eventSeq db /\
       Event.organizerId event = User.id user /\
       Event.category event = None /\
       Prisma.event_findUnique db' (Event.id event) = Some event /\
       (forall body' : eventRoutes.EventBody,
           res_status (snd (eventRoutes.served
                              (eventRoutes.put_event db' user (Event.id event)
                                 body'))) = 200) /\
       (forall (other : User.t) (body' : eventRoutes.EventBody),
           User.id other <> User.id user ->
           User.role other <> "ADMIN" ->
           res_status (snd (eventRoutes.served
                              (eventRoutes.put_event db' other (Event.id event)
                                 body'))) = 403)).
Proof.
  intros db user body. split.
  - intros Hrole. unfold eventRoutes.served, eventRoutesRest.create_event.
    apply String.eqb_neq in Hrole. now rewrite Hrole.
  - intros Hrole Hbelow.
    unfold eventRoutes.served, eventRoutesRest.create_event,
      PrismaRest.event_create.
    rewrite Hrole. simpl.
    do 2 eexists. split; [reflexivity|]. simpl.
    assert (Hfound :
      Prisma.event_findUnique
        {| users := users db;
           events := events db ++
             [{| Event.id := eventSeq db;
                 Event.title := eventRoutes.title body;
                 Event.description := eventRoutes.description body;
                 Event.date := eventRoutes.date body;
                 Event.location := eventRoutes.location body;
                 Event.organizerId := User.id user;
                 Event.category := None |}];
           registrations := registrations db; feedbacks := feedbacks db;
           userSeq := userSeq db; eventSeq := eventSeq db + 1;
           registrationSeq := registrationSeq db;
           feedbackSeq := feedbackSeq db |} (eventSeq db) =
      Some {| Event.id := eventSeq db;
              Event.title := eventRoutes.title body;
              Event.description := eventRoutes.description body;
              Event.date := eventRoutes.date body;
              Event.location := eventRoutes.location body;
              Event.organizerId := User.id user;
              Event.category := None |}).
    { unfold Prisma.event_findUnique. simpl.
      rewrite (find_app_none _ _ _ (not_below_not_found db Hbelow)).
      simpl. now rewrite Z.eqb_refl. }
    repeat match goal with |- _ /\ _ => split end; try reflexivity.
    + exact Hfound.
    + intros body'. unfold eventRoutes.put_event, Prisma.event_update.
      rewrite Hrole, Hfound. simpl. rewrite Z.eqb_refl. reflexivity.
    + intros other body' Hid Hadmin. unfold eventRoutes.put_event.
      destruct (String.eqb (User.role other) "ATTENDEE"); [reflexivity|].
      rewrite Hfound. simpl.
      apply String.eqb_neq in Hadmin. rewrite Hadmin.
      replace (User.id user =? User.id other) with false
        by (symmetry; apply Z.eqb_neq; congruence).
      reflexivity.
Qed.

(** X14. An update that is let through rewrites the title, the description,
    the date and the location of the event and nothing else: the event
    found under the id afterwards is the old one with the four fields of
    the body, so its id, organizer and category stay; the other events, the
    users, the registrations and the feedback are as before. *)
Theorem put_event_rewrites_four_fields :
  forall (db : Db) (user : User.t) (eventId : Z) (body : eventRoutes.EventBody)
         (event : Event.t),
    User.role user <> "ATTENDEE" ->
    Prisma.event_findUnique db eventId = Some event ->
    Event.organizerId event = User.id user \/ User.role user = "ADMIN" ->
    exists db',
      eventRoutes.served (eventRoutes.put_event db user eventId body) =
        (db', {| res_status := 200;
                 res_body :=
                   JObj [("message", JStr "Event updated successfully");
                         ("event", Event.toJson (eventRoutes.patch body event))] |}) /\
      Prisma.event_findUnique db' eventId = Some (eventRoutes.patch body event) /\
      Event.id (eventRoutes.patch body event) = Event.id event /\
      Event.organizerId (eventRoutes.patch body event) = Event.organizerId event /\
      Event.category (eventRoutes.patch body event) = Event.category event /\
      (forall e, In e (events db) -> Event.id e <> eventId -> In e (events db')) /\
      List.length (events db') = List.length (events db) /\
      users db' = users db /\
      registrations db' = registrations db /\
      feedbacks db' = feedbacks db.
Proof.
  intros db user eventId body event Hrole Hfind Hallowed.
  assert (Hgate : negb (Event.organizerId event =? User.id user)
                  && negb (String.eqb (User.role user) "ADMIN") = false).
  { destruct Hallowed as [->| ->]; [now rewrite Z.eqb_refl|].
    now rewrite andb_false_r. }
  unfold eventRoutes.served, eventRoutes.put_event, Prisma.event_update.
  apply String.eqb_neq in Hrole. rewrite Hrole, Hfind, Hgate. simpl.
  eexists. split; [reflexivity|]. simpl.
  repeat match goal with |- _ /\ _ => split end; try reflexivity.
  - unfold Prisma.event_findUnique. simpl.
    apply (find_map_update (fun e => Event.id e =? eventId)
             (fun e => Event.id e =? eventId) (eventRoutes.patch body)).
    + reflexivity.
    + exact Hfind.
    + apply find_some in Hfind as [_ H]. exact H.
  - intros e He Hid. apply in_map_iff. exists e. split; auto.
    apply Z.eqb_neq in Hid. now rewrite Hid.
  - apply length_map.
Qed.

(** X15. A deletion that is let through first removes every registration
    for the event, and then asks the store to remove the event. When no
    feedback refers to the event, the request is answered 200: no event is
    found under the id, no user has a registration for it, and the
    registrations for other events, the other events, the feedback and the
    users stay. When the store refuses to remove the event, as it does for
    an event that a feedback refers to, the error goes to the error
    handler, the event stays, and its registrations are gone all the
    same. *)
Theorem delete_event_removes_registrations :
  forall (db : Db) (user : User.t) (eventId : Z) (event : Event.t),
    User.role user <> "ATTENDEE" ->
    Prisma.event_findUnique db eventId = Some event ->
    Event.organizerId event = User.id user \/ User.role user = "ADMIN" ->
    ((forall f, In f (feedbacks db) -> Feedback.eventId f <> eventId) ->
     exists db',
       eventRoutes.served (eventRoutes.delete_event db user eventId) =
         (db', {| res_status := 200;
                  res_body := message_body "Event deleted successfully" |}) /\
       Prisma.event_findUnique db' eventId = None /\
       (forall userId, count_registrations db' userId eventId = 0%nat) /\
       (forall userId eventId',
           eventId' <> eventId ->
           count_registrations db' userId eventId' =
           count_registrations db userId eventId') /\
       (forall e, In e (events db) -> Event.id e <> eventId -> In e (events db')) /\
       feedbacks db' = feedbacks db /\
       users db' = users db)
    /\
    (forall err : JsError,
       Prisma.event_delete (Prisma.registration_deleteMany_event db eventId)
         eventId = inl err ->
       exists db',
         eventRoutes.served (eventRoutes.delete_event db user eventId) =
           (db', errorHandler err) /\
         Prisma.event_findUnique db' eventId = Some event /\
         (forall userId, count_registrations db' userId eventId = 0%nat) /\
         (forall userId eventId',
             eventId' <> eventId ->
             count_registrations db' userId eventId' =
             count_registrations db userId eventId') /\
         events db' = events db /\
         feedbacks db' = feedbacks db /\
         users db' = users db)
    /\
    ((exists f, In f (feedbacks db) /\ Feedback.eventId f = eventId) ->
     Prisma.event_delete (Prisma.registration_deleteMany_event db eventId)
       eventId = inl (Prisma.KnownRequestError "P2003")).
Proof.
  intros db user eventId event Hrole Hfind Hallowed.
  assert (Hgate : negb (Event.organizerId event =? User.id user)
                  && negb (String.eqb (User.role user) "ADMIN") = false).
  { destruct Hallowed as [->| ->]; [now rewrite Z.eqb_refl|].
    now rewrite andb_false_r. }
  assert (Hnone : forall userId,
             count_registrations
               (Prisma.registration_deleteMany_event db eventId) userId eventId
             = 0%nat).
  { intros userId. unfold count_registrations. simpl.
    rewrite filter_filter_none; [reflexivity|].
    intros r Hr. unfold Prisma.registration_is in Hr.
    apply andb_prop in Hr as [_ He]. now rewrite He. }
  assert (Hsame : forall userId eventId',
             eventId' <> eventId ->
             count_registrations
               (Prisma.registration_deleteMany_event db eventId) userId eventId'
             = count_registrations db userId eventId').
  { intros userId eventId' Hne. unfold count_registrations. simpl.
    rewrite filter_filter_same; [reflexivity|].
    intros r Hr. unfold Prisma.registration_is in Hr.
    apply andb_prop in Hr as [_ He]. apply Z.eqb_eq in He.
    apply negb_true_iff. apply Z.eqb_neq. congruence. }
  apply String.eqb_neq in Hrole.
  split; [|split].
  - intros Hfree.
    unfold eventRoutes.served, eventRoutes.delete_event, Prisma.event_delete.
    rewrite Hrole, Hfind, Hgate.
    rewrite deleteMany_keeps_events, Hfind, referred_after_deleteMany,
      (no_feedback_refers _ _ Hfree).
    simpl.
    eexists. split; [reflexivity|]. simpl.
    repeat match goal with |- _ /\ _ => split end; try reflexivity.
    + unfold Prisma.event_findUnique. simpl.
      apply (find_filter_out (fun e => Event.id e =? eventId)).
    + exact Hnone.
    + exact Hsame.
    + intros e He Hid. apply filter_In. split; auto.
      apply negb_true_iff. now apply Z.eqb_neq.
  - intros err Herr.
    unfold eventRoutes.served, eventRoutes.delete_event.
    rewrite Hrole, Hfind, Hgate, Herr. simpl.
    eexists. split; [reflexivity|].
    repeat match goal with |- _ /\ _ => split end; try reflexivity.
    + exact Hfind.
    + exact Hnone.
    + exact Hsame.
  - intros (f & Hin & Hf).
    unfold Prisma.event_delete.
    rewrite deleteMany_keeps_events, Hfind, referred_after_deleteMany.
    replace (existsb _ (feedbacks db)) with true; [reflexivity|].
    symmetry. apply existsb_exists. exists f. split; [exact Hin|].
    now apply Z.eqb_eq.
Qed.

End EventLifeCycle.

(** Witness for X13: carol, an ADMIN, is refused; alice, an ORGANIZER,
    creates event 8 and may update it, and dave may not. *)
Lemma create_event_belongs_to_creator_witness :
  res_status (snd (eventRoutes.served
                     (eventRoutesRest.create_event demo_db carol demo_body)))
    = 403 /\
  exists db' event,
    eventRoutes.served (eventRoutesRest.create_event demo_db alice demo_body) =
      (db', {| res_status := 201;
               res_body := JObj [("event", Event.toJson event)] |}) /\
    Event.id event = 8 /\
    Event.organizerId event = 1 /\
    res_status (snd (eventRoutes.served
                       (eventRoutes.put_event db' dave (Event.id event)
                          demo_body))) = 403.
Proof.
  split.
  - destruct (create_event_belongs_to_creator demo_db carol demo_body)
      as (Hrefused & _).
    rewrite Hrefused; [reflexivity|discriminate].
  - destruct (create_event_belongs_to_creator demo_db alice demo_body)
      as (_ & Hcreated).
    destruct (Hcreated eq_refl) as
      (db' & event & Hrun & _ & Hid & Horg & _ & _ & _ & Hother).
    + simpl. repeat constructor; simpl; lia.
    + exists db', event. repeat split; try assumption.
      apply Hother; discriminate.
Defined.

(** Witness for X14: alice updates her event 7. *)
Lemma put_event_rewrites_four_fields_witness :
  exists db',
    eventRoutes.served (eventRoutes.put_event demo_db alice 7 demo_body) =
      (db', {| res_status := 200;
               res_body :=
                 JObj [("message", JStr "Event updated successfully");
                       ("event", Event.toJson (eventRoutes.patch demo_body
                                                 workshop))] |}) /\
    Prisma.event_findUnique db' 7 = Some (eventRoutes.patch demo_body workshop) /\
    Event.category (eventRoutes.patch demo_body workshop) = Some "tech".
Proof.
  destruct (put_event_rewrites_four_fields demo_db alice 7 demo_body workshop)
    as (db' & Hrun & Hfound & _ & _ & Hcat & _).
  - discriminate.
  - reflexivity.
  - left. reflexivity.
  - exists db'. repeat split; assumption.
Defined.

(** Witness for X15: carol, an ADMIN, deletes event 7, for which bob was
    registered; once bob has given feedback for it, the deletion is refused
    and bob's registration is gone. *)
Lemma delete_event_removes_registrations_witness :
  (exists db',
      eventRoutes.served (eventRoutes.delete_event demo_db carol 7) =
        (db', {| res_status := 200;
                 res_body := message_body "Event deleted successfully" |}) /\
      Prisma.event_findUnique db' 7 = None /\
      count_registrations db' 2 7 = 0%nat) /\
  (exists db',
      eventRoutes.served (eventRoutes.delete_event demo_db_feedback carol 7) =
        (db', {| res_status := 500;
                 res_body := JObj [("status", JStr "error");
                                   ("message", JStr "Invalid invocation: P2003")] |}) /\
      Prisma.event_findUnique db' 7 = Some workshop /\
      count_registrations demo_db_feedback 2 7 = 1%nat /\
      count_registrations db' 2 7 = 0%nat).
Proof.
  split.
  - destruct (delete_event_removes_registrations demo_db carol 7 workshop)
      as (Hfree & _).
    + discriminate.
    + reflexivity.
    + right. reflexivity.
    + destruct Hfree as (db' & Hrun & Hgone & Hregs & _); [intros f []|].
      exists db'. repeat split; auto.
  - destruct (delete_event_removes_registrations demo_db_feedback carol 7
                workshop)
      as (_ & Hrefused & Hreferred).
    + discriminate.
    + reflexivity.
    + right. reflexivity.
    + assert (Herr : Prisma.event_delete
                       (Prisma.registration_deleteMany_event demo_db_feedback 7)
                       7 = inl (Prisma.KnownRequestError "P2003")).
      { apply Hreferred.
        exists {| Feedback.id := 1; Feedback.userId := 2;
                  Feedback.eventId := 7; Feedback.feedback := "Great event" |}.
        split; [left|]; reflexivity. }
      destruct (Hrefused _ Herr) as (db' & Hrun & Hkept & Hregs & _).
      exists db'. split; [exact Hrun|]. split; [exact Hkept|].
      split; [reflexivity|apply Hregs].
Defined.

(* ------------------------------------------------------------------ *)
(** ** Deletion of a registration, and the history *)

Section Unregistration.
Context {L : Libs}.

Lemma filter_nothing_out {A : Type} (p : A -> bool) (l : list A) :
  List.length (filter p l) = 0%nat -> filter (fun x => negb (p x)) l = l.
Proof.
  induction l as [|x l IH]; simpl; [reflexivity|].
  destruct (p x); simpl; [discriminate|]. intros H. now rewrite IH.
Qed.

Lemma set_registrations_same (db : Db) :
  set_registrations db (registrations db) (registrationSeq db) = db.
Proof. now destruct db. Qed.

Lemma unregister_store (db : Db) (user : User.t) (eventId : Z) :
  fst (eventRoutesRest.unregister db user eventId) =
    set_registrations db
      (filter (fun r => negb (Prisma.registration_is (User.id user) eventId r))
         (registrations db))
      (registrationSeq db).
Proof.
  unfold eventRoutesRest.unregister, PrismaRest.registration_deleteMany.
  now destruct (_ =? 0).
Qed.

Lemma pair_differs (userId eventId userId' eventId' : Z) (r : Registration.t) :
  (userId', eventId') <> (userId, eventId) ->
  Prisma.registration_is userId' eventId' r = true ->
  negb (Prisma.registration_is userId eventId r) = true.
Proof.
  unfold Prisma.registration_is. intros Hne H.
  apply andb_prop in H as [Hu He].
  apply Z.eqb_eq in Hu, He. apply negb_true_iff.
  destruct (Z.eqb_spec (Registration.userId r) userId);
    destruct (Z.eqb_spec (Registration.eventId r) eventId); auto.
  exfalso. apply Hne. congruence.
Qed.

(** The deletion of an existing registration. *)
Lemma unregister_deletes (db : Db) (user : User.t) (eventId : Z) :
  (0 < count_registrations db (User.id user) eventId)%nat ->
  exists db',
    eventRoutes.served (eventRoutesRest.unregister db user eventId) =
      (db', {| res_status := 200;
               res_body := message_body "Registration deleted successfully" |}) /\
    count_registrations db' (User.id user) eventId = 0%nat /\
    feedbacks db' = feedbacks db.
Proof.
  intros Hc. eexists. split.
  - unfold eventRoutes.served, eventRoutesRest.unregister,
      PrismaRest.registration_deleteMany.
    unfold count_registrations in Hc.
    replace (Z.of_nat _ =? 0) with false
      by (symmetry; apply Z.eqb_neq; lia).
    reflexivity.
  - simpl. split; [|reflexivity].
    unfold count_registrations. simpl.
    rewrite filter_filter_none; [reflexivity|].
    intros r Hr. now rewrite Hr.
Qed.

(** X16. Deleting one's registration: without a registration for the
    event, whose id is one of those that the id column holds, the answer is
    400 and the store stays as it was; with one, the answer is 200, the
    pair has no registration left, and the registrations of other pairs,
    the events and the feedback stay. A registration followed by its
    deletion leaves the pair without a row. *)
Theorem unregister_removes_own_rows :
  forall (db : Db) (user : User.t) (eventId : Z),
    (Prisma.id_in_range eventId ->
     count_registrations db (User.id user) eventId = 0%nat ->
     eventRoutes.served (eventRoutesRest.unregister db user eventId) =
       (db, {| res_status := 400;
               res_body := failure "You are not registered for this event" |}))
    /\
    ((0 < count_registrations db (User.id user) eventId)%nat ->
     exists db',
       eventRoutes.served (eventRoutesRest.unregister db user eventId) =
         (db', {| res_status := 200;
                  res_body :=
                    message_body "Registration deleted successfully" |}) /\
       count_registrations db' (User.id user) eventId = 0%nat /\
       (forall userId' eventId',
           (userId', eventId') <> (User.id user, eventId) ->
           count_registrations db' userId' eventId' =
           count_registrations db userId' eventId') /\
       events db' = events db /\
       feedbacks db' = feedbacks db)
    /\
    (forall e : Event.t,
        Prisma.event_findUnique db eventId = Some e ->
        count_registrations db (User.id user) eventId = 0%nat ->
        exists db1 resp1 db2,
          eventRoutes.served (eventRoutes.register db user eventId) =
            (db1, resp1) /\
          res_status resp1 = 201 /\
          eventRoutes.served (eventRoutesRest.unregister db1 user eventId) =
            (db2, {| res_status := 200;
                     res_body :=
                       message_body "Registration deleted successfully" |}) /\
          count_registrations db2 (User.id user) eventId = 0%nat /\
          registrations db2 = registrations db).
Proof.
  intros db user eventId.
  assert (Hdeleted : forall d : Db,
    (0 < count_registrations d (User.id user) eventId)%nat ->
    eventRoutes.served (eventRoutesRest.unregister d user eventId) =
      (set_registrations d
         (filter (fun r => negb (Prisma.registration_is (User.id user) eventId r))
            (registrations d))
         (registrationSeq d),
       {| res_status := 200;
          res_body := message_body "Registration deleted successfully" |})).
  { intros d Hc. unfold eventRoutes.served, eventRoutesRest.unregister,
      PrismaRest.registration_deleteMany.
    unfold count_registrations in Hc.
    replace (Z.of_nat _ =? 0) with false
      by (symmetry; apply Z.eqb_neq; lia).
    reflexivity. }
  split; [|split].
  - intros _ Hc. unfold eventRoutes.served, eventRoutesRest.unregister,
      PrismaRest.registration_deleteMany.
    unfold count_registrations in Hc. rewrite Hc. simpl.
    rewrite (filter_nothing_out _ _ Hc), set_registrations_same. reflexivity.
  - intros Hc. eexists. split; [apply (Hdeleted db Hc)|]. simpl.
    repeat match goal with |- _ /\ _ => split end; try reflexivity.
    + unfold count_registrations. simpl.
      rewrite filter_filter_none; [reflexivity|].
      intros r Hr. now rewrite Hr.
    + intros userId' eventId' Hne. unfold count_registrations. simpl.
      rewrite filter_filter_same; [reflexivity|].
      intros r Hr. eapply pair_differs; eauto.
  - intros e He Hc.
    pose proof (register_creates_row db user eventId e He Hc) as Hrun.
    simpl in Hrun.
    set (row := {| Registration.id := registrationSeq db |}) in *.
    set (db1 := set_registrations db _ _) in *.
    assert (Hone : count_registrations db1 (User.id user) eventId = 1%nat).
    { unfold count_registrations in *. unfold db1. simpl.
      rewrite count_app, Hc. unfold Prisma.registration_is. simpl.
      now rewrite !Z.eqb_refl. }
    exists db1. do 2 eexists. split; [exact Hrun|]. split; [reflexivity|].
    split; [apply Hdeleted; lia|]. simpl. split.
    + unfold count_registrations. simpl.
      rewrite filter_filter_none; [reflexivity|].
      intros r Hr. now rewrite Hr.
    + rewrite filter_app. simpl. unfold Prisma.registration_is at 2. simpl.
      rewrite !Z.eqb_refl. simpl. rewrite app_nil_r.
      apply (filter_nothing_out _ _ Hc).
Qed.

(** X17. The feedback of a pair outlives its registration: after the
    registration is deleted the feedback rows of the pair are still in the
    store, and a new submission of feedback is answered 400 and changes
    nothing. *)
Theorem feedback_refused_after_unregister :
  forall (db : Db) (user : User.t) (eventId : Z) (text : string),
    (0 < count_registrations db (User.id user) eventId)%nat ->
    exists db',
      eventRoutes.served (eventRoutesRest.unregister db user eventId) =
        (db', {| res_status := 200;
                 res_body := message_body "Registration deleted successfully" |}) /\
      Prisma.feedback_findUnique db' (User.id user) eventId =
        Prisma.feedback_findUnique db (User.id user) eventId /\
      eventRoutes.served (eventRoutes.feedback db' user eventId text) =
        (db', {| res_status := 400;
                 res_body := failure "You are not registered for this event" |}).
Proof.
  intros db user eventId text Hc.
  destruct (unregister_deletes db user eventId Hc)
    as (db' & Hrun & Hzero & Hfb).
  exists db'. split; [exact Hrun|]. split.
  - unfold Prisma.feedback_findUnique. now rewrite Hfb.
  - now apply feedback_unregistered.
Qed.

End Unregistration.

(** Witness for X16: carol has no registration for event 7 and bob has
    one; carol registers and then deletes her registration. *)
Lemma unregister_removes_own_rows_witness :
  res_status (snd (eventRoutes.served
                     (eventRoutesRest.unregister demo_db carol 7))) = 400 /\
  (exists db',
      eventRoutes.served (eventRoutesRest.unregister demo_db bob 7) =
        (db', {| res_status := 200;
                 res_body := message_body "Registration deleted successfully" |}) /\
      count_registrations db' 2 7 = 0%nat) /\
  (exists db1 resp1 db2,
      eventRoutes.served (eventRoutes.register demo_db carol 7) = (db1, resp1) /\
      eventRoutes.served (eventRoutesRest.unregister db1 carol 7) =
        (db2, {| res_status := 200;
                 res_body := message_body "Registration deleted successfully" |}) /\
      registrations db2 = registrations demo_db).
Proof.
  split; [|split].
  - destruct (unregister_removes_own_rows demo_db carol 7) as (H & _).
    rewrite H; [reflexivity|unfold Prisma.id_in_range; lia|reflexivity].
  - destruct (unregister_removes_own_rows demo_db bob 7) as (_ & H & _).
    destruct H as (db' & Hrun & Hzero & _).
    + unfold count_registrations. simpl. lia.
    + exists db'. split; assumption.
  - destruct (unregister_removes_own_rows demo_db carol 7) as (_ & _ & H).
    destruct (H workshop eq_refl eq_refl)
      as (db1 & resp1 & db2 & Hreg & _ & Hunreg & _ & Hsame).
    exists db1, resp1, db2. repeat split; assumption.
Defined.

(** Witness for X17: bob, who gave feedback for event 7, deletes his
    registration; his feedback stays and a new one is refused. *)
Lemma feedback_refused_after_unregister_witness :
  exists db',
    eventRoutes.served (eventRoutesRest.unregister demo_db_feedback bob 7) =
      (db', {| res_status := 200;
               res_body := message_body "Registration deleted successfully" |}) /\
    Prisma.feedback_findUnique db' 2 7 =
      Some {| Feedback.id := 1; Feedback.userId := 2; Feedback.eventId := 7;
              Feedback.feedback := "Great event" |} /\
    eventRoutes.served (eventRoutes.feedback db' bob 7 "Even better") =
      (db', {| res_status := 400;
               res_body := failure "You are not registered for this event" |}).
Proof.
  destruct (feedback_refused_after_unregister demo_db_feedback bob 7
              "Even better") as (db' & Hrun & Hkept & Hrefused).
  - unfold count_registrations. simpl. lia.
  - exists db'. split; [exact Hrun|]. split; [|exact Hrefused].
    transitivity (Prisma.feedback_findUnique demo_db_feedback (User.id bob) 7);
      [exact Hkept|reflexivity].
Defined.

Section History.
Context {L : Libs}.

(** X18. The history is for ATTENDEEs only: any other role, ADMIN
    included, is answered 403. An ATTENDEE is answered 200 with the
    registrations of the store whose user is the requester, all of them and
    no other, in the order of the store, each with the event found under
    its event id. The store stays as it was. *)
Theorem history_lists_own_registrations :
  forall (db : Db) (user : User.t),
    (User.role user <> "ATTENDEE" ->
     eventRoutes.served (eventRoutesRest.history db user) =
       (db, {| res_status := 403;
               res_body :=
                 failure "You do not have permission to perform this action" |}))
    /\
    (User.role user = "ATTENDEE" ->
     exists rows : list (Registration.t * option Event.t),
       eventRoutes.served (eventRoutesRest.history db user) =
         (db, {| res_status := 200;
                 res_body :=
                   JObj [("registrations",
                          JArr (map eventRoutesRest.registration_with_event
                                  rows))] |}) /\
       map fst rows =
         filter (fun r => Registration.userId r =? User.id user)
           (registrations db) /\
       (forall r e, In (r, e) rows ->
                    In r (registrations db) /\
                    Registration.userId r = User.id user /\
                    e = Prisma.event_findUnique db (Registration.eventId r)) /\
       (forall r, In r (registrations db) ->
                  Registration.userId r = User.id user ->
                  In (r, Prisma.event_findUnique db (Registration.eventId r))
                    rows)).
Proof.
  intros db user. split.
  - intros Hrole. unfold eventRoutes.served, eventRoutesRest.history.
    apply String.eqb_neq in Hrole. now rewrite Hrole.
  - intros Hrole. unfold eventRoutes.served, eventRoutesRest.history.
    rewrite Hrole. simpl.
    exists (PrismaRest.registration_findMany_user db (User.id user)).
    split; [reflexivity|]. unfold PrismaRest.registration_findMany_user.
    split; [|split].
    + rewrite map_map. simpl. apply map_id.
    + intros r e Hin. apply in_map_iff in Hin as (r' & [= <- <-] & Hin).
      apply filter_In in Hin as [Hin Hu]. apply Z.eqb_eq in Hu. auto.
    + intros r Hin Hu. apply in_map_iff. exists r. split; [reflexivity|].
      apply filter_In. split; [exact Hin|]. now apply Z.eqb_eq.
Qed.

End History.

(** Witness for X18: carol, an ADMIN, is refused; bob sees his registration
    for event 7 with the event. *)
Lemma history_lists_own_registrations_witness :
  res_status (snd (eventRoutes.served (eventRoutesRest.history demo_db carol)))
    = 403 /\
  exists rows,
    eventRoutes.served (eventRoutesRest.history demo_db bob) =
      (demo_db,
       {| res_status := 200;
          res_body :=
            JObj [("registrations",
                   JArr (map eventRoutesRest.registration_with_event rows))] |}) /\
    map fst rows = [{| Registration.id := 1; Registration.userId := 2;
                       Registration.eventId := 7 |}].
Proof.
  split.
  - destruct (history_lists_own_registrations demo_db carol) as (H & _).
    rewrite H; [reflexivity|discriminate].
  - destruct (history_lists_own_registrations demo_db bob) as (_ & H).
    destruct (H eq_refl) as (rows & Hrun & Hrows & _).
    exists rows. split; [exact Hrun|]. rewrite Hrows. reflexivity.
Defined.

(* ------------------------------------------------------------------ *)
(** ** The listing of events *)

Section Listing.
Context {L : Libs}.





End Listing.


(* ------------------------------------------------------------------ *)
(** ** The pages, one after the other *)

Section PageSequence.
Context {L : Libs}.

Lemma firstn_add {A : Type} (a b : nat) (l : list A) :
  firstn (a + b) l = firstn a l ++ firstn b (skipn a l).
Proof.
  revert l. induction a as [|a IH]; intros l; simpl; [reflexivity|].
  destruct l as [|x l]; simpl.
  - now rewrite firstn_nil.
  - now rewrite IH.
Qed.

Lemma page_offset (n : nat) :
  Z.to_nat ((Z.of_nat (S n) - 1) * 10) = (10 * n)%nat.
Proof. lia. Qed.

(** The page query with a skip that does not fit. *)
Lemma page_refused (db : Db) (pageNumber : Z) :
  9223372036854775807 < (pageNumber - 1) * 10 ->
  Prisma.event_findMany db (eventRoutes.page_args pageNumber) =
    inl (Prisma.KnownRequestError "P2033").
Proof.
  intros Hbig.
  unfold Prisma.event_findMany, eventRoutes.page_args. simpl.
  unfold eventRoutes.pageSize.
  replace ((pageNumber - 1) * 10 <=? 9223372036854775807) with false
    by (symmetry; apply Z.leb_gt; lia).
  now rewrite andb_false_r.
Qed.

(** X20. The pages cut the events, in ascending order of id, into runs of
    10: the request for page [pageNumber >= 1], its skip being among the
    integers that the source computes exactly, is answered 200 with
    [min 10 (total - 10 * (pageNumber - 1))] events, so such a page past
    the last event is an empty list and not an error. A page whose skip
    does not fit a 64-bit integer is refused by the store's client, and the
    error goes to the error handler. The pages 1 to [n] put one after the
    other are the first [10 * n] events in that order, none skipped and
    none repeated. *)
Theorem pages_partition_events :
  forall (db : Db) (user : User.t),
    (forall (param : string) (pageNumber : Z),
        Js.parseInt param = Some pageNumber ->
        1 <= pageNumber ->
        (pageNumber - 1) * 10 <= max_safe_integer ->
        eventRoutes.served (eventRoutes.get_page db user param) =
          (db, {| res_status := 200;
                  res_body := JArr (map Event.toJson (page_events db pageNumber)) |}) /\
        List.length (page_events db pageNumber) =
          Nat.min 10 (List.length (events db)
                      - Z.to_nat ((pageNumber - 1) * 10)) /\
        ((List.length (events db) <= Z.to_nat ((pageNumber - 1) * 10))%nat ->
         page_events db pageNumber = []))
    /\
    (forall (param : string) (pageNumber : Z),
        Js.parseInt param = Some pageNumber ->
        9223372036854775807 < (pageNumber - 1) * 10 ->
        eventRoutes.served (eventRoutes.get_page db user param) =
          (db, errorHandler (Prisma.KnownRequestError "P2033")))
    /\
    (forall n : nat,
        List.concat (map (fun k => page_events db (Z.of_nat k)) (seq 1 n)) =
        firstn (10 * n) (sort_rows id_leb (events db))).
Proof.
  intros db user.
  assert (Hlen : List.length (sort_rows id_leb (events db))
                 = List.length (events db)).
  { apply Permutation_length. apply sort_rows_perm. }
  split; [|split].
  - intros param pageNumber Hparse Hge Hsafe. split; [|split].
    + unfold eventRoutes.served, eventRoutes.get_page.
      rewrite Hparse.
      replace (pageNumber <? 1) with false by (symmetry; apply Z.ltb_ge; lia).
      rewrite page_rows; [reflexivity|exact Hge|].
      unfold max_safe_integer in Hsafe. lia.
    + unfold page_events. now rewrite length_firstn, length_skipn, Hlen.
    + intros Hpast. unfold page_events.
      rewrite skipn_all2; [reflexivity|]. now rewrite Hlen.
  - intros param pageNumber Hparse Hbig.
    unfold eventRoutes.served, eventRoutes.get_page.
    rewrite Hparse.
    replace (pageNumber <? 1) with false by (symmetry; apply Z.ltb_ge; lia).
    now rewrite (page_refused db pageNumber Hbig).
  - induction n as [|n IH]; [reflexivity|].
    rewrite seq_S, map_app, concat_app, IH.
    change (List.concat
              (map (fun k => page_events db (Z.of_nat k)) [(1 + n)%nat]))
      with (page_events db (Z.of_nat (S n)) ++ []).
    rewrite app_nil_r. unfold page_events. rewrite (page_offset n).
    replace (10 * S n)%nat with (10 * n + 10)%nat by lia.
    apply eq_sym, firstn_add.
Qed.

End PageSequence.

(** Witness for X20: the store of the examples has two events, all on page
    1; page 2 is empty; page 99999999999999999999 is refused. *)
Lemma pages_partition_events_witness :
  eventRoutes.served (eventRoutes.get_page demo_db bob "1") =
    (demo_db, {| res_status := 200;
                 res_body := JArr (map Event.toJson [meetup; workshop]) |}) /\
  eventRoutes.served (eventRoutes.get_page demo_db bob "2") =
    (demo_db, {| res_status := 200; res_body := JArr [] |}) /\
  eventRoutes.served (eventRoutes.get_page demo_db bob "99999999999999999999") =
    (demo_db, {| res_status := 500;
                 res_body := JObj [("status", JStr "error");
                                   ("message", JStr "Invalid invocation: P2033")] |}).
Proof.
  destruct (pages_partition_events demo_db bob) as (Hpage & Hrefused & _).
  split; [|split].
  - destruct (Hpage "1" 1 eq_refl ltac:(lia)
                ltac:(unfold max_safe_integer; lia)) as (Hrun & _).
    exact Hrun.
  - destruct (Hpage "2" 2 eq_refl ltac:(lia)
                ltac:(unfold max_safe_integer; lia)) as (Hrun & _ & Hempty).
    rewrite Hrun, Hempty; [reflexivity|]. simpl. lia.
  - rewrite (Hrefused "99999999999999999999" 99999999999999999999 eq_refl);
      [reflexivity|lia].
Defined.

(* ------------------------------------------------------------------ *)
(** ** Deletion of an account *)

Section AccountDeletion.
Variable user_delete : Db -> option Z -> JsError + Db.

(** X21. Whatever the store does on a deletion, a requester who is not an
    ADMIN and whose id is not the number that the path parameter parses to
    is answered 403, the store's delete is not called and the store stays
    as it was; a parameter that is not a number is among these. An ADMIN,
    and a requester whose own id the parameter parses to, reach the store's
    delete with the parsed number: 200 when it succeeds, and its error
    handed on otherwise, the store unchanged. *)
Theorem delete_user_needs_admin_or_own_id :
  forall (db : Db) (user : User.t) (param : string),
    (User.role user <> "ADMIN" ->
     Js.parseInt param <> Some (User.id user) ->
     authRoutesRest.delete_user user_delete db user param =
       (db, Respond {| res_status := 403;
                       res_body :=
                         message_body
                           "You do not have permission to delete this user" |}))
    /\
    (User.role user = "ADMIN" \/ Js.parseInt param = Some (User.id user) ->
     authRoutesRest.delete_user user_delete db user param =
       match user_delete db (Js.parseInt param) with
       | inl err => (db, Next err)
       | inr db' =>
           (db', Respond {| res_status := 200;
                            res_body :=
                              message_body "User deleted successfully" |})
       end).
Proof.
  intros db user param. unfold authRoutesRest.delete_user. split.
  - intros Hrole Hother. apply String.eqb_neq in Hrole. rewrite Hrole.
    replace (authRoutesRest.differs (User.id user) (Js.parseInt param))
      with true; [reflexivity|].
    unfold authRoutesRest.differs.
    destruct (Js.parseInt param) as [n|]; [|reflexivity].
    symmetry. apply negb_true_iff. apply Z.eqb_neq. congruence.
  - intros Hallowed.
    replace (negb (String.eqb (User.role user) "ADMIN")
             && authRoutesRest.differs (User.id user) (Js.parseInt param))
      with false; [reflexivity|].
    destruct Hallowed as [->| ->]; [reflexivity|].
    unfold authRoutesRest.differs. rewrite Z.eqb_refl.
    now rewrite andb_false_r.
Qed.

End AccountDeletion.

(** Witness for X21: bob may not delete alice's account, nor one named by a
    word; he may delete his own, and carol, an ADMIN, may delete alice's. *)
Lemma delete_user_needs_admin_or_own_id_witness :
  fst (authRoutesRest.delete_user demo_user_delete demo_db bob "1") = demo_db /\
  fst (authRoutesRest.delete_user demo_user_delete demo_db bob "me") = demo_db /\
  map User.id
    (users (fst (authRoutesRest.delete_user demo_user_delete demo_db bob "2")))
    = [1; 3; 4] /\
  map User.id
    (users (fst (authRoutesRest.delete_user demo_user_delete demo_db carol "1")))
    = [2; 3; 4].
Proof.
  split; [|split; [|split]].
  - destruct (delete_user_needs_admin_or_own_id demo_user_delete demo_db bob "1")
      as (H & _).
    rewrite H; [reflexivity|discriminate|discriminate].
  - destruct (delete_user_needs_admin_or_own_id demo_user_delete demo_db bob "me")
      as (H & _).
    rewrite H; [reflexivity|discriminate|discriminate].
  - destruct (delete_user_needs_admin_or_own_id demo_user_delete demo_db bob "2")
      as (_ & H).
    rewrite H; [reflexivity|]. right. reflexivity.
  - destruct (delete_user_needs_admin_or_own_id demo_user_delete demo_db carol "1")
      as (_ & H).
    rewrite H; [reflexivity|]. left. reflexivity.
Defined.

(* ------------------------------------------------------------------ *)
(** ** What the rules of the tables give *)

Section UniqueRows.
Context {A B : Type} (key : A -> B).

Lemma unique_key_one_row (p : A -> bool) (k : B) (l : list A) :
  NoDup (map key l) ->
  (forall x, p x = true -> key x = k) ->
  (List.length (filter p l) <= 1)%nat.
Proof.
  intros Hnd Hp. induction l as [|x l IH]; simpl; [lia|].
  inversion Hnd as [|? ? Hx Hl]; subst.
  destruct (p x) eqn:E; [|now apply IH].
  assert (Hnone : filter p l = []).
  { destruct (filter p l) as [|y rest] eqn:F; [reflexivity|].
    exfalso. apply Hx.
    assert (Hy : In y (filter p l)) by (rewrite F; now left).
    apply filter_In in Hy as [Hy Hpy].
    rewrite (Hp x E), <- (Hp y Hpy). now apply in_map. }
  rewrite Hnone. simpl. lia.
Qed.

Lemma unique_key_found (p : A -> bool) (l : list A) (x : A) :
  NoDup (map key l) ->
  In x l ->
  p x = true ->
  (forall y, p y = true -> key y = key x) ->
  find p l = Some x.
Proof.
  intros Hnd Hin Hpx Hp. induction l as [|y l IH]; [contradiction|].
  inversion Hnd as [|? ? Hy Hl]; subst. simpl.
  destruct Hin as [->|Hin]; [now rewrite Hpx|].
  destruct (p y) eqn:E; [|now apply IH].
  exfalso. apply Hy. rewrite (Hp y E). now apply in_map.
Qed.

End UniqueRows.

Section RulesAtWork.
Context {L : Libs}.

(** In a store that keeps the rules of the tables, a pair of a user
    and an event has at most one registration and at most one feedback, and
    every lookup by a unique column gives back the row itself: a user is
    found under its id and under its email, an event under its id, a
    registration and a feedback under their pair. *)
Theorem rules_make_lookups_exact :
  forall db : Db,
    store_ok db ->
    (forall userId eventId,
        (count_registrations db userId eventId <= 1)%nat /\
        (count_feedbacks db userId eventId <= 1)%nat) /\
    (forall u, In u (users db) ->
               Prisma.user_findUnique_id db (User.id u) = Some u /\
               Prisma.user_findUnique_email db (User.email u) = Some u) /\
    (forall e, In e (events db) ->
               Prisma.event_findUnique db (Event.id e) = Some e) /\
    (forall r, In r (registrations db) ->
               Prisma.registration_findUnique db (Registration.userId r)
                 (Registration.eventId r) = Some r) /\
    (forall f, In f (feedbacks db) ->
               Prisma.feedback_findUnique db (Feedback.userId f)
                 (Feedback.eventId f) = Some f).
Proof.
  intros db Hok. destruct Hok.
  assert (Hreg : forall u e r, Prisma.registration_is u e r = true ->
                               registration_pair r = (u, e)).
  { intros u e r H. unfold Prisma.registration_is in H.
    apply andb_prop in H as [Hu He]. apply Z.eqb_eq in Hu, He.
    unfold registration_pair. congruence. }
  assert (Hfb : forall u e f, Prisma.feedback_is u e f = true ->
                              feedback_pair f = (u, e)).
  { intros u e f H. unfold Prisma.feedback_is in H.
    apply andb_prop in H as [Hu He]. apply Z.eqb_eq in Hu, He.
    unfold feedback_pair. congruence. }
  repeat match goal with |- _ /\ _ => split end.
  - intros userId eventId. split.
    + apply (unique_key_one_row registration_pair _ (userId, eventId)); auto.
    + apply (unique_key_one_row feedback_pair _ (userId, eventId)); auto.
  - intros u Hin. split.
    + apply (unique_key_found User.id); auto; [apply Z.eqb_refl|].
      intros y Hy. now apply Z.eqb_eq in Hy.
    + apply (unique_key_found User.email); auto; [apply String.eqb_refl|].
      intros y Hy. now apply String.eqb_eq in Hy.
  - intros e Hin.
    apply (unique_key_found Event.id); auto; [apply Z.eqb_refl|].
    intros y Hy. now apply Z.eqb_eq in Hy.
  - intros r Hin.
    apply (unique_key_found registration_pair); auto.
    + unfold Prisma.registration_is. now rewrite !Z.eqb_refl.
    + intros y Hy. now apply Hreg.
  - intros f Hin.
    apply (unique_key_found feedback_pair); auto.
    + unfold Prisma.feedback_is. now rewrite !Z.eqb_refl.
    + intros y Hy. now apply Hfb.
Qed.

Lemma find_map_kept {A : Type} (p q : A -> bool) (data : A -> A) (l : list A) :
  (forall x, p (data x) = p x) ->
  find p (map (fun x => if q x then data x else x) l) =
  option_map (fun x => if q x then data x else x) (find p l).
Proof.
  intros Hp. induction l as [|x l IH]; simpl; [reflexivity|].
  destruct (q x) eqn:Hq.
  - rewrite Hp. destruct (p x); simpl; [now rewrite Hq|exact IH].
  - destruct (p x); simpl; [now rewrite Hq|exact IH].
Qed.

(** X22. A request for a reset does not touch the login: after it, every
    login, of the user who asked and of any other, with any password, is
    answered as it would have been before, so the old password keeps
    working until the reset is consumed. *)
Theorem reset_request_leaves_logins :
  forall (db : Db) (email resetToken : string) (now : Z) (delivered : bool)
         (email' password' : string) (now' : Z),
    snd (authRoutes.post_login
           (fst (passwordRoutes.post_password_reset db email resetToken now
                   delivered))
           email' password' now') =
    snd (authRoutes.post_login db email' password' now').
Proof.
  intros db email resetToken now delivered email' password' now'.
  destruct (Prisma.user_findUnique_email db email) as [user|] eqn:Hfind.
  - destruct (password_reset_store db user email resetToken now delivered Hfind)
      as (-> & _).
    unfold authRoutes.post_login, authRoutes.login,
      Prisma.user_findUnique_email.
    simpl. rewrite find_map_kept by reflexivity.
    destruct (find _ (users db)) as [u|]; simpl; [|reflexivity].
    now destruct (User.id u =? User.id user).
  - unfold passwordRoutes.post_password_reset, passwordRoutes.password_reset.
    now rewrite Hfind.
Qed.

End RulesAtWork.
